(** * Tool-call orchestration of the Excel chat task pane

    A shallow embedding of [handleSendMessage] (the chat component of the
    task pane) and of [embedding_operations.ts], followed by the properties
    of the two-round tool-call protocol.

    - JavaScript values are a JSON-like inductive type; thrown values keep
      what the [catch] blocks of the source look at.
    - Every call that leaves the component (the excelOperations module, the
      OpenAI client) is an operation [Op R]; an environment answers it and
      moves on: [perform : Op R -> World -> Outcome R * World].
    - An [async] function is a [Task]: a tree of operations, suspended at
      each [await].  [Promise.all] runs a pool of tasks step by step under
      an explicit schedule.
    - The handler itself lives in a state-and-exception monad [M] over the
      component state (the message store, the loading flag), the world and
      a log of what was called.

    The definitions come first: the embedding, the courses a turn can
    take, and a scripted environment for concrete runs.  Then the facts:
    what tasks and [Promise.all] do, that every run of the handler takes
    one of the courses, and from there the properties of the protocol,
    each followed up on a concrete run at the end of the file. *)

From Stdlib Require Import String Ascii List ZArith Bool Lia.
Import ListNotations.
Open Scope string_scope.
Open Scope list_scope.

Set Implicit Arguments.
Set Warnings "-register-all".

(** String concatenation, kept apart from the [++] of lists. *)
Infix "+++" := String.append (right associativity, at level 60).

(* ================================================================== *)
(** ** JavaScript values                                                *)
(* ================================================================== *)

Module JS.

(** The double quote character, for the template literals that contain one. *)
Definition dquote : string := String (ascii_of_nat 34) EmptyString.

(** A number is kept as its [ToString] rendering: the code only ever
    interpolates numbers into text. *)
Inductive Value : Type :=
| Undefined
| Null
| Bool (b : bool)
| Number (repr : string)
| Str (s : string)
| Array (items : list Value)
| Object (fields : list (string * Value)).

(** A thrown value, as the [catch] blocks observe it.  An [Error] instance
    ([error instanceof Error]) has its [message]; the HTTP status it may
    carry is never read by the code.  Any other object that has a
    [response] property has its [response?.status].  Anything else is told
    apart no further. *)
Inductive Thrown : Type :=
| ErrorInstance (message : string) (http_status : option Z)
| ResponseObject (response_status : option Z)
| OtherThrown (v : Value).

Inductive Outcome (A : Type) : Type :=
| Ok (a : A)
| Throw (e : Thrown).
Arguments Ok {A} a.
Arguments Throw {A} e.

(** [`${v}`] for an element of an array: [null] and [undefined] print as
    the empty string inside [Array.prototype.join]. *)
Fixpoint toString (v : Value) : string :=
  match v with
  | Undefined => "undefined"
  | Null => "null"
  | Bool true => "true"
  | Bool false => "false"
  | Number r => r
  | Str s => s
  | Array items =>
      let fix joined (l : list Value) : string :=
        match l with
        | [] => EmptyString
        | x :: rest =>
            let sx := match x with
                      | Undefined | Null => EmptyString
                      | _ => toString x
                      end in
            match rest with
            | [] => sx
            | _ => sx +++ "," +++ joined rest
            end
        end in
      joined items
  | Object _ => "[object Object]"
  end.

(** JavaScript truthiness. *)
Definition truthy (v : Value) : bool :=
  match v with
  | Undefined | Null => false
  | Bool b => b
  | Number r => negb (String.eqb r "0" || String.eqb r "NaN")
  | Str s => negb (String.eqb s EmptyString)
  | Array _ | Object _ => true
  end.

Definition truthy_string (s : string) : bool := negb (String.eqb s EmptyString).

Fixpoint lookup (k : string) (fields : list (string * Value)) : Value :=
  match fields with
  | [] => Undefined
  | (k', v) :: rest => if String.eqb k k' then v else lookup k rest
  end.

(** [v.k] for the property names the handler reads (none of them is
    [length]): a [TypeError] on [null] and [undefined] (with the wording of
    V8), the field of an object, [undefined] on anything else. *)
Definition get (v : Value) (k : string) : Outcome Value :=
  match v with
  | Undefined =>
      Throw (ErrorInstance
        ("Cannot read properties of undefined (reading '" +++ k +++ "')") None)
  | Null =>
      Throw (ErrorInstance
        ("Cannot read properties of null (reading '" +++ k +++ "')") None)
  | Object fields => Ok (lookup k fields)
  | _ => Ok Undefined
  end.

(** [xs.includes(v)] for an array of strings. *)
Definition includes (xs : list string) (v : Value) : bool :=
  match v with
  | Str s => existsb (String.eqb s) xs
  | _ => false
  end.

(** [a || b] on strings. *)
Definition or_else (a b : string) : string := if truthy_string a then a else b.

End JS.
Import JS.

(* ================================================================== *)
(** ** The chat-completions wire types                                  *)
(* ================================================================== *)

(** One proposed call: [toolCall.id], [toolCall.function.name] and
    [toolCall.function.arguments] (serialized JSON text). *)
Record ToolCall : Type := mkToolCall {
  id : string;
  function_name : string;
  function_arguments : string
}.

(** [completion.choices[i].message].  A missing or [null] field is [None];
    an empty [tool_calls] array is [Some []] and an empty content is
    [Some EmptyString]. *)
Record ChatCompletionMessage : Type := mkMessage {
  content : option string;
  tool_calls : option (list ToolCall)
}.

Record ChatCompletion : Type := mkCompletion {
  choices : list ChatCompletionMessage
}.

(** The result object built by the callback of [toolCalls.map]:
    [{ tool_call_id, role: "tool", content }]. *)
Record ToolResult : Type := mkToolResult {
  tool_call_id : string;
  result_content : string
}.

(** An element of the [messages] array of a request. *)
Inductive ChatCompletionMessageParam : Type :=
| SystemMessage (text : string)
| UserMessage (text : string)
| AssistantMessage (text : string)
| ProposalMessage (m : ChatCompletionMessage)
| ToolMessage (r : ToolResult).

(** The JSON-schema fragments used by the tool catalog. *)
Inductive Schema : Type :=
| SPrim (type : list string) (description : option string)
        (enum : option (list string))
| SArray (items : Schema) (description : option string)
| SObject (properties : list (string * Schema))
          (required : option (list string)) (description : option string).

(** [{ type: "function", function: { name, description, parameters } }] *)
Record ChatCompletionTool : Type := mkTool {
  name : string;
  description : string;
  parameters : Schema
}.

Record ChatCompletionCreateParams : Type := mkParams {
  messages_of : list ChatCompletionMessageParam;
  model : string;
  tools_of : list ChatCompletionTool;
  tool_choice : string
}.

(** [new OpenAI({ apiKey, dangerouslyAllowBrowser: true })] *)
Record OpenAI : Type := new_OpenAI { apiKey_of : string }.

(** An embedding vector, one rendered number per coordinate. *)
Definition Embedding : Type := list string.

(** An entry of the conversation store: [{ text, isUser }]. *)
Record Message : Type := mkMsg {
  text : string;
  isUser : bool
}.

(* ================================================================== *)
(** ** Operations on the outside world                                  *)
(* ================================================================== *)

Record RangeData : Type := mkRangeData {
  rd_address : Value;
  rd_values : Value
}.

Record SelectedRangeInfo : Type := mkSelection {
  sel_address : Value;
  rowCount : Value;
  columnCount : Value
}.

Record FilterResult : Type := mkFilterResult {
  fr_range : Value;
  filteredCount : Value
}.

(** The functions of [../excelOperations] that the component imports and
    calls, and the two endpoints of the OpenAI client, with the type of
    what each resolves to. *)
Inductive Op : Type -> Type :=
| writeToCellOperation (startCell values : Value) : Op unit
| readFromCellOperation (cellAddress : Value) : Op Value
| formatCellOperation (cellAddress fontColor backgroundColor bold : Value) :
    Op unit
| addChartOperation (dataRange chartType : Value) : Op unit
| getRangeData (rangeAddress : Value) : Op RangeData
| getSelectedRangeInfo : Op SelectedRangeInfo
| analyzeData (values analysisType : Value) : Op string
| getWorksheetNames : Op (list string)
| addPivotTableOperation
    (sourceDataRange destinationCell rowFields columnFields dataFields
       filterFields : Value) : Op unit
| manageWorksheet (action sheetName : Value) : Op string
| filterDataOperation (range column filterType criteria : Value) :
    Op FilterResult
| sortDataOperation (range sortFields matchCase hasHeaders : Value) :
    Op string
| mergeCellsOperation (range across : Value) : Op string
| unmergeCellsOperation (range : Value) : Op string
| autofitColumnsOperation (range : Value) : Op string
| autofitRowsOperation (range : Value) : Op string
| applyConditionalFormat (range formatType rule format : Value) : Op string
| clearConditionalFormats (range : Value) : Op string
| getActiveWorksheetName : Op string
| getCurrentSheetContent (includeMetadata : bool) (sheetName : string) :
    Op string
| chat_completions_create (client : OpenAI)
    (body : ChatCompletionCreateParams) : Op ChatCompletion
| embeddings_create (client : OpenAI) (model input encoding_format : string) :
    Op (list Embedding).

(** What the log records: an operation with its outcome, and the entry of
    the [toolCalls.map] callback for a proposed call. *)
Inductive Event : Type :=
| EvOp {R : Type} (op : Op R) (o : Outcome R)
| EvAdapter (tc : ToolCall).

(* ================================================================== *)
(** ** Asynchronous functions                                           *)
(* ================================================================== *)

(** An [async] function body: it resolves, rejects, or awaits an
    operation and continues with its outcome. *)
Inductive Task (A : Type) : Type :=
| Resolve (a : A)
| Reject (e : Thrown)
| Await {R : Type} (op : Op R) (k : Outcome R -> Task A).
Arguments Resolve {A} a.
Arguments Reject {A} e.
Arguments Await {A R} op k.

Module TaskMonad.

Fixpoint bind {A B : Type} (t : Task A) (f : A -> Task B) : Task B :=
  match t with
  | Resolve a => f a
  | Reject e => Reject e
  | Await op k => Await op (fun o => bind (k o) f)
  end.

(** [try { t } catch (error) { h error }] *)
Fixpoint try_catch {A : Type} (t : Task A) (h : Thrown -> Task A) : Task A :=
  match t with
  | Resolve a => Resolve a
  | Reject e => h e
  | Await op k => Await op (fun o => try_catch (k o) h)
  end.

(** [await op(...)]: the operation's value, or its exception rethrown. *)
Definition call {R : Type} (op : Op R) : Task R :=
  Await op (fun o => match o with Ok r => Resolve r | Throw e => Reject e end).

(** A synchronous expression that may throw. *)
Definition eval {A : Type} (o : Outcome A) : Task A :=
  match o with Ok a => Resolve a | Throw e => Reject e end.

End TaskMonad.

Declare Scope task_scope.
Delimit Scope task_scope with task.
Notation "'let*' x ':=' c 'in' k" := (TaskMonad.bind c (fun x => k))
  (at level 61, x pattern, c at next level, right associativity) : task_scope.
Notation "c ';;;' k" := (TaskMonad.bind c (fun _ => k))
  (at level 61, right associativity) : task_scope.

(* ================================================================== *)
(** ** The component and its environment                                *)
(* ================================================================== *)

Section ChatInterface.

(** The environment: its state and how it answers an operation. *)
Variable World : Type.
Variable perform : forall R : Type, Op R -> World -> Outcome R * World.

(** [JSON.parse]: the parsed value, or the message of the [SyntaxError];
    [JSON.stringify] as it prints inside a template literal. *)
Variable JSON_parse : string -> Value + string.
Variable JSON_stringify : Value -> string.

(** [Object.values(ChartType)] and [Object.values(PivotAggregationFunction)]:
    the enums are declared in [./App]. *)
Variable ChartType_values : list string.
Variable PivotAggregationFunction_values : list string.

(** The React state of the component ([messages], the loading flag owned by
    the parent), the world, and the log of calls. *)
Record State : Type := mkState {
  world : World;
  messages : list Message;
  isLoading : bool;
  log : list Event
}.

(** Code that reads and updates the state and may throw. *)
Definition M (A : Type) : Type := State -> Outcome A * State.

Definition ret {A : Type} (a : A) : M A := fun st => (Ok a, st).

Definition throw {A : Type} (e : Thrown) : M A := fun st => (Throw e, st).

Definition bind {A B : Type} (c : M A) (f : A -> M B) : M B :=
  fun st =>
    match c st with
    | (Ok a, st') => f a st'
    | (Throw e, st') => (Throw e, st')
    end.

(** [try { c } catch (error) { h error }] *)
Definition try_catch {A : Type} (c : M A) (h : Thrown -> M A) : M A :=
  fun st =>
    match c st with
    | (Ok a, st') => (Ok a, st')
    | (Throw e, st') => h e st'
    end.

(** [try { c } finally { f }], for an [f] that does not throw. *)
Definition try_finally {A : Type} (c : M A) (f : State -> State) : M A :=
  fun st => let (o, st') := c st in (o, f st').

Definition update (f : State -> State) : M unit := fun st => (Ok tt, f st).

(** [setMessages((prevMessages) => [...prevMessages, m])] *)
Definition push_message (m : Message) (st : State) : State :=
  mkState (world st) (messages st ++ [m]) (isLoading st) (log st).

Definition setMessages_append (m : Message) : M unit := update (push_message m).

Definition set_loading (b : bool) (st : State) : State :=
  mkState (world st) (messages st) b (log st).

Definition setIsLoading (b : bool) : M unit := update (set_loading b).

Definition record (ev : Event) (st : State) : State :=
  mkState (world st) (messages st) (isLoading st) (log st ++ [ev]).

(** One operation against the world, logged with its outcome. *)
Definition do_op {R : Type} (op : Op R) (st : State) : Outcome R * State :=
  let (o, w') := perform op (world st) in
  (o, mkState w' (messages st) (isLoading st) (log st ++ [EvOp op o])).

(** [await t] with nothing else running: the task is driven to its end. *)
Fixpoint await {A : Type} (t : Task A) : M A :=
  fun st =>
    match t with
    | Resolve a => (Ok a, st)
    | Reject e => (Throw e, st)
    | Await op k => let (o, st') := do_op op st in await (k o) st'
    end.

Fixpoint for_of {A : Type} (l : list A) (body : A -> M unit) : M unit :=
  match l with
  | [] => ret tt
  | x :: rest => bind (body x) (fun _ => for_of rest body)
  end.

Local Notation "x <- c ;; k" := (bind c (fun x => k))
  (at level 61, c at next level, right associativity).
Local Notation "c ;; k" := (bind c (fun _ => k))
  (at level 61, right associativity).

Open Scope task_scope.

(* ------------------------------------------------------------------ *)
(** *** embedding_operations.ts                                        *)
(* ------------------------------------------------------------------ *)

Definition newline : string := String (ascii_of_nat 10) EmptyString.

(** [response.data[0].embedding] *)
Definition first_embedding (data : list Embedding) : Outcome Embedding :=
  match data with
  | e :: _ => Ok e
  | [] =>
      Throw (ErrorInstance
        "Cannot read properties of undefined (reading 'embedding')" None)
  end.

Definition getEmbedding (openai : OpenAI) (input : string) : Task Embedding :=
  TaskMonad.try_catch
    (let* data :=
       TaskMonad.call
         (embeddings_create openai "text-embedding-3-large" input "float") in
     TaskMonad.eval (first_embedding data))
    (fun error => Reject error).

Definition embedWorksheet (openai : OpenAI) (sheetName : string) :
  Task Embedding :=
  TaskMonad.try_catch
    (let* sheetContent :=
       TaskMonad.call (getCurrentSheetContent true sheetName) in
     let* embedding := getEmbedding openai sheetContent in
     Resolve embedding)
    (fun error => Reject error).

(** [embeddings[name] = embedding] on the result object. *)
Fixpoint set_key (k : string) (v : Embedding)
  (o : list (string * Embedding)) : list (string * Embedding) :=
  match o with
  | [] => [(k, v)]
  | (k', v') :: rest =>
      if String.eqb k k' then (k, v) :: rest else (k', v') :: set_key k v rest
  end.

Fixpoint embedAll_loop (openai : OpenAI) (names : list string)
  (embeddings : list (string * Embedding)) : Task (list (string * Embedding)) :=
  match names with
  | [] => Resolve embeddings
  | name :: rest =>
      let* embeddings' :=
        TaskMonad.try_catch
          (let* sheetContent :=
             TaskMonad.call (getCurrentSheetContent true name) in
           let* embedding := getEmbedding openai sheetContent in
           Resolve (set_key name embedding embeddings))
          (fun _ => Resolve embeddings) in
      embedAll_loop openai rest embeddings'
  end.

Definition embedAllWorksheets (openai : OpenAI) :
  Task (list (string * Embedding)) :=
  let* worksheetNames := TaskMonad.call getWorksheetNames in
  embedAll_loop openai worksheetNames [].

(* ------------------------------------------------------------------ *)
(** *** The callback of [toolCalls.map]                                 *)
(* ------------------------------------------------------------------ *)

(** [args.k], which throws when [args] is [null]. *)
Definition arg (args : Value) (k : string) : Task Value :=
  TaskMonad.eval (get args k).

(** [error instanceof Error ? error.message : "Unknown error occurred"] *)
Definition message_or_unknown (error : Thrown) : string :=
  match error with
  | ErrorInstance m _ => m
  | _ => "Unknown error occurred"
  end.

(** [switch (name) { case ...: ...; default: ... }] *)
Fixpoint switch {A : Type} (scrutinee : string)
  (cases : list (string * A)) (default : A) : A :=
  match cases with
  | [] => default
  | (label, body) :: rest =>
      if String.eqb scrutinee label then body else switch scrutinee rest default
  end.

(** The cases of the [switch] on [toolCall.function.name]; each yields the
    value of [functionResult]. *)
Definition cases (args : Value) : list (string * Task string) :=
  [ ("write_to_excel",
      let* startCell := arg args "startCell" in
      let* values := arg args "values" in
      TaskMonad.call (writeToCellOperation startCell values) ;;;
      Resolve ("Values written to range starting at " +++ toString startCell));
    ("read_from_excel",
      let* cellAddress := arg args "cellAddress" in
      let* cellValue := TaskMonad.call (readFromCellOperation cellAddress) in
      Resolve ("The value in cell " +++ toString cellAddress +++ " is "
               +++ dquote +++ toString cellValue +++ dquote));
    ("format_cell",
      let* cellAddress := arg args "cellAddress" in
      let* fontColor := arg args "fontColor" in
      let* backgroundColor := arg args "backgroundColor" in
      let* bold := arg args "bold" in
      TaskMonad.call
        (formatCellOperation cellAddress fontColor backgroundColor bold) ;;;
      Resolve ("Cell " +++ toString cellAddress +++ " formatted as requested"));
    ("add_chart",
      let* chartType := arg args "chartType" in
      if negb (includes ChartType_values chartType) then
        Reject (ErrorInstance
                  ("Invalid chart type: " +++ toString chartType) None)
      else
        let* dataRange := arg args "dataRange" in
        if negb (truthy dataRange) then
          Reject (ErrorInstance
                    "Data range is required to create a chart." None)
        else
          TaskMonad.call (addChartOperation dataRange chartType) ;;;
          Resolve ("Added " +++ toString chartType
                   +++ " chart using data from range " +++ toString dataRange));
    ("analyze_selected_range",
      TaskMonad.try_catch
        (let* data := TaskMonad.call (getRangeData Undefined) in
         let* analysisType := arg args "analysisType" in
         let* analysisResult :=
           TaskMonad.call (analyzeData (rd_values data) analysisType) in
         Resolve ("Analysis of selected range " +++ toString (rd_address data)
                  +++ ":" +++ newline +++ analysisResult))
        (fun error =>
           Resolve ("Failed to analyze the selected range. "
                    +++ message_or_unknown error)));
    ("read_range",
      TaskMonad.try_catch
        (let* rangeAddress := arg args "rangeAddress" in
         let* data := TaskMonad.call (getRangeData rangeAddress) in
         Resolve ("The values in range " +++ toString (rd_address data)
                  +++ " are:" +++ newline +++ JSON_stringify (rd_values data)))
        (fun error =>
           Resolve ("Failed to read range. " +++ message_or_unknown error)));
    ("add_pivot",
      let* sourceDataRange := arg args "sourceDataRange" in
      let* destinationCell := arg args "destinationCell" in
      let* rowFields := arg args "rowFields" in
      let* columnFields := arg args "columnFields" in
      let* dataFields := arg args "dataFields" in
      let* filterFields := arg args "filterFields" in
      TaskMonad.call
        (addPivotTableOperation sourceDataRange destinationCell rowFields
           columnFields dataFields filterFields) ;;;
      Resolve ("Added pivot table using data from range "
               +++ toString sourceDataRange +++ " and placed at "
               +++ toString destinationCell));
    ("manage_worksheet",
      let* action := arg args "action" in
      let* sheetName := arg args "sheetName" in
      TaskMonad.call (manageWorksheet action sheetName));
    ("filter_data",
      let* range := arg args "range" in
      let* column := arg args "column" in
      let* filterType := arg args "filterType" in
      let* criteria := arg args "criteria" in
      let* filterResult :=
        TaskMonad.call (filterDataOperation range column filterType criteria) in
      Resolve ("Data filtered in range " +++ toString (fr_range filterResult)
               +++ ". " +++ toString (filteredCount filterResult)
               +++ " rows match the criteria."));
    ("sort_data",
      let* range := arg args "range" in
      let* sortFields := arg args "sortFields" in
      let* matchCase := arg args "matchCase" in
      let* hasHeaders := arg args "hasHeaders" in
      TaskMonad.call (sortDataOperation range sortFields matchCase hasHeaders));
    ("merge_cells",
      let* range := arg args "range" in
      let* across := arg args "across" in
      TaskMonad.call (mergeCellsOperation range across));
    ("unmerge_cells",
      let* range := arg args "range" in
      TaskMonad.call (unmergeCellsOperation range));
    ("autofit_columns",
      let* range := arg args "range" in
      TaskMonad.call (autofitColumnsOperation range));
    ("autofit_rows",
      let* range := arg args "range" in
      TaskMonad.call (autofitRowsOperation range));
    ("apply_conditional_format",
      let* range := arg args "range" in
      let* formatType := arg args "formatType" in
      let* rule := arg args "rule" in
      let* format := arg args "format" in
      TaskMonad.call (applyConditionalFormat range formatType rule format));
    ("clear_conditional_formats",
      let* range := arg args "range" in
      TaskMonad.call (clearConditionalFormats range));
    ("get_worksheet_names",
      let* worksheetNames := TaskMonad.call getWorksheetNames in
      Resolve ("The worksheets in this workbook are: "
               +++ String.concat ", " worksheetNames));
    ("get_active_worksheet_name",
      let* activeWorksheetName := TaskMonad.call getActiveWorksheetName in
      Resolve ("The currently active worksheet is: " +++ activeWorksheetName))
  ].

Definition unsupported : string := "I'm not sure how to perform that action.".

(** The [catch] around the [switch]. *)
Definition adapter_catch (error : Thrown) : Task string :=
  match error with
  | ErrorInstance m _ => Resolve ("Error: " +++ m)
  | _ => Resolve "An unknown error occurred."
  end.

(** [JSON.parse(s)], throwing a [SyntaxError]. *)
Definition parse (s : string) : Outcome Value :=
  match JSON_parse s with
  | inl v => Ok v
  | inr msg => Throw (ErrorInstance msg None)
  end.

(** The body of the callback once [args] is parsed: the [try] block with
    its [catch], then the result object. *)
Definition execute (toolCall : ToolCall) (args : Value) : Task ToolResult :=
  let* functionResult :=
    TaskMonad.try_catch
      (switch (function_name toolCall) (cases args) (Resolve unsupported))
      adapter_catch in
  Resolve (mkToolResult (id toolCall) functionResult).

(** [async (toolCall) => { const args = JSON.parse(...); ... }]: the parse
    stands before the [try]. *)
Definition toolCallback (toolCall : ToolCall) : Task ToolResult :=
  let* args := TaskMonad.eval (parse (function_arguments toolCall)) in
  execute toolCall args.

(* ------------------------------------------------------------------ *)
(** *** The tool catalog sent with every request                        *)
(* ------------------------------------------------------------------ *)

Definition string_ (d : string) : Schema := SPrim ["string"] (Some d) None.
Definition boolean_ (d : string) : Schema := SPrim ["boolean"] (Some d) None.
Definition number_ (d : string) : Schema := SPrim ["number"] (Some d) None.
Definition enum_ (values : list string) (d : string) : Schema :=
  SPrim ["string"] (Some d) (Some values).
Definition object_ (d : string) : Schema := SObject [] None (Some d).
Definition strings_ (d : string) : Schema :=
  SArray (SPrim ["string"] None None) (Some d).
Definition params (properties : list (string * Schema))
  (required : list string) : Schema :=
  SObject properties (Some required) None.
Definition range_only (d : string) : Schema :=
  params [("range", string_ d)] ["range"].

Definition tools (sel : SelectedRangeInfo) : list ChatCompletionTool :=
  let address := toString (sel_address sel) in
  let rows := toString (rowCount sel) in
  let cols := toString (columnCount sel) in
  [ mkTool "write_to_excel" "Write values to a range of cells in Excel"
      (params
         [("startCell", string_ "The starting cell address (e.g., 'A1')");
          ("values",
            SArray
              (SArray (SPrim ["string"; "number"; "boolean"; "null"] None None)
                 None)
              (Some "The values to write to the cells. Should be a 2D array."))]
         ["startCell"; "values"]);
    mkTool "read_from_excel" "Read a value from a specific cell in Excel"
      (params
         [("cellAddress",
            string_ "The cell address to read from (e.g., 'A1', 'B2').")]
         ["cellAddress"]);
    mkTool "format_cell" "Format a cell in Excel"
      (params
         [("cellAddress",
            string_ "The cell address to format (e.g., 'A1', 'B2')");
          ("fontColor", string_ "The font color (e.g., '#FF0000' for red)");
          ("backgroundColor",
            string_ "The background color (e.g., '#FFFF00' for yellow)");
          ("bold", boolean_ "Whether to make the text bold")]
         ["cellAddress"]);
    mkTool "add_chart" "Add a chart to the Excel worksheet"
      (params
         [("dataRange",
            string_ "The range of cells containing the data for the chart. Specify using standard Excel range notation");
          ("chartType",
            enum_ ChartType_values "The type of chart to create")]
         ["dataRange"; "chartType"]);
    mkTool "analyze_selected_range"
      "Analyze the data in the currently selected range in Excel"
      (params
         [("analysisType",
            enum_ ["summary"; "trend"; "distribution"]
              "The type of analysis to perform on the selected data")]
         ["analysisType"]);
    mkTool "write_to_selected_range"
      ("Write values to the currently selected range in Excel (" +++ address
       +++ ", " +++ rows +++ "x" +++ cols
       +++ "). If the input is larger, it will be trimmed to fit.")
      (params
         [("values",
            SArray (SArray (SPrim ["string"] None None) None)
              (Some ("The values to write to the selected range. Should be a 2D array of strings, ideally "
                     +++ rows +++ "x" +++ cols
                     +++ " to fit the selected range.")))]
         ["values"]);
    mkTool "read_range"
      "Read values from a specific range or the currently selected range in Excel"
      (SObject
         [("rangeAddress",
            string_ "The range address to read from (e.g., 'A1:B5'). If not provided, reads from the currently selected range.")]
         None None);
    mkTool "add_pivot" "Add a pivot table to the Excel worksheet"
      (params
         [("sourceDataRange",
            string_ "The range of cells containing the source data for the pivot table. Specify using standard Excel range notation (e.g., 'A1:D10').");
          ("destinationCell",
            string_ "The cell where the pivot table should be placed (e.g., 'G1').");
          ("rowFields",
            strings_ "An array of field names to use as row labels.");
          ("columnFields",
            strings_ "An array of field names to use as column labels.");
          ("dataFields",
            SArray
              (SObject
                 [("name", SPrim ["string"] None None);
                  ("function",
                    SPrim ["string"] None
                      (Some PivotAggregationFunction_values))]
                 (Some ["name"; "function"]) None)
              (Some "An array of objects specifying the data fields and their aggregation functions."));
          ("filterFields",
            strings_ "An optional array of field names to use as filters.")]
         ["sourceDataRange"; "destinationCell"; "rowFields"; "columnFields";
          "dataFields"]);
    mkTool "manage_worksheet"
      "Create a new worksheet or delete an existing one in Excel"
      (params
         [("action",
            enum_ ["create"; "delete"]
              "The action to perform on the worksheet");
          ("sheetName",
            string_ "The name of the worksheet to create or delete")]
         ["action"; "sheetName"]);
    mkTool "filter_data" "Filter data in Excel based on specified criteria"
      (params
         [("range",
            string_ "The range to filter (e.g., 'A1:D10'). If not provided, uses the current selection.");
          ("column",
            string_ "The column to apply the filter to (e.g., 'A', 'B', 'C')");
          ("filterType",
            enum_
              ["Equals"; "GreaterThan"; "LessThan"; "Between"; "Contains";
               "Values"]
              "The type of filter to apply");
          ("criteria",
            object_ "The criteria for the filter, depends on the filterType.")]
         ["column"; "filterType"; "criteria"]);
    mkTool "sort_data"
      "Sort data in an Excel range based on specified criteria"
      (params
         [("range",
            string_ "The range to sort (e.g., 'A1:D10'). If not provided, uses the current selection.");
          ("sortFields",
            SArray
              (SObject
                 [("key", number_ "The column index to sort by (0-based)");
                  ("ascending",
                    boolean_ "Sort in ascending order if true, descending if false");
                  ("color",
                    string_ "The color to sort by (if sorting by color)");
                  ("dataOption",
                    enum_ ["normal"; "textAsNumber"] "How to sort text values")]
                 (Some ["key"; "ascending"]) None)
              (Some "An array of sort criteria to apply"));
          ("matchCase", boolean_ "Whether to match case when sorting");
          ("hasHeaders", boolean_ "Whether the range has a header row")]
         ["sortFields"]);
    mkTool "merge_cells" "Merge cells in a specified range"
      (params
         [("range", string_ "The range to merge (e.g., 'A1:B2')");
          ("across",
            boolean_ "If true, merges cells in each row separately. If false or omitted, merges the entire range.")]
         ["range"]);
    mkTool "unmerge_cells" "Unmerge cells in a specified range"
      (range_only "The range to unmerge (e.g., 'A1:B2')");
    mkTool "autofit_columns" "Auto-fit columns in a specified range"
      (range_only "The range to auto-fit columns (e.g., 'A:C' or 'A1:C10')");
    mkTool "autofit_rows" "Auto-fit rows in a specified range"
      (range_only "The range to auto-fit rows (e.g., '1:3' or 'A1:C10')");
    mkTool "apply_conditional_format"
      "Apply a conditional format to a range in Excel"
      (params
         [("range",
            string_ "The range to apply conditional formatting to (e.g., 'A1:D10')");
          ("formatType",
            enum_
              ["cellValue"; "colorScale"; "dataBar"; "iconSet"; "topBottom";
               "presetCriteria"; "containsText"; "custom"]
              "The type of conditional format to apply");
          ("rule",
            object_ "The rule for the conditional format, depends on the formatType");
          ("format",
            object_ "The format to apply when the condition is met")]
         ["range"; "formatType"; "rule"]);
    mkTool "clear_conditional_formats"
      "Clear all conditional formats from a range in Excel"
      (range_only "The range to clear conditional formatting from (e.g., 'A1:D10')");
    mkTool "get_worksheet_names"
      "Get the names of all worksheets in the current workbook"
      (params [] []);
    mkTool "get_active_worksheet_name"
      "Get the name of the currently active worksheet"
      (params [] [])
  ].

(* ------------------------------------------------------------------ *)
(** *** [Promise.all] over the promises of the callbacks               *)
(* ------------------------------------------------------------------ *)

(** [toolCalls.map(async (toolCall) => ...)]: every callback is entered, in
    array order, and runs up to its first [await]. *)
Definition map_async {A : Type} (callback : ToolCall -> Task A)
  (toolCalls : list ToolCall) : M (list (Task A)) :=
  fun st =>
    (Ok (map callback toolCalls),
     fold_left (fun s tc => record (EvAdapter tc) s) toolCalls st).

(** The promise at index [i] moves by one step: its pending operation is
    performed and its body runs up to the next [await].  A settled promise
    and an index outside the pool are left alone. *)
Fixpoint step_at {A : Type} (i : nat) (pool : list (Task A)) (st : State)
  {struct pool} : list (Task A) * State :=
  match pool with
  | [] => ([], st)
  | t :: rest =>
      match i with
      | O =>
          match t with
          | Await op k => let (o, st') := do_op op st in (k o :: rest, st')
          | _ => (pool, st)
          end
      | S j => let (rest', st') := step_at j rest st in (t :: rest', st')
      end
  end.

(** The rejection of the first rejected promise, by index. *)
Fixpoint first_rejection {A : Type} (pool : list (Task A)) : option Thrown :=
  match pool with
  | [] => None
  | Reject e :: _ => Some e
  | _ :: rest => first_rejection rest
  end.

(** The rejection that settles [Promise.all] is the earliest one in time. *)
Definition earliest (seen now : option Thrown) : option Thrown :=
  match seen with
  | Some e => Some e
  | None => now
  end.

(** The pool advances as the schedule says, one index at a time. *)
Fixpoint run_pool {A : Type} (schedule : list nat) (pool : list (Task A))
  (rejection : option Thrown) (st : State) :
  list (Task A) * option Thrown * State :=
  match schedule with
  | [] => (pool, rejection, st)
  | i :: later =>
      let (pool', st') := step_at i pool st in
      run_pool later pool' (earliest rejection (first_rejection pool')) st'
  end.

(** When the schedule is used up, what is still pending runs to its end in
    array order.  Nothing is cancelled, also after a rejection. *)
Fixpoint drain {A : Type} (pool : list (Task A)) (rejection : option Thrown)
  (st : State) : list (Outcome A) * option Thrown * State :=
  match pool with
  | [] => ([], rejection, st)
  | t :: rest =>
      let (o, st') := await t st in
      let rejection' :=
        earliest rejection
          (match o with Throw e => Some e | Ok _ => None end) in
      let '(os, rej, st'') := drain rest rejection' st' in
      (o :: os, rej, st'')
  end.

Fixpoint fulfilled {A : Type} (os : list (Outcome A)) : list A :=
  match os with
  | [] => []
  | Ok a :: rest => a :: fulfilled rest
  | Throw _ :: rest => fulfilled rest
  end.

(** [await Promise.all(promises)]: the values in array order, or the
    earliest rejection.  The handler's [catch] only touches the message
    store, so letting the other promises finish first changes no state. *)
Definition Promise_all {A : Type} (schedule : list nat)
  (promises : list (Task A)) : M (list A) :=
  fun st =>
    let '(pool, rej, st1) :=
      run_pool schedule promises (first_rejection promises) st in
    let '(os, rej', st2) := drain pool rej st1 in
    match rej' with
    | Some e => (Throw e, st2)
    | None => (Ok (fulfilled os), st2)
    end.

(* ------------------------------------------------------------------ *)
(** *** The component                                                   *)
(* ------------------------------------------------------------------ *)

(** The source's literal is a secret key of 164 characters; it is elided
    here.  The code only tests it for emptiness. *)
Definition DEFAULT_API_KEY : string := "sk-proj-(elided)".

(** What [handleSendMessage] closes over at the render that created it. *)
Record Closure : Type := mkClosure {
  effectiveApiKey : string;
  openaiRef_current : option OpenAI;
  openai : OpenAI;
  messages_seen : list Message;
  activeWorksheet : string
}.

(** [const effectiveApiKey = apiKey || DEFAULT_API_KEY], the client of the
    [useEffect] and the memoized [initializeOpenAI(effectiveApiKey)]. *)
Definition render (apiKey : string) (activeWorksheet : string) (st : State) :
  Closure :=
  let effectiveApiKey := or_else apiKey DEFAULT_API_KEY in
  mkClosure effectiveApiKey
    (Some (new_OpenAI effectiveApiKey))
    (new_OpenAI effectiveApiKey)
    (messages st)
    activeWorksheet.

Definition handleEmbedding (c : Closure) (sheetName : string) : M Embedding :=
  try_catch
    (embeddingResult <- await (embedWorksheet (openai c) sheetName) ;;
     setMessages_append
       (mkMsg ("Embedding for worksheet " +++ dquote +++ sheetName +++ dquote
               +++ " created successfully.") false) ;;
     ret embeddingResult)
    (fun error =>
       setMessages_append
         (mkMsg "Error creating embedding. Please try again." false) ;;
       throw error).

Definition handleEmbedAllWorksheets (c : Closure) :
  M (list (string * Embedding)) :=
  try_catch
    (embeddingResults <- await (embedAllWorksheets (openai c)) ;;
     setMessages_append
       (mkMsg "Embeddings for all worksheets created successfully." false) ;;
     ret embeddingResults)
    (fun error =>
       setMessages_append
         (mkMsg
            "Error creating embeddings for all worksheets. Please try again."
            false) ;;
       throw error).

Definition system_prompt (activeWorksheet : string) : string :=
  "You are a helpful assistant that interacts with Excel. You can access multiple worksheets in the workbook. The currently active worksheet is "
  +++ dquote +++ activeWorksheet +++ dquote
  +++ ". Use the get_worksheet_names function to get a list of all available worksheets, and get_active_worksheet_name to check which worksheet is currently active. Follow the user's instructions to manipulate Excel spreadsheets, using the provided functions. You can create charts, pivot tables, filter data using a wide range of criteria, and perform various data operations. Ensure your responses are clear and formatted using markdown for better readability. You can use tables to present data when appropriate.".

Definition system_prompt_round1 (activeWorksheet : string) : string :=
  system_prompt activeWorksheet
  +++ " Assure you use the functions in the appropriate order to achieve the desired result (i.e. don't use execute all functions at once).".

(** [messages.map((msg) => ({ role: msg.isUser ? "user" : "assistant",
    content: msg.text }))] *)
Definition as_param (msg : Message) : ChatCompletionMessageParam :=
  if isUser msg then UserMessage (text msg) else AssistantMessage (text msg).

Definition round1_messages (c : Closure) (text : string) :
  list ChatCompletionMessageParam :=
  SystemMessage (system_prompt_round1 (activeWorksheet c))
  :: map as_param (messages_seen c) ++ [UserMessage text].

Definition completionPayload (c : Closure) (text : string)
  (sel : SelectedRangeInfo) (message : ChatCompletionMessage)
  (toolResults : list ToolResult) : ChatCompletionCreateParams :=
  mkParams
    (SystemMessage (system_prompt (activeWorksheet c))
     :: map as_param (messages_seen c)
     ++ [UserMessage text]
     ++ [ProposalMessage message]
     ++ map ToolMessage toolResults)
    "gpt-4o-2024-08-06" (tools sel) "auto".

(** [openaiRef.current?.chat.completions.create(body)] *)
Definition create (c : Closure) (body : ChatCompletionCreateParams) :
  M (option ChatCompletion) :=
  match openaiRef_current c with
  | None => ret None
  | Some client =>
      completion <- await (TaskMonad.call (chat_completions_create client body)) ;;
      ret (Some completion)
  end.

(** [response?.choices[0]?.message] *)
Definition first_message (response : option ChatCompletion) :
  option ChatCompletionMessage :=
  match response with
  | Some r => hd_error (choices r)
  | None => None
  end.

(** A [content] that passes [if (...message?.content)]. *)
Definition text_content (m : option ChatCompletionMessage) : option string :=
  match m with
  | Some m' =>
      match content m' with
      | Some s => if truthy_string s then Some s else None
      | None => None
      end
  | None => None
  end.

(** A [tool_calls] that passes [if (...message?.tool_calls)]: any array. *)
Definition proposed (m : option ChatCompletionMessage) :
  option (ChatCompletionMessage * list ToolCall) :=
  match m with
  | Some m' =>
      match tool_calls m' with
      | Some toolCalls => Some (m', toolCalls)
      | None => None
      end
  | None => None
  end.

(** The outer [catch]. *)
Definition errorMessage (error : Thrown) : string :=
  match error with
  | ErrorInstance m _ => "Error: " +++ m
  | ResponseObject (Some 401%Z) => "Invalid API key. Please check your settings."
  | _ => "Sorry, I encountered an error. Please try again."
  end.

Definition reply (m : option ChatCompletionMessage) : M unit :=
  match text_content m with
  | Some aiResponse => setMessages_append (mkMsg aiResponse false)
  | None => ret tt
  end.

(** The pre-step on the tagged sheets. *)
Definition embed_tagged (c : Closure) (taggedSheets : list string) : M unit :=
  if existsb (String.eqb "workbook") taggedSheets
  then handleEmbedAllWorksheets c ;; ret tt
  else for_of taggedSheets (fun sheetName => handleEmbedding c sheetName ;; ret tt).

(** What follows the first completion: the batch and the second request,
    or the direct reply. *)
Definition respond (c : Closure) (schedule : list nat) (text : string)
  (sel : SelectedRangeInfo) (completion : option ChatCompletion) : M unit :=
  match proposed (first_message completion) with
  | Some (message, toolCalls) =>
      promises <- map_async toolCallback toolCalls ;;
      toolResults <- Promise_all schedule promises ;;
      finalResponse <-
        create c (completionPayload c text sel message toolResults) ;;
      reply (first_message finalResponse)
  | None => reply (first_message completion)
  end.

(** The body of the outer [try]. *)
Definition conversation (c : Closure) (schedule : list nat) (text : string)
  (taggedSheets : list string) : M unit :=
  embed_tagged c taggedSheets ;;
  sel <- await (TaskMonad.call getSelectedRangeInfo) ;;
  completion <-
    create c (mkParams (round1_messages c text) "gpt-4o-2024-08-06"
                (tools sel) "auto") ;;
  respond c schedule text sel completion.

Definition handleSendMessage (c : Closure) (schedule : list nat)
  (text : string) (taggedSheets : list string) : M unit :=
  setIsLoading true ;;
  currentActiveWorksheet <- await (TaskMonad.call getActiveWorksheetName) ;;
  setMessages_append
    (mkMsg ("[Active Worksheet: " +++ currentActiveWorksheet +++ "] " +++ text)
       true) ;;
  if negb (truthy_string (effectiveApiKey c)) then
    setMessages_append (mkMsg "Please set your API key in the settings." false) ;;
    setIsLoading false
  else
    try_finally
      (try_catch
         (conversation c schedule text taggedSheets)
         (fun error => setMessages_append (mkMsg (errorMessage error) false)))
      (set_loading false).

(** What the user enters for one turn, with what the component is rendered
    with at that moment and how the batch of the turn gets scheduled. *)
Record Input : Type := mkInput {
  in_apiKey : string;
  in_activeWorksheet : string;
  in_schedule : list nat;
  in_text : string;
  in_taggedSheets : list string
}.

(** One turn of the rendered component. *)
Definition turn (i : Input) (st : State) : Outcome unit * State :=
  handleSendMessage (render (in_apiKey i) (in_activeWorksheet i) st)
    (in_schedule i) (in_text i) (in_taggedSheets i) st.

(** A session: the turns one after the other, each rendered on the state
    the one before has left. *)
Fixpoint session (inputs : list Input) (st : State) : State :=
  match inputs with
  | [] => st
  | i :: later => session later (snd (turn i st))
  end.

(* ------------------------------------------------------------------ *)
(** *** The effects run when the component mounts                       *)
(* ------------------------------------------------------------------ *)

(** [fetchWorksheetNames]: the value of the [worksheetNames] state after
    the effect; a failure is only written to the console. *)
Definition fetchWorksheetNames (worksheetNames : list string) :
  M (list string) :=
  try_catch
    (names <- await (TaskMonad.call getWorksheetNames) ;;
     ret names)
    (fun _ => ret worksheetNames).

(** [updateActiveWorksheet], run at mount and on every [ActiveViewChanged]:
    the value of the [activeWorksheet] state after it. *)
Definition updateActiveWorksheet (activeWorksheet : string) : M string :=
  try_catch
    (name <- await (TaskMonad.call getActiveWorksheetName) ;;
     ret name)
    (fun _ => ret activeWorksheet).

End ChatInterface.

(* ================================================================== *)
(** ** Reading the log                                                  *)
(* ================================================================== *)

Fixpoint collect {A B : Type} (f : A -> option B) (l : list A) : list B :=
  match l with
  | [] => []
  | x :: rest =>
      match f x with
      | Some y => y :: collect f rest
      | None => collect f rest
      end
  end.

(** A call of the model gateway: the request and what came back. *)
Definition GatewayCall : Type :=
  (ChatCompletionCreateParams * Outcome ChatCompletion)%type.

Definition gateway_call (ev : Event) : option GatewayCall :=
  match ev with
  | EvOp op o =>
      match op in Op R return Outcome R -> option GatewayCall with
      | chat_completions_create _ body => fun o' => Some (body, o')
      | _ => fun _ => None
      end o
  | EvAdapter _ => None
  end.

Definition adapter_call (ev : Event) : option ToolCall :=
  match ev with
  | EvAdapter tc => Some tc
  | EvOp _ _ => None
  end.

Definition gateway_calls (l : list Event) : list GatewayCall :=
  collect gateway_call l.

Definition adapter_calls (l : list Event) : list ToolCall :=
  collect adapter_call l.

(** An operation that is not a chat completion. *)
Definition off_gateway (R : Type) (op : Op R) : Prop :=
  match op with
  | chat_completions_create _ _ => False
  | _ => True
  end.

(** An event that is neither a gateway call nor an adapter entry. *)
Definition background (ev : Event) : Prop :=
  match ev with
  | EvOp op _ => off_gateway op
  | EvAdapter _ => False
  end.

(** Every operation a task may await satisfies [P]. *)
Fixpoint uses {A : Type} (P : forall R : Type, Op R -> Prop) (t : Task A) :
  Prop :=
  match t with
  | Await op k => P _ op /\ forall o, uses P (k o)
  | _ => True
  end.

(** A task never rejects, and what it resolves to satisfies [P]. *)
Fixpoint resolves {A : Type} (P : A -> Prop) (t : Task A) : Prop :=
  match t with
  | Resolve a => P a
  | Reject _ => False
  | Await _ k => forall o, resolves P (k o)
  end.

(* ================================================================== *)
(** ** The courses a turn can take                                      *)
(* ================================================================== *)

(** What a run adds: entries of the store, calls of the gateway, entries
    of the adapter callback. *)
Record Delta : Type := mkDelta {
  appended : list Message;
  requests : list GatewayCall;
  entered : list ToolCall
}.

Definition adds {World : Type} (st st' : State World) (d : Delta) : Prop :=
  messages st' = messages st ++ appended d /\
  gateway_calls (log st') = gateway_calls (log st) ++ requests d /\
  adapter_calls (log st') = adapter_calls (log st) ++ entered d.

(** The entries the handler can append, by name. *)
Definition user_turn (activeSheet text : string) : Message :=
  mkMsg ("[Active Worksheet: " +++ activeSheet +++ "] " +++ text) true.

Definition configuration_notice : Message :=
  mkMsg "Please set your API key in the settings." false.

Definition embedded_notice (sheetName : string) : Message :=
  mkMsg ("Embedding for worksheet " +++ dquote +++ sheetName +++ dquote
         +++ " created successfully.") false.

Definition embedding_failed_notice : Message :=
  mkMsg "Error creating embedding. Please try again." false.

Definition all_embedded_notice : Message :=
  mkMsg "Embeddings for all worksheets created successfully." false.

Definition all_embedding_failed_notice : Message :=
  mkMsg "Error creating embeddings for all worksheets. Please try again." false.

Definition failure_turn (error : Thrown) : Message :=
  mkMsg (errorMessage error) false.

Definition whole_workbook (taggedSheets : list string) : bool :=
  existsb (String.eqb "workbook") taggedSheets.

(** The notices of a pre-step that went through. *)
Definition notices (taggedSheets : list string) : list Message :=
  if whole_workbook taggedSheets then [all_embedded_notice]
  else map embedded_notice taggedSheets.

(** The notices of a pre-step that failed: those of the sheets done before,
    then the report of the failure. *)
Definition failed_notices (taggedSheets : list string) (ns : list Message) :
  Prop :=
  if whole_workbook taggedSheets then ns = [all_embedding_failed_notice]
  else exists before sheet after,
      taggedSheets = before ++ sheet :: after /\
      ns = map embedded_notice before ++ [embedding_failed_notice].

(** The assistant entry a response gives rise to, if any. *)
Definition replied (response : ChatCompletion) : list Message :=
  match text_content (first_message (Some response)) with
  | Some aiResponse => [mkMsg aiResponse false]
  | None => []
  end.

Section Courses.

Variable JSON_parse : string -> Value + string.
Variable ChartType_values : list string.
Variable PivotAggregationFunction_values : list string.

(** The message of the first [SyntaxError] among the argument texts of a
    batch, by index. *)
Fixpoint first_syntax_error (toolCalls : list ToolCall) : option string :=
  match toolCalls with
  | [] => None
  | tc :: rest =>
      match JSON_parse (function_arguments tc) with
      | inr msg => Some msg
      | inl _ => first_syntax_error rest
      end
  end.

(** The names of the catalog. *)
Definition registry : list string :=
  map name
    (tools ChartType_values PivotAggregationFunction_values
       (mkSelection Undefined Undefined Undefined)).

(** A result answers a call: it carries the call's id, and says that the
    action is unsupported when the name is not in the catalog. *)
Definition answers (tc : ToolCall) (r : ToolResult) : Prop :=
  tool_call_id r = id tc /\
  (~ In (function_name tc) registry -> result_content r = unsupported).

Definition round1_request (c : Closure) (text : string)
  (sel : SelectedRangeInfo) : ChatCompletionCreateParams :=
  mkParams (round1_messages c text) "gpt-4o-2024-08-06"
    (tools ChartType_values PivotAggregationFunction_values sel) "auto".

Definition round2_request (c : Closure) (text : string)
  (sel : SelectedRangeInfo) (m : ChatCompletionMessage)
  (results : list ToolResult) : ChatCompletionCreateParams :=
  completionPayload ChartType_values PivotAggregationFunction_values c text
    sel m results.

(** The courses of [handleSendMessage]: how the promise settles, the
    loading flag at the end, and what was added. *)
Inductive Course (c : Closure) (text : string) (taggedSheets : list string) :
  Outcome unit -> bool -> Delta -> Prop :=
| unread (e : Thrown) :
    Course c text taggedSheets (Throw e) true (mkDelta [] [] [])
| unconfigured (activeSheet : string) :
    truthy_string (effectiveApiKey c) = false ->
    Course c text taggedSheets (Ok tt) false
      (mkDelta [user_turn activeSheet text; configuration_notice] [] [])
| prestep_failed (activeSheet : string) (ns : list Message) (e : Thrown) :
    truthy_string (effectiveApiKey c) = true ->
    failed_notices taggedSheets ns ->
    Course c text taggedSheets (Ok tt) false
      (mkDelta (user_turn activeSheet text :: ns ++ [failure_turn e]) [] [])
| selection_failed (activeSheet : string) (e : Thrown) :
    truthy_string (effectiveApiKey c) = true ->
    Course c text taggedSheets (Ok tt) false
      (mkDelta
         (user_turn activeSheet text :: notices taggedSheets
          ++ [failure_turn e]) [] [])
| no_client (activeSheet : string) :
    truthy_string (effectiveApiKey c) = true ->
    openaiRef_current c = None ->
    Course c text taggedSheets (Ok tt) false
      (mkDelta (user_turn activeSheet text :: notices taggedSheets) [] [])
| round1_failed (activeSheet : string) (sel : SelectedRangeInfo) (e : Thrown) :
    truthy_string (effectiveApiKey c) = true ->
    Course c text taggedSheets (Ok tt) false
      (mkDelta
         (user_turn activeSheet text :: notices taggedSheets
          ++ [failure_turn e])
         [(round1_request c text sel, Throw e)] [])
| direct (activeSheet : string) (sel : SelectedRangeInfo)
    (response : ChatCompletion) :
    truthy_string (effectiveApiKey c) = true ->
    proposed (first_message (Some response)) = None ->
    Course c text taggedSheets (Ok tt) false
      (mkDelta
         (user_turn activeSheet text :: notices taggedSheets
          ++ replied response)
         [(round1_request c text sel, Ok response)] [])
| batch_rejected (activeSheet : string) (sel : SelectedRangeInfo)
    (response : ChatCompletion) (m : ChatCompletionMessage)
    (toolCalls : list ToolCall) (msg : string) :
    truthy_string (effectiveApiKey c) = true ->
    proposed (first_message (Some response)) = Some (m, toolCalls) ->
    first_syntax_error toolCalls = Some msg ->
    Course c text taggedSheets (Ok tt) false
      (mkDelta
         (user_turn activeSheet text :: notices taggedSheets
          ++ [failure_turn (ErrorInstance msg None)])
         [(round1_request c text sel, Ok response)] toolCalls)
| round2_failed (activeSheet : string) (sel : SelectedRangeInfo)
    (response : ChatCompletion) (m : ChatCompletionMessage)
    (toolCalls : list ToolCall) (results : list ToolResult) (e : Thrown) :
    truthy_string (effectiveApiKey c) = true ->
    proposed (first_message (Some response)) = Some (m, toolCalls) ->
    first_syntax_error toolCalls = None ->
    Forall2 answers toolCalls results ->
    Course c text taggedSheets (Ok tt) false
      (mkDelta
         (user_turn activeSheet text :: notices taggedSheets
          ++ [failure_turn e])
         [(round1_request c text sel, Ok response);
          (round2_request c text sel m results, Throw e)] toolCalls)
| round2 (activeSheet : string) (sel : SelectedRangeInfo)
    (response : ChatCompletion) (m : ChatCompletionMessage)
    (toolCalls : list ToolCall) (results : list ToolResult)
    (final : ChatCompletion) :
    truthy_string (effectiveApiKey c) = true ->
    proposed (first_message (Some response)) = Some (m, toolCalls) ->
    first_syntax_error toolCalls = None ->
    Forall2 answers toolCalls results ->
    Course c text taggedSheets (Ok tt) false
      (mkDelta
         (user_turn activeSheet text :: notices taggedSheets
          ++ replied final)
         [(round1_request c text sel, Ok response);
          (round2_request c text sel m results, Ok final)] toolCalls).

End Courses.

(** [x] put at index [i] of [l] (at the end when [l] is shorter). *)
Fixpoint insert_at {A : Type} (i : nat) (x : A) (l : list A) : list A :=
  match i, l with
  | O, _ => x :: l
  | S j, y :: rest => y :: insert_at j x rest
  | S _, [] => [x]
  end.

(** A schedule for a pool, read as a schedule for the pool without its
    promise at index [i]: the steps of that promise are dropped and the
    indices behind it move down. *)
Fixpoint without (i : nat) (schedule : list nat) : list nat :=
  match schedule with
  | [] => []
  | k :: later =>
      if Nat.ltb k i then k :: without i later
      else if Nat.eqb k i then without i later
      else pred k :: without i later
  end.

(** An operation of the OpenAI client is made with the key [k]; an
    operation of the host is none of the client's. *)
Definition keyed (k : string) (R : Type) (op : Op R) : Prop :=
  match op with
  | chat_completions_create client _ => apiKey_of client = k
  | embeddings_create client _ _ _ => apiKey_of client = k
  | _ => True
  end.

Definition of_host (R : Type) (op : Op R) : Prop :=
  match op with
  | chat_completions_create _ _ => False
  | embeddings_create _ _ _ _ => False
  | _ => True
  end.

(** The operation of an event of the log satisfies [P]. *)
Definition logged (P : forall R : Type, Op R -> Prop) (ev : Event) : Prop :=
  match ev with
  | EvOp op _ => P _ op
  | EvAdapter _ => True
  end.

(** From [st] to [st'] the log has grown by operations that satisfy [P]. *)
Definition grows {World : Type} (P : forall R : Type, Op R -> Prop)
  (st st' : State World) : Prop :=
  exists evs, log st' = log st ++ evs /\ Forall (logged P) evs.

(** The property names a schema declares, and the ones it requires. *)
Definition declared (s : Schema) : list string :=
  match s with
  | SObject properties _ _ => map fst properties
  | _ => []
  end.

Definition required_of (s : Schema) : list string :=
  match s with
  | SObject _ (Some required) _ => required
  | _ => []
  end.

(** The names whose case starts by reading an argument, outside any inner
    [try]. *)
Definition argument_first : list string :=
  [ "write_to_excel"; "read_from_excel"; "format_cell"; "add_chart";
    "add_pivot"; "manage_worksheet"; "filter_data"; "sort_data";
    "merge_cells"; "unmerge_cells"; "autofit_columns"; "autofit_rows";
    "apply_conditional_format"; "clear_conditional_formats" ].

(** [st'] is [st] after background operations only: the store and the
    loading flag are as before, the log has grown by background events. *)
Definition quiet {World : Type} (st st' : State World) : Prop :=
  messages st' = messages st /\ isLoading st' = isLoading st /\
  exists evs, log st' = log st ++ evs /\ Forall background evs.

Definition nothing : Delta := mkDelta [] [] [].

Definition join (d1 d2 : Delta) : Delta :=
  mkDelta (appended d1 ++ appended d2) (requests d1 ++ requests d2)
    (entered d1 ++ entered d2).

(** What one run, from [st] to [st'], has added. *)
Definition turn_appended {World : Type} (st st' : State World) :
  list Message :=
  skipn (length (messages st)) (messages st').

Definition turn_requests {World : Type} (st st' : State World) :
  list GatewayCall :=
  skipn (length (gateway_calls (log st))) (gateway_calls (log st')).

Definition turn_entries {World : Type} (st st' : State World) :
  list ToolCall :=
  skipn (length (adapter_calls (log st))) (adapter_calls (log st')).

(** The state in which the outer [try] is entered: the loading flag is
    set, the active sheet has been read as [activeSheet] leaving the world
    [w], and the user's entry is in the store. *)
Definition entry {World : Type} (st : State World) (activeSheet : string)
  (w : World) (text : string) : State World :=
  mkState w (messages st ++ [user_turn activeSheet text]) true
    (log st ++ [EvOp getActiveWorksheetName (Ok activeSheet)]).

(** A message of the stored kinds: system, user or assistant text. *)
Definition plain (m : ChatCompletionMessageParam) : Prop :=
  match m with
  | ProposalMessage _ | ToolMessage _ => False
  | _ => True
  end.

(** A failure that is a rejected credential: HTTP status 401. *)
Definition credential_rejection (error : Thrown) : Prop :=
  match error with
  | ErrorInstance _ status | ResponseObject status => status = Some 401%Z
  | OtherThrown _ => False
  end.

(** A response that proposes no invocation: no [tool_calls], or an empty
    array of them. *)
Definition no_invocations (response : ChatCompletion) : Prop :=
  forall m, first_message (Some response) = Some m ->
            tool_calls m = None \/ tool_calls m = Some [].

(** What a request is made of: the system instruction, a transcript of
    stored entries, the user's text, and a tail that is empty or is the
    proposing message followed by tool messages. *)
Definition built_on (stored : list Message)
  (body : ChatCompletionCreateParams) : Prop :=
  exists sys text tail,
    messages_of body
    = SystemMessage sys :: map as_param stored ++ UserMessage text :: tail /\
    (tail = [] \/
     exists m results, tail = ProposalMessage m :: map ToolMessage results).

(* ================================================================== *)
(** ** Statements of the specification that the code does not meet      *)
(* ================================================================== *)

Section AsStated.

Variable World : Type.
Variables st st' : State World.

(** The gateway is called twice when the first response proposes at least
    one invocation; it is called once, and no callback is entered, when the
    first response is a direct reply. *)
Definition round2_iff_invocations : Prop :=
  forall body response,
    nth_error (turn_requests st st') 0 = Some (body, Ok response) ->
    ((exists m toolCalls,
        first_message (Some response) = Some m /\
        tool_calls m = Some toolCalls /\ toolCalls <> []) ->
     length (turn_requests st st') = 2) /\
    (no_invocations response ->
     text_content (first_message (Some response)) <> None ->
     length (turn_requests st st') = 1 /\ turn_entries st st' = []).

(** A turn entered without a configured key appends the fixed entry and
    calls neither the gateway nor the adapter. *)
Definition unconfigured_turn_stops (text : string) : Prop :=
  (exists activeSheet,
     turn_appended st st' = [user_turn activeSheet text; configuration_notice])
  /\ turn_requests st st' = [] /\ turn_entries st st' = [].

(** A reported failure of the pre-step does not keep the first request from
    being sent. *)
Definition prestep_failure_reaches_round1 : Prop :=
  In embedding_failed_notice (turn_appended st st') ->
  turn_requests st st' <> [].

(** A rejected credential is reported by the entry made for it. *)
Definition credential_rejection_gets_its_turn : Prop :=
  forall body e,
    In (body, Throw e) (turn_requests st st') ->
    credential_rejection e ->
    In (mkMsg "Invalid API key. Please check your settings." false)
      (turn_appended st st').

(** A response with neither invocations nor text ends the turn with the
    user's entry and the notices of the pre-step only. *)
Definition empty_response_is_silent (o : Outcome unit) (text : string)
  (taggedSheets : list string) : Prop :=
  forall body response,
    In (body, Ok response) (turn_requests st st') ->
    no_invocations response ->
    text_content (first_message (Some response)) = None ->
    o = Ok tt /\
    exists activeSheet,
      turn_appended st st' = user_turn activeSheet text :: notices taggedSheets.

End AsStated.

(* ================================================================== *)
(** ** A scripted environment for the scenarios                         *)
(* ================================================================== *)

Module Scenario.

(** The world of the scenarios: the answers the chat endpoint still has to
    give, in order.  The workbook has the sheets Sheet1 and Sheet2, Sheet1
    is active and A1 is selected; a sheet of any other name has no content
    to embed. *)
Definition World : Type := list (Outcome ChatCompletion).

Definition known_sheet (sheetName : string) : bool :=
  String.eqb sheetName "Sheet1" || String.eqb sheetName "Sheet2".

Definition perform (R : Type) (op : Op R) (w : World) : Outcome R * World :=
  match op in Op R return Outcome R * World with
  | writeToCellOperation _ _ => (Ok tt, w)
  | readFromCellOperation _ => (Ok (Number "42"), w)
  | formatCellOperation _ _ _ _ => (Ok tt, w)
  | addChartOperation _ _ => (Ok tt, w)
  | getRangeData _ =>
      (Ok (mkRangeData (Str "Sheet1!A1") (Array [Array [Number "42"]])), w)
  | getSelectedRangeInfo =>
      (Ok (mkSelection (Str "Sheet1!A1") (Number "1") (Number "1")), w)
  | analyzeData _ _ => (Ok "1 value", w)
  | getWorksheetNames => (Ok ["Sheet1"; "Sheet2"], w)
  | addPivotTableOperation _ _ _ _ _ _ => (Ok tt, w)
  | manageWorksheet _ _ => (Ok "Done", w)
  | filterDataOperation _ _ _ _ =>
      (Ok (mkFilterResult (Str "A1:A1") (Number "1")), w)
  | sortDataOperation _ _ _ _ => (Ok "Done", w)
  | mergeCellsOperation _ _ => (Ok "Done", w)
  | unmergeCellsOperation _ => (Ok "Done", w)
  | autofitColumnsOperation _ => (Ok "Done", w)
  | autofitRowsOperation _ => (Ok "Done", w)
  | applyConditionalFormat _ _ _ _ => (Ok "Done", w)
  | clearConditionalFormats _ => (Ok "Done", w)
  | getActiveWorksheetName => (Ok "Sheet1", w)
  | getCurrentSheetContent _ sheetName =>
      if known_sheet sheetName then (Ok "42", w)
      else (Throw (ErrorInstance "Worksheet not found" None), w)
  | chat_completions_create _ _ =>
      match w with
      | answer :: later => (answer, later)
      | [] => (Throw (ErrorInstance "Connection error." None), [])
      end
  | embeddings_create _ _ _ _ => (Ok [["0.1"; "0.2"]], w)
  end.

(** The argument texts of the scenarios, beside the empty object and a
    cut-off one: a chart type without a data range, and a cell address. *)
Definition chart_arguments : string :=
  "{" +++ dquote +++ "chartType" +++ dquote +++ ":"
  +++ dquote +++ "Line" +++ dquote +++ "}".

Definition cell_arguments : string :=
  "{" +++ dquote +++ "cellAddress" +++ dquote +++ ":"
  +++ dquote +++ "A1" +++ dquote +++ "}".

(** A stand-in for [JSON.parse] that knows the argument texts of the
    scenarios; any other text is taken for a cut-off one. *)
Definition JSON_parse (s : string) : Value + string :=
  if String.eqb s "{}" then inl (Object [])
  else if String.eqb s chart_arguments then
    inl (Object [("chartType", Str "Line")])
  else if String.eqb s cell_arguments then
    inl (Object [("cellAddress", Str "A1")])
  else inr "Unexpected end of JSON input".

Definition JSON_stringify (v : Value) : string := toString v.

(** The same world with the host out of reach: every operation throws. *)
Definition unreachable (R : Type) (op : Op R) (w : World) :
  Outcome R * World :=
  (Throw (ErrorInstance "Host unreachable" None), w).

(** The same world in which only the selection cannot be read. *)
Definition perform_without_selection (R : Type) (op : Op R) (w : World) :
  Outcome R * World :=
  match op in Op R return Outcome R * World with
  | getSelectedRangeInfo =>
      (Throw (ErrorInstance "No selection" None), w)
  | op' => perform op' w
  end.

(** The same world in which no sheet can be read for embedding. *)
Definition perform_without_content (R : Type) (op : Op R) (w : World) :
  Outcome R * World :=
  match op in Op R return Outcome R * World with
  | getCurrentSheetContent _ _ =>
      (Throw (ErrorInstance "Worksheet not found" None), w)
  | op' => perform op' w
  end.

Definition ChartType_values : list string := ["Line"; "Pie"].
Definition PivotAggregationFunction_values : list string := ["Sum"; "Count"].

Definition start (answers : World) (history : list Message) : State World :=
  mkState answers history false [].

(** A turn of the component rendered with [apiKey] on the state [st]. *)
Definition send (apiKey : string) (schedule : list nat) (text : string)
  (taggedSheets : list string) (st : State World) :
  Outcome unit * State World :=
  handleSendMessage perform JSON_parse JSON_stringify ChartType_values
    PivotAggregationFunction_values (render apiKey "Sheet1" st)
    schedule text taggedSheets st.

(** An earlier exchange, already in the store. *)
Definition history : list Message :=
  [ mkMsg "[Active Worksheet: Sheet1] Hello" true;
    mkMsg "Hello! What shall we do with this workbook?" false ].

Definition selection : SelectedRangeInfo :=
  mkSelection (Str "Sheet1!A1") (Number "1") (Number "1").

(** The first request of a turn of the scenarios. *)
Definition first_request (apiKey text : string) (st : State World) :
  ChatCompletionCreateParams :=
  round1_request ChartType_values PivotAggregationFunction_values
    (render apiKey "Sheet1" st) text selection.

(** Proposed calls. *)
Definition list_sheets : ToolCall :=
  mkToolCall "call_1" "get_worksheet_names" "{}".
Definition chart_without_range : ToolCall :=
  mkToolCall "call_2" "add_chart" chart_arguments.
Definition read_cell : ToolCall :=
  mkToolCall "call_1" "read_from_excel" cell_arguments.
Definition chart_cut_off : ToolCall := mkToolCall "call_2" "add_chart" "{".
Definition coffee : ToolCall := mkToolCall "call_3" "make_coffee" "{}".
Definition coffee_cut_off : ToolCall := mkToolCall "call_3" "make_coffee" "{".

(** Responses of the chat endpoint. *)
Definition proposing (toolCalls : list ToolCall) : ChatCompletion :=
  mkCompletion [mkMessage None (Some toolCalls)].
Definition saying (reply : string) : ChatCompletion :=
  mkCompletion [mkMessage (Some reply) None].
Definition saying_with_empty_batch (reply : string) : ChatCompletion :=
  mkCompletion [mkMessage (Some reply) (Some [])].
Definition empty_batch : ChatCompletion :=
  mkCompletion [mkMessage None (Some [])].
Definition blank : ChatCompletion := mkCompletion [mkMessage None None].

(** A batch of three calls, run out of order, then the final reply. *)
Definition batch_state : State World :=
  start [Ok (proposing [list_sheets; chart_without_range; coffee]);
         Ok (saying "Done.")] history.
Definition batch_run : Outcome unit * State World :=
  send "sk-user" [2; 1; 0] "List the sheets and chart them" [] batch_state.

(** One call that reads a cell. *)
Definition read_state : State World :=
  start [Ok (proposing [read_cell]); Ok (saying "A1 holds 42.")] history.
Definition read_run : Outcome unit * State World :=
  send "sk-user" [] "What's in A1?" [] read_state.

(** A batch in which one argument text is cut off. *)
Definition cut_off_state : State World :=
  start [Ok (proposing [list_sheets; chart_cut_off]); Ok (saying "Done.")]
    history.
Definition cut_off_run : Outcome unit * State World :=
  send "sk-user" [] "List the sheets and chart them" [] cut_off_state.

(** A reply that comes with an empty array of calls. *)
Definition empty_batch_reply_state : State World :=
  start [Ok (saying_with_empty_batch "Hello!"); Ok (saying "Hello again!")]
    history.
Definition empty_batch_reply_run : Outcome unit * State World :=
  send "sk-user" [] "Hi" [] empty_batch_reply_state.

(** A response with an empty array of calls and no text. *)
Definition empty_batch_state : State World :=
  start [Ok empty_batch; Ok (saying "Done.")] history.
Definition empty_batch_run : Outcome unit * State World :=
  send "sk-user" [] "Hi" [] empty_batch_state.

(** A response with nothing in it. *)
Definition blank_state : State World := start [Ok blank] history.
Definition blank_run : Outcome unit * State World :=
  send "sk-user" [] "Hi" [] blank_state.

(** No API key is given to the component. *)
Definition no_key_state : State World := start [Ok (saying "Hello!")] history.
Definition no_key_run : Outcome unit * State World :=
  send EmptyString [] "Hi" [] no_key_state.

(** A handler closed over an empty effective key. *)
Definition keyless : Closure :=
  mkClosure EmptyString (Some (new_OpenAI EmptyString))
    (new_OpenAI EmptyString) history "Sheet1".

(** Three tagged sheets, the second of which does not exist. *)
Definition tagged : list string := ["Sheet2"; "Budget"; "Sheet1"].
Definition tagged_state : State World := start [Ok (saying "Hello!")] history.
Definition tagged_run : Outcome unit * State World :=
  send "sk-user" [] "Hi" tagged tagged_state.

(** The gateway rejects the credential: once as an object with a response
    of status 401, once as an [Error] that carries the status 401. *)
Definition rejected_object : Thrown := ResponseObject (Some 401%Z).
Definition rejected_error : Thrown :=
  ErrorInstance "401 Incorrect API key provided" (Some 401%Z).
Definition rejected_state (e : Thrown) : State World := start [Throw e] history.
Definition rejected_run (e : Thrown) : Outcome unit * State World :=
  send "sk-wrong" [] "Hi" [] (rejected_state e).

(** Two tagged sheets that exist. *)
Definition embedded_state : State World := start [Ok (saying "Hello!")] history.
Definition embedded_run : Outcome unit * State World :=
  send "sk-user" [] "Hi" ["Sheet2"; "Sheet1"] embedded_state.

(** A handler created before the effect has put a client in [openaiRef]. *)
Definition clientless : Closure :=
  mkClosure "sk-user" None (new_OpenAI "sk-user") history "Sheet1".

(** Calls that read the selected range. *)
Definition read_selection : ToolCall := mkToolCall "call_1" "read_range" "{}".
Definition analyze_selection : ToolCall :=
  mkToolCall "call_1" "analyze_selected_range" "{}".

End Scenario.

Unset Implicit Arguments.

Import JS.
Open Scope list_scope.

(* ================================================================== *)
(** ** Tasks: which operations they use, and whether they can reject   *)
(* ================================================================== *)

Section TaskFacts.

Variable P : forall R : Type, Op R -> Prop.

Lemma uses_bind {A B : Type} (t : Task A) (f : A -> Task B) :
  uses P t -> (forall a, uses P (f a)) -> uses P (TaskMonad.bind t f).
Proof.
  intros Ht Hf. induction t as [a | e | R op k IH]; simpl in *; auto.
  destruct Ht as [Hop Hk]. split; auto.
Qed.

Lemma uses_try_catch {A : Type} (t : Task A) (h : Thrown -> Task A) :
  uses P t -> (forall e, uses P (h e)) -> uses P (TaskMonad.try_catch t h).
Proof.
  intros Ht Hh. induction t as [a | e | R op k IH]; simpl in *; auto.
  destruct Ht as [Hop Hk]. split; auto.
Qed.

Lemma uses_call {R : Type} (op : Op R) : P _ op -> uses P (TaskMonad.call op).
Proof. intros H. simpl. split; [exact H | intros [r | e]; exact I]. Qed.

Lemma uses_eval {A : Type} (o : Outcome A) : uses P (TaskMonad.eval o).
Proof. destruct o; exact I. Qed.

Lemma uses_switch {A : Type} (s : string) (cs : list (string * Task A))
  (d : Task A) :
  Forall (fun c => uses P (snd c)) cs -> uses P d -> uses P (switch s cs d).
Proof.
  intros Hcs Hd. induction Hcs as [| [label body] rest Hb _ IH]; simpl; auto.
  destruct (String.eqb s label); auto.
Qed.

End TaskFacts.

Lemma resolves_weaken {A : Type} (P Q : A -> Prop) (t : Task A) :
  (forall a, P a -> Q a) -> resolves P t -> resolves Q t.
Proof.
  intros PQ. induction t as [a | e | R op k IH]; simpl; auto.
Qed.

Lemma resolves_bind {A B : Type} (P : A -> Prop) (Q : B -> Prop)
  (t : Task A) (f : A -> Task B) :
  resolves P t -> (forall a, P a -> resolves Q (f a)) ->
  resolves Q (TaskMonad.bind t f).
Proof.
  intros Ht Hf. induction t as [a | e | R op k IH]; simpl in *; auto; contradiction.
Qed.

(** A [try] whose [catch] always yields a value cannot reject. *)
Lemma try_catch_resolves {A : Type} (t : Task A) (h : Thrown -> Task A) :
  (forall e, resolves (fun _ => True) (h e)) ->
  resolves (fun _ => True) (TaskMonad.try_catch t h).
Proof.
  intros Hh. induction t as [a | e | R op k IH]; simpl; auto.
Qed.

(** A task that cannot reject is not rejected now. *)
Lemma resolves_not_rejected {A : Type} (P : A -> Prop) (t : Task A) :
  resolves P t -> forall e, t <> Reject e.
Proof. destruct t; simpl; intros H e' E; try discriminate. exact H. Qed.

(* ================================================================== *)
(** ** What a run leaves in the log                                     *)
(* ================================================================== *)

Lemma collect_app {A B : Type} (f : A -> option B) (l1 l2 : list A) :
  collect f (l1 ++ l2) = collect f l1 ++ collect f l2.
Proof.
  induction l1 as [| x l1 IH]; simpl; [reflexivity |].
  destruct (f x); simpl; rewrite IH; reflexivity.
Qed.

Lemma gateway_call_background (ev : Event) :
  background ev -> gateway_call ev = None.
Proof. destruct ev as [R op o | tc]; [destruct op |]; simpl; tauto. Qed.

Lemma adapter_call_background (ev : Event) :
  background ev -> adapter_call ev = None.
Proof. destruct ev as [R op o | tc]; simpl; tauto. Qed.

Lemma collect_none {A B : Type} (f : A -> option B) (Q : A -> Prop)
  (l : list A) :
  (forall x, Q x -> f x = None) -> Forall Q l -> collect f l = [].
Proof.
  intros HQ Hl. induction Hl as [| x l Hx _ IH]; simpl; [reflexivity |].
  rewrite (HQ x Hx). exact IH.
Qed.

Lemma adapter_calls_entries (tcs : list ToolCall) :
  adapter_calls (map EvAdapter tcs) = tcs.
Proof.
  unfold adapter_calls.
  induction tcs as [| tc tcs IH]; simpl; [reflexivity |].
  f_equal. exact IH.
Qed.

Lemma gateway_calls_entries (tcs : list ToolCall) :
  gateway_calls (map EvAdapter tcs) = [].
Proof.
  unfold gateway_calls. induction tcs as [| tc tcs IH]; simpl; auto.
Qed.





Section Verification.

Variable World : Type.
Variable perform : forall R : Type, Op R -> World -> Outcome R * World.
Variable JSON_parse : string -> Value + string.
Variable JSON_stringify : Value -> string.
Variable ChartType_values : list string.
Variable PivotAggregationFunction_values : list string.

Local Abbreviation State := (State World).

Lemma quiet_refl (st : State) : quiet st st.
Proof.
  repeat split. exists []. rewrite app_nil_r. auto.
Qed.

Lemma quiet_trans (st1 st2 st3 : State) :
  quiet st1 st2 -> quiet st2 st3 -> quiet st1 st3.
Proof.
  intros (M1 & L1 & e1 & E1 & F1) (M2 & L2 & e2 & E2 & F2).
  repeat split; try congruence.
  exists (e1 ++ e2). rewrite E2, E1, app_assoc. split; [reflexivity |].
  apply Forall_app; auto.
Qed.

Lemma quiet_calls (st st' : State) :
  quiet st st' ->
  gateway_calls (log st') = gateway_calls (log st) /\
  adapter_calls (log st') = adapter_calls (log st).
Proof.
  intros (_ & _ & evs & E & F). rewrite E. unfold gateway_calls, adapter_calls.
  rewrite !collect_app.
  rewrite (collect_none gateway_call background evs gateway_call_background F).
  rewrite (collect_none adapter_call background evs adapter_call_background F).
  rewrite !app_nil_r. auto.
Qed.

Lemma do_op_quiet {R : Type} (op : Op R) (st : State) :
  off_gateway op -> quiet st (snd (do_op perform op st)).
Proof.
  intros H. unfold do_op. destruct (perform _ op (world st)) as [o w'].
  simpl. repeat split. exists [EvOp op o]. split; [reflexivity |].
  constructor; [exact H | constructor].
Qed.

Lemma await_quiet {A : Type} (t : Task A) (st : State) :
  uses off_gateway t -> quiet st (snd (await perform t st)).
Proof.
  revert st. induction t as [a | e | R op k IH]; intros st Ht; simpl.
  - apply quiet_refl.
  - apply quiet_refl.
  - destruct Ht as [Hop Hk].
    pose proof (do_op_quiet op st Hop) as Hq.
    destruct (do_op perform op st) as [o st1]. simpl in Hq.
    eapply quiet_trans; [exact Hq | apply IH, Hk].
Qed.

Lemma step_at_quiet {A : Type} (i : nat) (pool : list (Task A)) (st : State) :
  Forall (uses off_gateway) pool ->
  Forall (uses off_gateway) (fst (step_at perform i pool st)) /\
  quiet st (snd (step_at perform i pool st)).
Proof.
  revert i st. induction pool as [| t rest IH]; intros i st Hp; simpl.
  - split; [constructor | apply quiet_refl].
  - inversion Hp as [| ? ? Ht Hrest]; subst.
    destruct i as [| j].
    + destruct t as [a | e | R op k]; simpl; try (split; [exact Hp | apply quiet_refl]).
      destruct Ht as [Hop Hk].
      pose proof (do_op_quiet op st Hop) as Hq.
      destruct (do_op perform op st) as [o st1]. simpl in *.
      split; [constructor; auto | exact Hq].
    + specialize (IH j st Hrest).
      destruct (step_at perform j rest st) as [rest' st']. simpl in *.
      destruct IH as [IH1 IH2]. split; [constructor; auto | exact IH2].
Qed.

Lemma run_pool_quiet {A : Type} (schedule : list nat) (pool : list (Task A))
  (rej : option Thrown) (st : State) :
  Forall (uses off_gateway) pool ->
  Forall (uses off_gateway) (fst (fst (run_pool perform schedule pool rej st))) /\
  quiet st (snd (run_pool perform schedule pool rej st)).
Proof.
  revert pool rej st.
  induction schedule as [| i later IH]; intros pool rej st Hp; simpl.
  - split; [exact Hp | apply quiet_refl].
  - pose proof (step_at_quiet i pool st Hp) as [H1 H2].
    destruct (step_at perform i pool st) as [pool' st']. simpl in *.
    destruct (IH pool' (earliest rej (first_rejection pool')) st' H1) as [H3 H4].
    split; [exact H3 | eapply quiet_trans; eauto].
Qed.

Lemma drain_quiet {A : Type} (pool : list (Task A)) (rej : option Thrown)
  (st : State) :
  Forall (uses off_gateway) pool ->
  quiet st (snd (drain perform pool rej st)).
Proof.
  revert rej st. induction pool as [| t rest IH]; intros rej st Hp; simpl.
  - apply quiet_refl.
  - inversion Hp as [| ? ? Ht Hrest]; subst.
    pose proof (await_quiet t st Ht) as Hq.
    destruct (await perform t st) as [o st1]. simpl in Hq.
    specialize (IH (earliest rej match o with Throw e => Some e | Ok _ => None end)
                  st1 Hrest).
    destruct (drain perform rest _ st1) as [[os rej'] st2]. simpl in *.
    eapply quiet_trans; eauto.
Qed.

Lemma Promise_all_quiet {A : Type} (schedule : list nat)
  (promises : list (Task A)) (st : State) :
  Forall (uses off_gateway) promises ->
  quiet st (snd (Promise_all perform schedule promises st)).
Proof.
  intros Hp. unfold Promise_all.
  pose proof (run_pool_quiet schedule promises (first_rejection promises) st Hp)
    as [H1 H2].
  destruct (run_pool perform schedule promises _ st) as [[pool rej] st1].
  simpl in *.
  pose proof (drain_quiet pool rej st1 H1) as H3.
  destruct (drain perform pool rej st1) as [[os rej'] st2]. simpl in *.
  destruct rej'; simpl; eapply quiet_trans; eauto.
Qed.

(** A [catch] around an awaited task takes over where the task throws. *)
Lemma await_try_catch {A : Type} (t : Task A) (h : Thrown -> Task A)
  (st : State) :
  await perform (TaskMonad.try_catch t h) st =
  match await perform t st with
  | (Ok a, st') => (Ok a, st')
  | (Throw e, st') => await perform (h e) st'
  end.
Proof.
  revert st. induction t as [a | e | R op k IH]; intros st; simpl.
  - reflexivity.
  - reflexivity.
  - destruct (do_op perform op st) as [o st1]. apply IH.
Qed.

Lemma await_bind {A B : Type} (t : Task A) (f : A -> Task B) (st : State) :
  await perform (TaskMonad.bind t f) st =
  match await perform t st with
  | (Ok a, st') => await perform (f a) st'
  | (Throw e, st') => (Throw e, st')
  end.
Proof.
  revert st. induction t as [a | e | R op k IH]; intros st; simpl.
  - reflexivity.
  - reflexivity.
  - destruct (do_op perform op st) as [o st1]. apply IH.
Qed.

(** *** What [Promise.all] settles to *)

Lemma await_resolves {A : Type} (P : A -> Prop) (t : Task A) (st : State) :
  resolves P t -> exists a, fst (await perform t st) = Ok a /\ P a.
Proof.
  revert st. induction t as [a | e | R op k IH]; intros st Ht; simpl in *.
  - exists a. auto.
  - contradiction.
  - destruct (do_op perform op st) as [o st1]. apply IH, Ht.
Qed.

Lemma run_pool_after_rejection {A : Type} (schedule : list nat)
  (pool : list (Task A)) (e : Thrown) (st : State) :
  snd (fst (run_pool perform schedule pool (Some e) st)) = Some e.
Proof.
  revert pool st. induction schedule as [| i later IH]; intros pool st; simpl.
  - reflexivity.
  - destruct (step_at perform i pool st) as [pool' st']. apply IH.
Qed.

Lemma drain_after_rejection {A : Type} (pool : list (Task A)) (e : Thrown)
  (st : State) :
  snd (fst (drain perform pool (Some e) st)) = Some e.
Proof.
  revert st. induction pool as [| t rest IH]; intros st; simpl.
  - reflexivity.
  - destruct (await perform t st) as [o st1]. simpl.
    specialize (IH st1).
    destruct (drain perform rest (Some e) st1) as [[os rej] st2]. exact IH.
Qed.

(** A promise that is already rejected when [Promise.all] is called
    rejects the whole batch, whatever the schedule. *)
Lemma Promise_all_rejected {A : Type} (schedule : list nat)
  (promises : list (Task A)) (e : Thrown) (st : State) :
  first_rejection promises = Some e ->
  fst (Promise_all perform schedule promises st) = Throw e.
Proof.
  intros H. unfold Promise_all. rewrite H.
  pose proof (run_pool_after_rejection schedule promises e st) as H1.
  destruct (run_pool perform schedule promises (Some e) st) as [[pool rej] st1].
  simpl in H1. subst rej.
  pose proof (drain_after_rejection pool e st1) as H2.
  destruct (drain perform pool (Some e) st1) as [[os rej'] st2].
  simpl in H2. subst rej'. reflexivity.
Qed.

Section Resolving.

Variables (X A : Type) (P : X -> A -> Prop).

Local Abbreviation settled :=
  (Forall2 (fun (x : X) (t : Task A) => resolves (P x) t)).

Lemma settled_no_rejection (xs : list X) (pool : list (Task A)) :
  settled xs pool -> first_rejection pool = None.
Proof.
  intros H. induction H as [| x t xs pool Ht _ IH]; simpl; [reflexivity |].
  destruct t; simpl in *; auto. contradiction.
Qed.

Lemma step_at_settled (i : nat) (xs : list X) (pool : list (Task A))
  (st : State) :
  settled xs pool -> settled xs (fst (step_at perform i pool st)).
Proof.
  intros H. revert i st.
  induction H as [| x t xs pool Ht Hrest IH]; intros i st; simpl.
  - constructor.
  - destruct i as [| j].
    + destruct t as [a | e | R op k]; simpl; try (constructor; assumption).
      destruct (do_op perform op st) as [o st1]. simpl.
      constructor; [apply Ht | exact Hrest].
    + specialize (IH j st).
      destruct (step_at perform j pool st) as [rest' st']. simpl in *.
      constructor; assumption.
Qed.

Lemma run_pool_settled (schedule : list nat) (xs : list X)
  (pool : list (Task A)) (st : State) :
  settled xs pool ->
  settled xs (fst (fst (run_pool perform schedule pool None st))) /\
  snd (fst (run_pool perform schedule pool None st)) = None.
Proof.
  revert pool st. induction schedule as [| i later IH]; intros pool st H; simpl.
  - auto.
  - pose proof (step_at_settled i xs pool st H) as H1.
    destruct (step_at perform i pool st) as [pool' st']. simpl in H1.
    rewrite (settled_no_rejection xs pool' H1). simpl. apply IH, H1.
Qed.

Lemma drain_settled (xs : list X) (pool : list (Task A)) (st : State) :
  settled xs pool ->
  Forall2 P xs (fulfilled (fst (fst (drain perform pool None st)))) /\
  snd (fst (drain perform pool None st)) = None.
Proof.
  intros H. revert st.
  induction H as [| x t xs pool Ht _ IH]; intros st; simpl.
  - split; [constructor | reflexivity].
  - destruct (await_resolves (P x) t st Ht) as (a & Ea & Pa).
    destruct (await perform t st) as [o st1]. simpl in Ea. subst o. simpl.
    specialize (IH st1).
    destruct (drain perform pool None st1) as [[os rej] st2]. simpl in *.
    destruct IH as [IH1 IH2]. split; [constructor; assumption | exact IH2].
Qed.

(** When no promise of the batch can reject, [Promise.all] yields one value
    per promise, in the order of the array, whatever the schedule. *)
Lemma Promise_all_resolved (schedule : list nat) (xs : list X)
  (promises : list (Task A)) (st : State) :
  settled xs promises ->
  exists rs,
    fst (Promise_all perform schedule promises st) = Ok rs /\ Forall2 P xs rs.
Proof.
  intros H. unfold Promise_all.
  rewrite (settled_no_rejection xs promises H).
  pose proof (run_pool_settled schedule xs promises st H) as [H1 H2].
  destruct (run_pool perform schedule promises None st) as [[pool rej] st1].
  simpl in *. subst rej.
  pose proof (drain_settled xs pool st1 H1) as [H3 H4].
  destruct (drain perform pool None st1) as [[os rej'] st2].
  simpl in *. subst rej'. exists (fulfilled os). auto.
Qed.

End Resolving.



(* ================================================================== *)
(** ** The callback of the batch                                        *)
(* ================================================================== *)

Ltac uses_steps :=
  repeat first
    [ exact I
    | apply uses_eval
    | apply uses_call
    | apply uses_bind
    | apply uses_try_catch
    | intro
    | match goal with
      | |- uses _ (if ?b then _ else _) => destruct b
      | |- uses _ (arg _ _) => unfold arg
      end ].


Local Abbreviation callback :=
  (toolCallback JSON_parse JSON_stringify ChartType_values).
Local Abbreviation exec := (execute JSON_stringify ChartType_values).
Local Abbreviation branches := (cases JSON_stringify ChartType_values).
Local Abbreviation catalog :=
  (registry ChartType_values PivotAggregationFunction_values).
Local Abbreviation answer :=
  (answers ChartType_values PivotAggregationFunction_values).
Local Abbreviation syntax_error := (first_syntax_error JSON_parse).

Lemma cases_off_gateway (args : Value) :
  Forall (fun c => uses off_gateway (snd c)) (branches args).
Proof.
  unfold cases.
  repeat (apply Forall_cons; [cbv beta iota delta [snd]; uses_steps |]).
  apply Forall_nil.
Qed.

Lemma toolCallback_off_gateway (tc : ToolCall) :
  uses off_gateway (callback tc).
Proof.
  unfold toolCallback, execute. uses_steps.
  - apply uses_switch; [apply cases_off_gateway | exact I].
  - match goal with e : Thrown |- _ => destruct e; exact I end.
Qed.

Lemma callbacks_off_gateway (tcs : list ToolCall) :
  Forall (uses off_gateway) (map callback tcs).
Proof.
  induction tcs; simpl; constructor; auto using toolCallback_off_gateway.
Qed.

Lemma switch_default {A : Type} (s : string) (cs : list (string * A)) (d : A) :
  ~ In s (map fst cs) -> switch s cs d = d.
Proof.
  induction cs as [| [label body] rest IH]; simpl; intros H; [reflexivity |].
  destruct (String.eqb_spec s label) as [E | NE].
  - exfalso. apply H. left. symmetry. exact E.
  - apply IH. intros Hin. apply H. right. exact Hin.
Qed.

(** Every label of the [switch] is a name of the catalog. *)
Lemma labels_in_registry (args : Value) (label : string) :
  In label (map fst (branches args)) -> In label catalog.
Proof.
  unfold cases, registry. simpl.
  intros H. repeat (destruct H as [H | H]; [subst label; tauto |]).
  contradiction.
Qed.

Lemma execute_unsupported (tc : ToolCall) (args : Value) :
  ~ In (function_name tc) catalog ->
  exec tc args = Resolve (mkToolResult (id tc) unsupported).
Proof.
  intros H. unfold execute.
  rewrite switch_default; [reflexivity |].
  intros Hin. apply H. eapply labels_in_registry. exact Hin.
Qed.

Lemma execute_answers (tc : ToolCall) (args : Value) :
  resolves (answer tc) (exec tc args).
Proof.
  destruct (in_dec string_dec (function_name tc) catalog) as [Hin | Hout].
  - unfold execute.
    apply resolves_bind with (P := fun _ : string => True).
    + apply try_catch_resolves. intros e; destruct e; exact I.
    + intros s _. simpl. split; [reflexivity | intros H; contradiction].
  - rewrite (execute_unsupported tc args Hout). simpl. split; auto.
Qed.

Lemma callbacks_rejection (tcs : list ToolCall) :
  first_rejection (map callback tcs) =
  option_map (fun msg => ErrorInstance msg None) (syntax_error tcs).
Proof.
  induction tcs as [| tc rest IH]; simpl; [reflexivity |].
  unfold toolCallback at 1, parse.
  destruct (JSON_parse (function_arguments tc)) as [v | msg]; simpl.
  - pose proof (execute_answers tc v) as Hr.
    destruct (exec tc v) as [a | e | R op k] eqn:E; simpl in *;
      try exact IH.
    contradiction.
  - reflexivity.
Qed.

Lemma callbacks_settled (tcs : list ToolCall) :
  syntax_error tcs = None ->
  Forall2 (fun tc t => resolves (answer tc) t) tcs (map callback tcs).
Proof.
  induction tcs as [| tc rest IH]; simpl; intros H; [constructor |].
  unfold toolCallback at 1, parse.
  destruct (JSON_parse (function_arguments tc)) as [v | msg];
    [| discriminate].
  constructor; [apply execute_answers | apply IH, H].
Qed.


(** *** Adding up what the steps of a run add *)

Lemma adds_refl (st : State) : adds st st nothing.
Proof. unfold adds, nothing. simpl. rewrite !app_nil_r. auto. Qed.

Lemma adds_trans (st1 st2 st3 : State) (d1 d2 : Delta) :
  adds st1 st2 d1 -> adds st2 st3 d2 -> adds st1 st3 (join d1 d2).
Proof.
  intros (M1 & G1 & A1) (M2 & G2 & A2). unfold adds, join. simpl.
  rewrite M2, M1, G2, G1, A2, A1, !app_assoc. auto.
Qed.

Lemma quiet_adds (st st' : State) : quiet st st' -> adds st st' nothing.
Proof.
  intros Hq. destruct (quiet_calls st st' Hq) as [G A].
  destruct Hq as (Hm & _). unfold adds, nothing. simpl.
  rewrite Hm, G, A, !app_nil_r. auto.
Qed.

Lemma push_adds (m : Message) (st : State) :
  adds st (push_message m st) (mkDelta [m] [] []).
Proof. unfold adds, push_message. simpl. rewrite !app_nil_r. auto. Qed.

Lemma set_loading_adds (b : bool) (st : State) :
  adds st (set_loading b st) nothing.
Proof. unfold adds, set_loading. simpl. rewrite !app_nil_r. auto. Qed.

Lemma entries_adds (tcs : list ToolCall) (st : State) :
  adds st (fold_left (fun s tc => record (EvAdapter tc) s) tcs st)
    (mkDelta [] [] tcs).
Proof.
  revert st. induction tcs as [| tc rest IH]; intros st; simpl.
  - apply adds_refl.
  - specialize (IH (record (EvAdapter tc) st)).
    destruct IH as (M & G & A). unfold adds in *. simpl in *.
    rewrite M, G, A. unfold gateway_calls, adapter_calls.
    rewrite !collect_app. simpl. rewrite !app_nil_r, <- app_assoc. auto.
Qed.

(** A chat completion adds one call of the gateway, with its outcome. *)
Lemma chat_adds (client : OpenAI) (body : ChatCompletionCreateParams)
  (st : State) :
  adds st (snd (do_op perform (chat_completions_create client body) st))
    (mkDelta []
       [(body, fst (do_op perform (chat_completions_create client body) st))]
       []).
Proof.
  unfold do_op. destruct (perform _ _ (world st)) as [o w']. simpl.
  unfold adds, gateway_calls, adapter_calls. simpl.
  rewrite !collect_app. simpl. rewrite !app_nil_r. auto.
Qed.


(** *** The pre-step on the tagged sheets *)

Local Abbreviation handle :=
  (handleSendMessage perform JSON_parse JSON_stringify ChartType_values
     PivotAggregationFunction_values).

Lemma getEmbedding_off_gateway (openai : OpenAI) (input : string) :
  uses off_gateway (getEmbedding openai input).
Proof. unfold getEmbedding. uses_steps. Qed.

Lemma embedWorksheet_off_gateway (openai : OpenAI) (sheetName : string) :
  uses off_gateway (embedWorksheet openai sheetName).
Proof.
  unfold embedWorksheet. uses_steps.
Qed.

Lemma embedAll_loop_off_gateway (openai : OpenAI) (names : list string)
  (acc : list (string * Embedding)) :
  uses off_gateway (embedAll_loop openai names acc).
Proof.
  revert acc. induction names as [| n rest IH]; intros acc.
  - exact I.
  - cbn [embedAll_loop]. uses_steps; auto.
Qed.

Lemma embedAllWorksheets_off_gateway (openai : OpenAI) :
  uses off_gateway (embedAllWorksheets openai).
Proof.
  unfold embedAllWorksheets. uses_steps. apply embedAll_loop_off_gateway.
Qed.

Lemma bind_run {A B : Type} (m : M World A) (f : A -> M World B) (st : State) :
  bind m f st =
  match m st with
  | (Ok a, st') => f a st'
  | (Throw e, st') => (Throw e, st')
  end.
Proof. reflexivity. Qed.

Lemma adds_eq (st st' : State) (d d' : Delta) :
  adds st st' d -> d = d' -> adds st st' d'.
Proof. intros H E. subst d'. exact H. Qed.

Ltac sum_up H :=
  eapply adds_eq;
  [ exact H
  | unfold join, nothing; simpl; rewrite ?app_nil_r, <- ?app_assoc;
    reflexivity ].

Lemma quiet_then_push (m : Message) (st st1 : State) :
  quiet st st1 -> adds st (push_message m st1) (mkDelta [m] [] []).
Proof.
  intros Hq.
  exact (adds_trans _ _ _ _ _ (quiet_adds _ _ Hq) (push_adds m st1)).
Qed.

(** One sheet: the notice of success, or the report of the failure and the
    exception again. *)
Lemma handleEmbedding_adds (c : Closure) (sheetName : string) (st : State) :
  let r := handleEmbedding perform c sheetName st in
  match fst r with
  | Ok _ => adds st (snd r) (mkDelta [embedded_notice sheetName] [] [])
  | Throw _ => adds st (snd r) (mkDelta [embedding_failed_notice] [] [])
  end.
Proof.
  unfold handleEmbedding, try_catch, bind, setMessages_append, update, ret,
    throw.
  pose proof (await_quiet (embedWorksheet (openai c) sheetName) st
                (embedWorksheet_off_gateway _ _)) as Hq.
  destruct (await perform (embedWorksheet (openai c) sheetName) st)
    as [[r | e] st1]; simpl in *; apply quiet_then_push; exact Hq.
Qed.

Lemma handleEmbedAllWorksheets_adds (c : Closure) (st : State) :
  let r := handleEmbedAllWorksheets perform c st in
  match fst r with
  | Ok _ => adds st (snd r) (mkDelta [all_embedded_notice] [] [])
  | Throw _ => adds st (snd r) (mkDelta [all_embedding_failed_notice] [] [])
  end.
Proof.
  unfold handleEmbedAllWorksheets, try_catch, bind, setMessages_append,
    update, ret, throw.
  pose proof (await_quiet (embedAllWorksheets (openai c)) st
                (embedAllWorksheets_off_gateway _)) as Hq.
  destruct (await perform (embedAllWorksheets (openai c)) st)
    as [[r | e] st1]; simpl in *; apply quiet_then_push; exact Hq.
Qed.

Lemma embed_each_adds (c : Closure) (sheets : list string) (st : State) :
  let r :=
    for_of sheets
      (fun sheetName =>
         bind (handleEmbedding perform c sheetName) (fun _ => ret tt)) st in
  match fst r with
  | Ok _ => adds st (snd r) (mkDelta (map embedded_notice sheets) [] [])
  | Throw _ =>
      exists before sheet after,
        sheets = before ++ sheet :: after /\
        adds st (snd r)
          (mkDelta (map embedded_notice before ++ [embedding_failed_notice])
             [] [])
  end.
Proof.
  revert st. induction sheets as [| s rest IH]; intros st; simpl.
  - apply adds_refl.
  - rewrite !bind_run.
    pose proof (handleEmbedding_adds c s st) as H1. simpl in H1.
    destruct (handleEmbedding perform c s st) as [[r | e] st1];
      unfold ret; simpl in *.
    + specialize (IH st1).
      destruct (for_of rest _ st1) as [[[] | e] st2]; simpl in *.
      * exact (adds_trans _ _ _ _ _ H1 IH).
      * destruct IH as (before & sheet & after & E & H2).
        exists (s :: before), sheet, after. split; [rewrite E; reflexivity |].
        exact (adds_trans _ _ _ _ _ H1 H2).
    + exists [], s, rest. split; [reflexivity | exact H1].
Qed.

Lemma embed_tagged_adds (c : Closure) (taggedSheets : list string)
  (st : State) :
  let r := embed_tagged perform c taggedSheets st in
  match fst r with
  | Ok _ => adds st (snd r) (mkDelta (notices taggedSheets) [] [])
  | Throw _ =>
      exists ns,
        failed_notices taggedSheets ns /\ adds st (snd r) (mkDelta ns [] [])
  end.
Proof.
  unfold embed_tagged, notices, failed_notices, whole_workbook.
  destruct (existsb (String.eqb "workbook") taggedSheets).
  - rewrite bind_run.
    pose proof (handleEmbedAllWorksheets_adds c st) as H. simpl in H.
    destruct (handleEmbedAllWorksheets perform c st) as [[r | e] st1];
      simpl in *; [exact H | eauto].
  - pose proof (embed_each_adds c taggedSheets st) as H. simpl in H |- *.
    destruct (for_of taggedSheets _ st) as [[[] | e] st1]; simpl in *.
    + exact H.
    + destruct H as (before & sheet & after & E & H).
      eexists. split; [exists before, sheet, after; split; [exact E | reflexivity] |].
      exact H.
Qed.

(** *** The two requests and what lies between them *)

Lemma create_run (c : Closure) (client : OpenAI)
  (body : ChatCompletionCreateParams) (st : State) :
  openaiRef_current c = Some client ->
  create perform c body st =
  (match fst (do_op perform (chat_completions_create client body) st) with
   | Ok r => Ok (Some r)
   | Throw e => Throw e
   end,
   snd (do_op perform (chat_completions_create client body) st)).
Proof.
  intros H. unfold create. rewrite H. rewrite bind_run. simpl.
  destruct (do_op perform (chat_completions_create client body) st)
    as [[r | e] st1]; reflexivity.
Qed.

Lemma reply_adds (response : ChatCompletion) (st : State) :
  fst (reply (first_message (Some response)) st) = Ok tt /\
  adds st (snd (reply (first_message (Some response)) st))
    (mkDelta (replied response) [] []).
Proof.
  unfold reply, replied.
  destruct (text_content (first_message (Some response))) as [s |]; simpl.
  - split; [reflexivity | apply push_adds].
  - split; [reflexivity | apply adds_refl].
Qed.

Lemma respond_adds (c : Closure) (client : OpenAI) (schedule : list nat)
  (text : string) (sel : SelectedRangeInfo) (response : ChatCompletion)
  (st : State) :
  openaiRef_current c = Some client ->
  let r :=
    respond perform JSON_parse JSON_stringify ChartType_values
      PivotAggregationFunction_values c schedule text sel (Some response) st in
  let request2 :=
    round2_request ChartType_values PivotAggregationFunction_values c text
      sel in
  (proposed (first_message (Some response)) = None /\
   fst r = Ok tt /\ adds st (snd r) (mkDelta (replied response) [] []))
  \/
  (exists m tcs,
     proposed (first_message (Some response)) = Some (m, tcs) /\
     ((exists msg,
         syntax_error tcs = Some msg /\
         fst r = Throw (ErrorInstance msg None) /\
         adds st (snd r) (mkDelta [] [] tcs))
      \/
      (exists results,
         syntax_error tcs = None /\ Forall2 answer tcs results /\
         ((exists e,
             fst r = Throw e /\
             adds st (snd r)
               (mkDelta [] [(request2 m results, Throw e)] tcs))
          \/
          (exists final,
             fst r = Ok tt /\
             adds st (snd r)
               (mkDelta (replied final) [(request2 m results, Ok final)]
                  tcs)))))).
Proof.
  intros Hclient. unfold respond.
  destruct (proposed (first_message (Some response))) as [[m tcs] |] eqn:Hp;
    cbv zeta.
  - right. exists m, tcs. split; [reflexivity |].
    rewrite bind_run. unfold map_async.
    pose proof (entries_adds tcs st) as H1.
    set (st1 := fold_left (fun s tc => record (EvAdapter tc) s) tcs st) in *.
    rewrite bind_run.
    pose proof (Promise_all_quiet schedule (map callback tcs) st1
                  (callbacks_off_gateway tcs)) as H2.
    apply quiet_adds in H2.
    destruct (syntax_error tcs) as [msg |] eqn:Hs.
    + left. exists msg. split; [reflexivity |].
      pose proof (Promise_all_rejected schedule (map callback tcs)
                    (ErrorInstance msg None) st1) as H3.
      rewrite callbacks_rejection, Hs in H3. specialize (H3 eq_refl).
      destruct (Promise_all perform schedule (map callback tcs) st1)
        as [o st2]. simpl in H2, H3. subst o. simpl.
      split; [reflexivity |]. sum_up (adds_trans _ _ _ _ _ H1 H2).
    + right.
      destruct (Promise_all_resolved ToolCall ToolResult answer schedule tcs
                  (map callback tcs) st1 (callbacks_settled tcs Hs))
        as (results & H3 & H4).
      exists results. split; [reflexivity |]. split; [exact H4 |].
      destruct (Promise_all perform schedule (map callback tcs) st1)
        as [o st2]. simpl in H2, H3. subst o.
      rewrite bind_run, (create_run c client _ st2 Hclient).
      pose proof (chat_adds client
                    (completionPayload ChartType_values
                       PivotAggregationFunction_values c text sel m results)
                    st2) as H5.
      destruct (do_op perform
                  (chat_completions_create client
                     (completionPayload ChartType_values
                        PivotAggregationFunction_values c text sel m results))
                  st2) as [[final | e] st3]; simpl in H5 |- *.
      * right. exists final.
        destruct (reply_adds final st3) as [H6 H7].
        split; [exact H6 |].
        sum_up (adds_trans _ _ _ _ _
                  (adds_trans _ _ _ _ _ (adds_trans _ _ _ _ _ H1 H2) H5) H7).
      * left. exists e. split; [reflexivity |].
        sum_up (adds_trans _ _ _ _ _ (adds_trans _ _ _ _ _ H1 H2) H5).
  - left. split; [reflexivity |]. apply reply_adds.
Qed.

(** *** Every run of the handler takes one of the courses *)

Local Abbreviation course := (Course JSON_parse ChartType_values
                                PivotAggregationFunction_values).

Lemma conversation_adds (c : Closure) (schedule : list nat) (text : string)
  (taggedSheets : list string) (activeSheet : string) (st0 st : State) :
  truthy_string (effectiveApiKey c) = true ->
  adds st0 st (mkDelta [user_turn activeSheet text] [] []) ->
  let r :=
    try_catch
      (conversation perform JSON_parse JSON_stringify ChartType_values
         PivotAggregationFunction_values c schedule text taggedSheets)
      (fun error => setMessages_append (mkMsg (errorMessage error) false))
      st in
  fst r = Ok tt /\
  exists d, adds st0 (snd r) d /\ course c text taggedSheets (Ok tt) false d.
Proof.
  intros Hkey H0. unfold try_catch, conversation. rewrite bind_run.
  pose proof (embed_tagged_adds c taggedSheets st) as H1. simpl in H1.
  destruct (embed_tagged perform c taggedSheets st) as [[[] | e] st1];
    simpl in H1.
  2:{ destruct H1 as (ns & Hns & H1). simpl. split; [reflexivity |].
      eexists. split; cycle 1.
      - eapply prestep_failed with (e := e); eauto.
      - sum_up (adds_trans _ _ _ _ _ (adds_trans _ _ _ _ _ H0 H1)
                  (push_adds (failure_turn e) st1)). }
  rewrite bind_run. simpl await.
  pose proof (do_op_quiet getSelectedRangeInfo st1 I) as H2.
  apply quiet_adds in H2.
  destruct (do_op perform getSelectedRangeInfo st1) as [[sel | e] st2];
    simpl in H2 |- *.
  2:{ split; [reflexivity |]. eexists. split; cycle 1.
      - eapply selection_failed with (e := e); eauto.
      - sum_up (adds_trans _ _ _ _ _
                  (adds_trans _ _ _ _ _ (adds_trans _ _ _ _ _ H0 H1) H2)
                  (push_adds (failure_turn e) st2)). }
  rewrite bind_run.
  destruct (openaiRef_current c) as [client |] eqn:Hclient.
  2:{ unfold create. rewrite Hclient. unfold ret, respond. simpl.
      split; [reflexivity |]. eexists. split; cycle 1.
      - eapply no_client; eauto.
      - sum_up (adds_trans _ _ _ _ _ (adds_trans _ _ _ _ _ H0 H1) H2). }
  rewrite (create_run c client _ st2 Hclient).
  pose proof (chat_adds client
                (round1_request ChartType_values
                   PivotAggregationFunction_values c text sel) st2) as H3.
  unfold round1_request in H3.
  destruct (do_op perform (chat_completions_create client _) st2)
    as [[response | e] st3]; simpl in H3 |- *.
  2:{ split; [reflexivity |]. eexists. split; cycle 1.
      - eapply round1_failed with (e := e) (sel := sel); eauto.
      - sum_up (adds_trans _ _ _ _ _
                  (adds_trans _ _ _ _ _
                     (adds_trans _ _ _ _ _ (adds_trans _ _ _ _ _ H0 H1) H2)
                     H3)
                  (push_adds (failure_turn e) st3)). }
  pose proof (adds_trans _ _ _ _ _
                (adds_trans _ _ _ _ _ (adds_trans _ _ _ _ _ H0 H1) H2) H3)
    as H03.
  pose proof (respond_adds c client schedule text sel response st3 Hclient)
    as H4.
  cbv zeta in H4.
  destruct (respond perform JSON_parse JSON_stringify ChartType_values
              PivotAggregationFunction_values c schedule text sel
              (Some response) st3) as [o st4].
  simpl in H4.
  destruct H4 as [(Hp & Ho & H4) | (m & tcs & Hp & [(msg & Hs & Ho & H4) |
    (results & Hs & Hans & [(e & Ho & H4) | (final & Ho & H4)])])];
    subst o; simpl; (split; [reflexivity |]).
  - eexists. split; [| eapply direct with (sel := sel); eauto].
    sum_up (adds_trans _ _ _ _ _ H03 H4).
  - eexists. split; [| eapply batch_rejected with (sel := sel); eauto].
    sum_up (adds_trans _ _ _ _ _ (adds_trans _ _ _ _ _ H03 H4)
              (push_adds (failure_turn (ErrorInstance msg None)) st4)).
  - eexists.
    split; [| eapply round2_failed with (sel := sel) (e := e); eauto].
    sum_up (adds_trans _ _ _ _ _ (adds_trans _ _ _ _ _ H03 H4)
              (push_adds (failure_turn e) st4)).
  - eexists.
    split; [| eapply round2 with (sel := sel) (final := final); eauto].
    sum_up (adds_trans _ _ _ _ _ H03 H4).
Qed.

(** The handler, step by step up to the outer [try]. *)
Lemma handle_run (c : Closure) (schedule : list nat) (text : string)
  (taggedSheets : list string) (st : State) :
  handle c schedule text taggedSheets st =
  match do_op perform getActiveWorksheetName (set_loading true st) with
  | (Throw e, st1) => (Throw e, st1)
  | (Ok activeSheet, st1) =>
      let st2 := push_message (user_turn activeSheet text) st1 in
      if truthy_string (effectiveApiKey c) then
        try_finally
          (try_catch
             (conversation perform JSON_parse JSON_stringify ChartType_values
                PivotAggregationFunction_values c schedule text taggedSheets)
             (fun error =>
                setMessages_append (mkMsg (errorMessage error) false)))
          (set_loading false) st2
      else (Ok tt, set_loading false (push_message configuration_notice st2))
  end.
Proof.
  unfold handleSendMessage. rewrite bind_run.
  unfold setIsLoading at 1, update at 1. cbv iota beta.
  rewrite bind_run. simpl await.
  destruct (do_op perform getActiveWorksheetName (set_loading true st))
    as [[activeSheet | e] st1]; [| reflexivity].
  simpl await. cbv iota beta. rewrite bind_run.
  unfold setMessages_append at 1, update at 1. cbv iota beta zeta.
  destruct (truthy_string (effectiveApiKey c)); simpl negb; cbv iota;
    reflexivity.
Qed.

Lemma handle_course (c : Closure) (schedule : list nat) (text : string)
  (taggedSheets : list string) (st : State) :
  exists d,
    adds st (snd (handle c schedule text taggedSheets st)) d /\
    course c text taggedSheets
      (fst (handle c schedule text taggedSheets st))
      (isLoading (snd (handle c schedule text taggedSheets st))) d.
Proof.
  rewrite handle_run.
  pose proof (do_op_quiet getActiveWorksheetName (set_loading true st) I)
    as H1.
  destruct (do_op perform getActiveWorksheetName (set_loading true st))
    as [[activeSheet | e] st1]; simpl in H1.
  2:{ exists nothing. split.
      - sum_up (adds_trans _ _ _ _ _ (set_loading_adds true st)
                  (quiet_adds _ _ H1)).
      - destruct H1 as (_ & L & _). simpl. rewrite L. simpl. constructor. }
  apply quiet_adds in H1.
  pose proof (adds_trans _ _ _ _ _
                (adds_trans _ _ _ _ _ (set_loading_adds true st) H1)
                (push_adds (user_turn activeSheet text) st1)) as H2.
  cbv zeta.
  set (st2 := push_message (user_turn activeSheet text) st1) in *.
  destruct (truthy_string (effectiveApiKey c)) eqn:Hkey.
  - unfold try_finally.
    assert (H0 : adds st st2 (mkDelta [user_turn activeSheet text] [] []))
      by (sum_up H2).
    pose proof (conversation_adds c schedule text taggedSheets activeSheet
                  st st2 Hkey H0) as H3.
    cbv zeta in H3.
    destruct (try_catch _ _ st2) as [o st3]. simpl in H3 |- *.
    destruct H3 as (Ho & d & H3 & H4). subst o.
    exists d. split; [| exact H4]. clear H4. destruct d as [ms rs ts].
    sum_up (adds_trans _ _ _ _ _ H3 (set_loading_adds false st3)).
  - simpl.
    eexists. split; [| eapply unconfigured with (activeSheet := activeSheet);
                        exact Hkey].
    sum_up (adds_trans _ _ _ _ _ H2 (push_adds configuration_notice st2)).
Qed.

(** *** One operation *)

Lemma await_call {R : Type} (op : Op R) (st : State) :
  await perform (TaskMonad.call op) st = do_op perform op st.
Proof.
  unfold TaskMonad.call. simpl.
  destruct (do_op perform op st) as [[r | e] st']; reflexivity.
Qed.

Lemma do_op_run {R : Type} (op : Op R) (st : State) (o : Outcome R)
  (w : World) :
  perform _ op (world st) = (o, w) ->
  do_op perform op st =
  (o, mkState w (messages st) (isLoading st) (log st ++ [EvOp op o])).
Proof. intros H. unfold do_op. rewrite H. reflexivity. Qed.

(** *** Reading a course off the two states of a run *)

Lemma skipn_past {A : Type} (l more : list A) :
  skipn (length l) (l ++ more) = more.
Proof. induction l as [| x l IH]; simpl; auto. Qed.

Lemma adds_observed (st st' : State) (d : Delta) :
  adds st st' d ->
  mkDelta (turn_appended st st') (turn_requests st st') (turn_entries st st')
  = d.
Proof.
  intros (Hm & Hg & Ha). unfold turn_appended, turn_requests, turn_entries.
  rewrite Hm, Hg, Ha, !skipn_past. destruct d; reflexivity.
Qed.

(** The course of a run, in terms of what the run has added. *)
Lemma handle_observed (c : Closure) (schedule : list nat) (text : string)
  (taggedSheets : list string) (st : State) :
  course c text taggedSheets
    (fst (handle c schedule text taggedSheets st))
    (isLoading (snd (handle c schedule text taggedSheets st)))
    (mkDelta
       (turn_appended st (snd (handle c schedule text taggedSheets st)))
       (turn_requests st (snd (handle c schedule text taggedSheets st)))
       (turn_entries st (snd (handle c schedule text taggedSheets st)))).
Proof.
  destruct (handle_course c schedule text taggedSheets st) as (d & Hd & Hc).
  rewrite (adds_observed _ _ _ Hd). exact Hc.
Qed.

Lemma answers_ids (tcs : list ToolCall) (results : list ToolResult) :
  Forall2 answer tcs results -> map tool_call_id results = map id tcs.
Proof.
  intros H. induction H as [| tc r tcs results [Hid _] _ IH]; simpl;
    [reflexivity |].
  rewrite Hid, IH. reflexivity.
Qed.

Lemma proposed_inv (response : ChatCompletion) (m : ChatCompletionMessage)
  (tcs : list ToolCall) :
  proposed (first_message (Some response)) = Some (m, tcs) ->
  first_message (Some response) = Some m /\ tool_calls m = Some tcs.
Proof.
  unfold proposed. destruct (first_message (Some response)) as [m' |];
    [| discriminate].
  destruct (tool_calls m') as [tcs' |] eqn:E; [| discriminate].
  intros H. inversion H; subst. auto.
Qed.

(** Splits a course into its cases, with the three lists of the run named. *)
Ltac by_course c schedule text taggedSheets st :=
  let Hc := fresh "Hcourse" in
  pose proof (handle_observed c schedule text taggedSheets st) as Hc;
  remember (turn_appended st (snd (handle c schedule text taggedSheets st)))
    as msgs eqn:Emsgs;
  remember (turn_requests st (snd (handle c schedule text taggedSheets st)))
    as calls eqn:Ecalls;
  remember (turn_entries st (snd (handle c schedule text taggedSheets st)))
    as entries eqn:Eentries;
  remember (fst (handle c schedule text taggedSheets st)) as outcome
    eqn:Eoutcome;
  remember (isLoading (snd (handle c schedule text taggedSheets st)))
    as loading eqn:Eloading;
  clear Emsgs Ecalls Eentries Eoutcome Eloading;
  inversion Hc; subst; clear Hc.

(** C8: whenever a turn sends a second request to the gateway, its
    transcript is, in this order: the system instruction, the prior turns
    of the store in their order, the new user text, the assistant message
    of the first response that carries the proposed calls, and then one
    tool message per proposed call, in the order and with the ids of the
    calls. *)
Theorem C8_round2_transcript_order (apiKey activeWorksheet : string)
  (schedule : list nat) (text : string) (taggedSheets : list string)
  (st : State) (first : GatewayCall) (body : ChatCompletionCreateParams)
  (o : Outcome ChatCompletion) :
  turn_requests st
    (snd (handle (render apiKey activeWorksheet st) schedule text
            taggedSheets st))
  = [first; (body, o)] ->
  exists response m toolCalls results,
    snd first = Ok response /\
    first_message (Some response) = Some m /\
    tool_calls m = Some toolCalls /\
    map tool_call_id results = map id toolCalls /\
    messages_of body =
      [SystemMessage (system_prompt activeWorksheet)]
      ++ map as_param (messages st)
      ++ [UserMessage text]
      ++ [ProposalMessage m]
      ++ map ToolMessage results.
Proof.
  by_course (render apiKey activeWorksheet st) schedule text taggedSheets st;
    intros H; try discriminate H;
    inversion H; subst;
    match goal with
    | Hp : proposed _ = Some _ |- _ => apply proposed_inv in Hp as [Hm Ht]
    end;
    do 4 eexists; simpl; repeat split; eauto using answers_ids.
Qed.

(** C3, as amended: given the first response of a turn, a second request
    is sent exactly when that response carries a [tool_calls] array, also
    an empty one, provided every argument text of the array parses.  With
    the array the gateway is called twice and the callback is entered once
    per call; without it the gateway is called once and no callback is
    entered. *)
Theorem C3_round2_iff_tool_calls (c : Closure) (schedule : list nat)
  (text : string) (taggedSheets : list string) (st : State)
  (body : ChatCompletionCreateParams) (response : ChatCompletion) :
  nth_error
    (turn_requests st (snd (handle c schedule text taggedSheets st))) 0
  = Some (body, Ok response) ->
  match proposed (first_message (Some response)) with
  | Some (_, toolCalls) =>
      syntax_error toolCalls = None ->
      length (turn_requests st (snd (handle c schedule text taggedSheets st)))
      = 2 /\
      turn_entries st (snd (handle c schedule text taggedSheets st))
      = toolCalls
  | None =>
      length (turn_requests st (snd (handle c schedule text taggedSheets st)))
      = 1 /\
      turn_entries st (snd (handle c schedule text taggedSheets st)) = []
  end.
Proof.
  by_course c schedule text taggedSheets st; intros H; simpl in H;
    try discriminate H; inversion H; subst;
    match goal with
    | Hp : proposed _ = _ |- _ => rewrite Hp
    end; auto.
  intros Hs. congruence.
Qed.

(** C9, as amended: when the first response of a turn has neither a
    [tool_calls] array nor text, or when the second response has no text,
    the handler resolves, the loading flag is cleared, and the turn has
    appended the user's entry and the notices of the pre-step only. *)
Theorem C9_empty_response_ends_silently (c : Closure) (schedule : list nat)
  (text : string) (taggedSheets : list string) (st : State)
  (body : ChatCompletionCreateParams) (response : ChatCompletion) :
  (turn_requests st (snd (handle c schedule text taggedSheets st))
   = [(body, Ok response)] /\
   proposed (first_message (Some response)) = None)
  \/
  (exists first,
     turn_requests st (snd (handle c schedule text taggedSheets st))
     = [first; (body, Ok response)]) ->
  text_content (first_message (Some response)) = None ->
  fst (handle c schedule text taggedSheets st) = Ok tt /\
  isLoading (snd (handle c schedule text taggedSheets st)) = false /\
  exists activeSheet,
    turn_appended st (snd (handle c schedule text taggedSheets st))
    = user_turn activeSheet text :: notices taggedSheets.
Proof.
  by_course c schedule text taggedSheets st;
    intros [[H Hp] | [first H]] Ht; try discriminate H;
    inversion H; subst; try congruence;
    (split; [reflexivity |]); (split; [reflexivity |]);
    exists activeSheet; unfold replied; rewrite Ht, app_nil_r; reflexivity.
Qed.

(** When a request to the gateway fails, in either round, the handler
    still resolves and clears the loading flag, and the turn's last entry
    is the one assistant entry for the failure, after the user's entry and
    the notices of the pre-step.  Its text is decided by the outer [catch]:
    the failure's own message behind [Error: ] for an [Error] instance,
    the credential message for another object whose response status is
    401, and the general apology otherwise.  When it is the first request
    that fails, no callback is entered. *)
Lemma gateway_failure_is_reported (c : Closure) (schedule : list nat)
  (text : string) (taggedSheets : list string) (st : State)
  (body : ChatCompletionCreateParams) (e : Thrown) :
  In (body, Throw e)
    (turn_requests st (snd (handle c schedule text taggedSheets st))) ->
  fst (handle c schedule text taggedSheets st) = Ok tt /\
  isLoading (snd (handle c schedule text taggedSheets st)) = false /\
  (exists activeSheet,
     turn_appended st (snd (handle c schedule text taggedSheets st))
     = user_turn activeSheet text :: notices taggedSheets
       ++ [failure_turn e]) /\
  (nth_error
     (turn_requests st (snd (handle c schedule text taggedSheets st))) 0
   = Some (body, Throw e) ->
   turn_entries st (snd (handle c schedule text taggedSheets st)) = []) /\
  match e with
  | ErrorInstance message _ =>
      failure_turn e = mkMsg ("Error: " +++ message) false
  | ResponseObject (Some 401%Z) =>
      failure_turn e
      = mkMsg "Invalid API key. Please check your settings." false
  | _ =>
      failure_turn e
      = mkMsg "Sorry, I encountered an error. Please try again." false
  end.
Proof.
  by_course c schedule text taggedSheets st; simpl; intros H;
    try contradiction;
    repeat match goal with
           | H : _ \/ _ |- _ => destruct H
           | H : False |- _ => contradiction
           | H : (_, _) = (_, _) |- _ => inversion H; clear H; subst
           end;
    (split; [reflexivity |]); (split; [reflexivity |]);
    (split; [eexists; reflexivity |]);
    (split; [intros; try discriminate; reflexivity |]);
    unfold failure_turn, errorMessage; simpl;
    repeat match goal with
           | |- context [match ?x with _ => _ end] => destruct x
           end; reflexivity.
Qed.

(** C7: the outer [catch] has a message for a rejected credential, but
    tests [error instanceof Error] before it looks at the status.  So when
    a request to the gateway is rejected with an [Error], which is how the
    client reports a rejected credential (status 401), the one assistant
    entry of the failure is the error's own message behind [Error: ], and
    the entry made for a rejected credential is not in what the turn
    appends.  The rest is as claimed: the handler resolves and clears the
    loading flag, exactly one assistant entry reports the failure, after
    the user's entry and the notices of the pre-step, and when it is the
    first request that fails no callback is entered. *)
Theorem C7_rejected_credential_is_not_told_apart (c : Closure)
  (schedule : list nat) (text : string) (taggedSheets : list string)
  (st : State) (body : ChatCompletionCreateParams) (message : string)
  (status : option Z) :
  In (body, Throw (ErrorInstance message status))
    (turn_requests st (snd (handle c schedule text taggedSheets st))) ->
  fst (handle c schedule text taggedSheets st) = Ok tt /\
  isLoading (snd (handle c schedule text taggedSheets st)) = false /\
  (exists activeSheet,
     turn_appended st (snd (handle c schedule text taggedSheets st))
     = user_turn activeSheet text :: notices taggedSheets
       ++ [mkMsg ("Error: " +++ message) false]) /\
  ~ In (mkMsg "Invalid API key. Please check your settings." false)
      (turn_appended st (snd (handle c schedule text taggedSheets st))) /\
  (nth_error
     (turn_requests st (snd (handle c schedule text taggedSheets st))) 0
   = Some (body, Throw (ErrorInstance message status)) ->
   turn_entries st (snd (handle c schedule text taggedSheets st)) = []).
Proof.
  intros H.
  destruct (gateway_failure_is_reported c schedule text taggedSheets st body
              (ErrorInstance message status) H)
    as (Ho & Hl & (activeSheet & Ha) & He & _).
  split; [exact Ho |]. split; [exact Hl |].
  split; [exists activeSheet; exact Ha |]. split; [| exact He].
  rewrite Ha. intros [Hin | Hin]; [discriminate Hin |].
  apply in_app_or in Hin as [Hin | [Hin | []]]; [| discriminate Hin].
  unfold notices in Hin. destruct (whole_workbook taggedSheets).
  - destruct Hin as [Hin | []]. discriminate Hin.
  - apply in_map_iff in Hin as (sheetName & Hin & _). discriminate Hin.
Qed.

(** *** The guard and the pre-step, from the run equation *)

Lemma entry_run (st : State) (activeSheet : string) (w : World)
  (text : string) :
  perform _ getActiveWorksheetName (world st) = (Ok activeSheet, w) ->
  do_op perform getActiveWorksheetName (set_loading true st)
  = (Ok activeSheet,
     mkState w (messages st) true
       (log st ++ [EvOp getActiveWorksheetName (Ok activeSheet)]))
  /\ adds st (entry st activeSheet w text)
       (mkDelta [user_turn activeSheet text] [] []).
Proof.
  intros H. unfold do_op. simpl. rewrite H. split; [reflexivity |].
  unfold adds, entry, gateway_calls, adapter_calls. simpl.
  rewrite !collect_app. simpl. rewrite !app_nil_r. auto.
Qed.

(** The component never closes the handler over an empty key. *)
Lemma render_has_key (apiKey activeWorksheet : string) (st : State) :
  truthy_string (effectiveApiKey (render apiKey activeWorksheet st)) = true.
Proof.
  unfold render, or_else. simpl.
  destruct (truthy_string apiKey) eqn:E; [exact E | reflexivity].
Qed.

(** C5, as amended: a handler that closes over an empty effective key
    appends, once the active sheet is read, the user's entry and the fixed
    entry that asks for the key, makes no request to the gateway and enters
    no callback.  The component itself never renders such a handler: an
    absent API key is replaced by the built-in one. *)
Theorem C5_empty_effective_key_stops_turn (apiKey activeWorksheet : string)
  (c : Closure) (schedule : list nat) (text : string)
  (taggedSheets : list string) (st : State) (activeSheet : string)
  (w : World) :
  truthy_string (effectiveApiKey c) = false ->
  perform _ getActiveWorksheetName (world st) = (Ok activeSheet, w) ->
  (fst (handle c schedule text taggedSheets st) = Ok tt /\
   isLoading (snd (handle c schedule text taggedSheets st)) = false /\
   turn_appended st (snd (handle c schedule text taggedSheets st))
   = [user_turn activeSheet text; configuration_notice] /\
   turn_requests st (snd (handle c schedule text taggedSheets st)) = [] /\
   turn_entries st (snd (handle c schedule text taggedSheets st)) = [])
  /\
  truthy_string (effectiveApiKey (render apiKey activeWorksheet st)) = true.
Proof.
  intros Hkey Hsheet. split; [| apply render_has_key].
  destruct (entry_run st activeSheet w text Hsheet) as [Hrun Hentry].
  rewrite handle_run, Hrun, Hkey. cbv zeta. simpl fst. simpl snd.
  split; [reflexivity |]. split; [reflexivity |].
  pose proof (adds_trans _ _ _ _ _ Hentry
                (push_adds configuration_notice (entry st activeSheet w text)))
    as H1.
  pose proof (adds_trans _ _ _ _ _ H1
                (set_loading_adds false
                   (push_message configuration_notice
                      (entry st activeSheet w text)))) as H2.
  apply adds_observed in H2. unfold join, nothing in H2. simpl in H2.
  inversion H2 as [[Ha Hr He]]. rewrite Ha, Hr, He. auto.
Qed.

(** *** The pre-step on a sheet that cannot be embedded *)

Lemma for_of_app {A : Type} (l1 l2 : list A) (body : A -> M World unit)
  (st : State) :
  for_of (l1 ++ l2) body st =
  match for_of l1 body st with
  | (Ok _, st1) => for_of l2 body st1
  | (Throw e, st1) => (Throw e, st1)
  end.
Proof.
  revert st. induction l1 as [| x l1 IH]; intros st; simpl; [reflexivity |].
  rewrite !bind_run.
  destruct (body x st) as [[[] | e] st1]; [apply IH | reflexivity].
Qed.

Lemma whole_workbook_app (before after : list string) :
  whole_workbook (before ++ after) = false ->
  whole_workbook before = false /\ whole_workbook after = false.
Proof.
  unfold whole_workbook. rewrite existsb_app. apply orb_false_elim.
Qed.

(** From the failure of the read or of the request to the rejection of
    [handleEmbedding]: [getEmbedding], [embedWorksheet] and
    [handleEmbedding] each catch the error and throw it again. *)
Lemma handleEmbedding_fails (c : Closure) (sheetName : string) (st : State)
  (e : Thrown) :
  (exists w',
     perform _ (getCurrentSheetContent true sheetName) (world st)
     = (Throw e, w')) \/
  (exists content w' w'',
     perform _ (getCurrentSheetContent true sheetName) (world st)
     = (Ok content, w') /\
     perform _
       (embeddings_create (openai c) "text-embedding-3-large" content "float")
       w' = (Throw e, w'')) ->
  fst (handleEmbedding perform c sheetName st) = Throw e /\
  exists events,
    log (snd (handleEmbedding perform c sheetName st)) = log st ++ events /\
    (events = [EvOp (getCurrentSheetContent true sheetName) (Throw e)] \/
     exists content,
       events =
       [EvOp (getCurrentSheetContent true sheetName) (Ok content);
        EvOp (embeddings_create (openai c) "text-embedding-3-large" content
                "float") (Throw e)]).
Proof.
  intros H. unfold handleEmbedding, try_catch. rewrite bind_run.
  unfold embedWorksheet, getEmbedding.
  rewrite await_try_catch, await_bind, await_call.
  destruct H as [(w' & H) | (content & w' & w'' & H1 & H2)].
  - rewrite (do_op_run _ _ _ _ H). simpl. split; [reflexivity |].
    eexists. split; [reflexivity |]. left. reflexivity.
  - rewrite (do_op_run _ _ _ _ H1).
    rewrite await_bind, await_try_catch, await_bind, await_call.
    unfold do_op. cbn [world]. rewrite H2. simpl. split; [reflexivity |].
    eexists. split; [rewrite <- app_assoc; reflexivity |].
    right. exists content. reflexivity.
Qed.

(** C6, as amended: when, in a turn with tagged sheets (not the whole
    workbook), the sheets tagged first are embedded and then the content
    of a tagged sheet cannot be read, or the request for its embedding
    fails, the turn ends there.  [handleEmbedding] reports the failure by
    its own assistant entry, after the notices of the sheets embedded
    before, and throws the error again; a second assistant entry carries
    the error message.  After the failing read or request nothing more is
    performed: the sheets tagged after it are not embedded, the gateway
    gets no request and no callback is entered. *)
Theorem C6_embedding_failure_ends_turn (c : Closure) (schedule : list nat)
  (text : string) (before : list string) (sheet : string)
  (after : list string) (st : State) (activeSheet : string) (w : World)
  (e : Thrown) :
  truthy_string (effectiveApiKey c) = true ->
  whole_workbook (before ++ sheet :: after) = false ->
  perform _ getActiveWorksheetName (world st) = (Ok activeSheet, w) ->
  fst (embed_tagged perform c before (entry st activeSheet w text)) = Ok tt ->
  (exists w',
     perform _ (getCurrentSheetContent true sheet)
       (world (snd (embed_tagged perform c before
                      (entry st activeSheet w text))))
     = (Throw e, w')) \/
  (exists content w' w'',
     perform _ (getCurrentSheetContent true sheet)
       (world (snd (embed_tagged perform c before
                      (entry st activeSheet w text))))
     = (Ok content, w') /\
     perform _
       (embeddings_create (openai c) "text-embedding-3-large" content "float")
       w' = (Throw e, w'')) ->
  fst (handle c schedule text (before ++ sheet :: after) st) = Ok tt /\
  isLoading (snd (handle c schedule text (before ++ sheet :: after) st))
  = false /\
  turn_appended st (snd (handle c schedule text (before ++ sheet :: after) st))
  = user_turn activeSheet text :: map embedded_notice before
    ++ [embedding_failed_notice; failure_turn e] /\
  turn_requests st (snd (handle c schedule text (before ++ sheet :: after) st))
  = [] /\
  turn_entries st (snd (handle c schedule text (before ++ sheet :: after) st))
  = [] /\
  exists events,
    log (snd (handle c schedule text (before ++ sheet :: after) st))
    = log (snd (embed_tagged perform c before (entry st activeSheet w text)))
      ++ events /\
    (events = [EvOp (getCurrentSheetContent true sheet) (Throw e)] \/
     exists content,
       events =
       [EvOp (getCurrentSheetContent true sheet) (Ok content);
        EvOp (embeddings_create (openai c) "text-embedding-3-large" content
                "float") (Throw e)]).
Proof.
  intros Hkey Hwb Hsheet Hpre Hfail.
  destruct (whole_workbook_app _ _ Hwb) as [Hwb1 _].
  destruct (entry_run st activeSheet w text Hsheet) as [Hrun Hentry].
  rewrite handle_run, Hrun, Hkey. cbv zeta.
  change (push_message (user_turn activeSheet text)
            (mkState w (messages st) true
               (log st ++ [EvOp getActiveWorksheetName (Ok activeSheet)])))
    with (entry st activeSheet w text).
  unfold try_finally, try_catch, conversation. rewrite bind_run.
  pose proof (embed_tagged_adds c before (entry st activeSheet w text)) as H1.
  cbv zeta in H1. unfold notices in H1. rewrite Hwb1 in H1.
  unfold embed_tagged in *. unfold whole_workbook in Hwb, Hwb1.
  rewrite Hwb. rewrite Hwb1 in Hpre, Hfail, H1 |- *.
  rewrite for_of_app.
  destruct (for_of before _ (entry st activeSheet w text)) as [[[] | e1] st1];
    simpl in Hpre, Hfail, H1; [| discriminate Hpre].
  simpl for_of. rewrite !bind_run.
  destruct (handleEmbedding_fails c sheet st1 e Hfail)
    as (Hthrow & events & Hlog & Hevents).
  pose proof (handleEmbedding_adds c sheet st1) as H2. cbv zeta in H2.
  destruct (handleEmbedding perform c sheet st1) as [o st2].
  simpl in Hthrow, Hlog, H2. subst o.
  unfold setMessages_append, update. simpl fst. simpl snd.
  change (mkMsg (errorMessage e) false) with (failure_turn e).
  split; [reflexivity |]. split; [reflexivity |].
  pose proof (adds_trans _ _ _ _ _
                (adds_trans _ _ _ _ _
                   (adds_trans _ _ _ _ _ (adds_trans _ _ _ _ _ Hentry H1) H2)
                   (push_adds (failure_turn e) st2))
                (set_loading_adds false (push_message (failure_turn e) st2)))
    as H3.
  apply adds_observed in H3. unfold join, nothing in H3. simpl in H3.
  inversion H3 as [[Ha Hr He]]. rewrite Ha, Hr, He.
  split; [rewrite app_nil_r, <- !app_assoc; reflexivity |].
  split; [reflexivity |]. split; [reflexivity |].
  exists events. split; [exact Hlog | exact Hevents].
Qed.

(** *** The batch on its own *)

(** When every argument text parses, the batch yields one result per call,
    in the order of the calls and with their ids, whatever the schedule;
    a call whose name is not in the catalog gets the unsupported text. *)
Lemma batch_settles_in_order (schedule : list nat) (tcs : list ToolCall)
  (st : State) :
  syntax_error tcs = None ->
  exists results,
    fst (Promise_all perform schedule (map callback tcs) st) = Ok results /\
    Forall2 answer tcs results.
Proof.
  intros Hs.
  exact (Promise_all_resolved ToolCall ToolResult answer schedule tcs
           (map callback tcs) st (callbacks_settled tcs Hs)).
Qed.

(** Run on its own, the callback of a call whose arguments are parsed turns
    whatever its [switch] throws into the text of a result: a validation
    failure or a failure of the host becomes [Error: ] and its message. *)
Lemma execute_reports_failure (tc : ToolCall) (args : Value) (st : State) :
  await perform (exec tc args) st =
  match
    await perform
      (switch (function_name tc) (branches args) (Resolve unsupported)) st
  with
  | (Ok functionResult, st') => (Ok (mkToolResult (id tc) functionResult), st')
  | (Throw (ErrorInstance m _), st') =>
      (Ok (mkToolResult (id tc) ("Error: " +++ m)), st')
  | (Throw _, st') =>
      (Ok (mkToolResult (id tc) "An unknown error occurred."), st')
  end.
Proof.
  unfold execute. rewrite await_bind, await_try_catch.
  destruct (await perform _ st) as [[s | [m h | r | v]] st']; reflexivity.
Qed.

Lemma syntax_error_found (before after : list ToolCall) (tc : ToolCall)
  (msg : string) :
  JSON_parse (function_arguments tc) = inr msg ->
  exists msg', syntax_error (before ++ tc :: after) = Some msg'.
Proof.
  intros H. induction before as [| b before IH]; simpl.
  - rewrite H. eauto.
  - destruct (JSON_parse (function_arguments b)); eauto.
Qed.

Lemma round1_messages_plain (c : Closure) (text : string) :
  Forall plain (round1_messages c text).
Proof.
  unfold round1_messages. constructor; [exact I |].
  apply Forall_app. split.
  - induction (messages_seen c) as [| m l IH]; simpl; constructor; auto.
    unfold as_param. destruct (isUser m); exact I.
  - constructor; [exact I | constructor].
Qed.

(** C1, where the code departs from the claim: when an argument text of
    the batch does not parse, no result is made of the failure.  Every
    callback has been entered, but the turn ends with the [SyntaxError]
    reported as an assistant entry and the first request stays the only
    one. *)
Theorem C1_syntax_error_aborts_batch (c : Closure) (schedule : list nat)
  (text : string) (taggedSheets : list string) (st : State)
  (body : ChatCompletionCreateParams) (response : ChatCompletion)
  (m : ChatCompletionMessage) (toolCalls : list ToolCall) (msg : string) :
  nth_error
    (turn_requests st (snd (handle c schedule text taggedSheets st))) 0
  = Some (body, Ok response) ->
  proposed (first_message (Some response)) = Some (m, toolCalls) ->
  syntax_error toolCalls = Some msg ->
  fst (handle c schedule text taggedSheets st) = Ok tt /\
  turn_requests st (snd (handle c schedule text taggedSheets st))
  = [(body, Ok response)] /\
  turn_entries st (snd (handle c schedule text taggedSheets st)) = toolCalls /\
  exists activeSheet,
    turn_appended st (snd (handle c schedule text taggedSheets st))
    = user_turn activeSheet text :: notices taggedSheets
      ++ [failure_turn (ErrorInstance msg None)].
Proof.
  by_course c schedule text taggedSheets st; intros H Hp Hs; simpl in H;
    try discriminate H; inversion H; subst; try congruence.
  assert (E : Some (m0, entries) = Some (m, toolCalls)) by congruence.
  inversion E; subst.
  assert (E' : Some msg0 = Some msg) by congruence.
  inversion E'; subst. eauto 6.
Qed.

(** C2, where the code departs from the claim: when an argument text of
    a batch does not parse, the batch has at least one call and yet no
    request of the turn carries a tool message. *)
Theorem C2_syntax_error_drops_every_result (c : Closure)
  (schedule : list nat) (text : string) (taggedSheets : list string)
  (st : State) (body : ChatCompletionCreateParams)
  (response : ChatCompletion) (m : ChatCompletionMessage)
  (toolCalls : list ToolCall) (msg : string) :
  nth_error
    (turn_requests st (snd (handle c schedule text taggedSheets st))) 0
  = Some (body, Ok response) ->
  proposed (first_message (Some response)) = Some (m, toolCalls) ->
  syntax_error toolCalls = Some msg ->
  1 <= length toolCalls /\
  forall body' o,
    In (body', o)
      (turn_requests st (snd (handle c schedule text taggedSheets st))) ->
    Forall plain (messages_of body').
Proof.
  intros H Hp Hs. split.
  - destruct toolCalls; [discriminate Hs | simpl; lia].
  - revert H.
    by_course c schedule text taggedSheets st; intros H; simpl in H;
      try discriminate H; inversion H; subst; try congruence.
    intros body' o [E | []]. inversion E; subst. simpl.
    apply round1_messages_plain.
Qed.

(** C4, where the code departs from the claim: a call whose name is not in
    the catalog and whose argument text does not parse gets no result.  Its
    callback rejects, and so does the whole batch it belongs to, whatever
    the other calls and the schedule. *)
Theorem C4_unknown_name_can_reject_batch (schedule : list nat)
  (before after : list ToolCall) (tc : ToolCall) (msg : string) (st : State) :
  ~ In (function_name tc) catalog ->
  JSON_parse (function_arguments tc) = inr msg ->
  callback tc = Reject (ErrorInstance msg None) /\
  exists e,
    fst (Promise_all perform schedule (map callback (before ++ tc :: after))
           st)
    = Throw e.
Proof.
  intros _ H. split.
  - unfold toolCallback, parse. rewrite H. reflexivity.
  - destruct (syntax_error_found before after tc msg H) as [msg' Hs].
    exists (ErrorInstance msg' None).
    apply Promise_all_rejected. rewrite callbacks_rejection, Hs. reflexivity.
Qed.

(** *** Sessions *)

Local Abbreviation run_session :=
  (session perform JSON_parse JSON_stringify ChartType_values
     PivotAggregationFunction_values).

Lemma course_requests_built (c : Closure) (text : string)
  (taggedSheets : list string) (o : Outcome unit) (loading : bool)
  (d : Delta) :
  course c text taggedSheets o loading d ->
  Forall (fun call => built_on (messages_seen c) (fst call)) (requests d).
Proof.
  intros H. destruct H; simpl; repeat constructor; simpl;
    unfold built_on; simpl;
    try (exists (system_prompt_round1 (activeWorksheet c)), text, [];
         split; [reflexivity | left; reflexivity]);
    exists (system_prompt (activeWorksheet c)), text,
      (ProposalMessage m :: map ToolMessage results);
    (split; [reflexivity | right; eauto]).
Qed.

Lemma stored_plain (stored : list Message) :
  Forall plain (map as_param stored).
Proof.
  induction stored as [| m l IH]; simpl; constructor; auto.
  unfold as_param. destruct (isUser m); exact I.
Qed.

Lemma session_adds (inputs : list Input) (st : State) :
  exists d,
    adds st (run_session inputs st) d /\
    Forall
      (fun call =>
         exists stored later,
           messages st ++ appended d = stored ++ later /\
           built_on stored (fst call))
      (requests d).
Proof.
  revert st. induction inputs as [| i later IH]; intros st; simpl.
  - exists nothing. split; [apply adds_refl | constructor].
  - unfold turn at 1.
    destruct (handle_course (render (in_apiKey i) (in_activeWorksheet i) st)
                (in_schedule i) (in_text i) (in_taggedSheets i) st)
      as (d1 & H1 & Hc).
    apply course_requests_built in Hc. simpl in Hc.
    set (st1 := snd (handle _ _ _ _ st)) in *.
    destruct (IH st1) as (d2 & H2 & Hr).
    exists (join d1 d2). split; [exact (adds_trans _ _ _ _ _ H1 H2) |].
    simpl. apply Forall_app. split.
    + eapply Forall_impl; [| exact Hc].
      intros call Hb. exists (messages st), (appended d1 ++ appended d2).
      auto.
    + eapply Forall_impl; [| exact Hr].
      intros call (stored & rest & E & Hb).
      exists stored, rest. split; [| exact Hb].
      destruct H1 as (M1 & _). rewrite M1 in E.
      rewrite app_assoc. exact E.
Qed.

(** C10: the store takes nothing of a batch.  In a turn that has reached
    the gateway, what is appended is the entry of the user, the notices of
    the pre-step and then only what the last call of the turn gives rise
    to: the text of its response, if it has one, or the report of its
    failure; when an argument text of the proposed calls does not parse,
    it is the report of that error instead.  Neither a tool result nor the
    message that proposed the calls is appended, and a turn that has not
    reached the gateway has entered no callback.  Over a whole session the
    store only grows, by entries that are user text or assistant text, and
    every request sent in the session is the system instruction, the
    transcript of a prefix of the final store, the new user text and a
    tail; the transcript holds no tool message and no proposing message,
    and the tail is either empty or the proposing message with the tool
    messages of that very request. *)
Theorem C10_store_holds_only_user_and_assistant_text (inputs : list Input)
  (st : State) (c : Closure) (schedule : list nat) (userText : string)
  (taggedSheets : list string) (st0 : State) :
  (forall earlier call,
     turn_requests st0 (snd (handle c schedule userText taggedSheets st0))
     = earlier ++ [call] ->
     exists activeSheet,
       turn_appended st0 (snd (handle c schedule userText taggedSheets st0))
       = user_turn activeSheet userText :: notices taggedSheets
         ++ match
              syntax_error
                (turn_entries st0
                   (snd (handle c schedule userText taggedSheets st0)))
            with
            | Some msg => [failure_turn (ErrorInstance msg None)]
            | None =>
                match snd call with
                | Ok final => replied final
                | Throw e => [failure_turn e]
                end
            end) /\
  (turn_requests st0 (snd (handle c schedule userText taggedSheets st0)) = [] ->
   turn_entries st0 (snd (handle c schedule userText taggedSheets st0)) = []) /\
  (exists more, messages (run_session inputs st) = messages st ++ more) /\
  (forall msg : Message,
     as_param msg = UserMessage (text msg) \/
     as_param msg = AssistantMessage (text msg)) /\
  forall body o,
    In (body, o) (turn_requests st (run_session inputs st)) ->
    exists stored later,
      messages (run_session inputs st) = stored ++ later /\
      Forall plain (map as_param stored) /\
      built_on stored body.
Proof.
  split; [| split].
  - by_course c schedule userText taggedSheets st0; intros earlier call H;
      try (destruct (app_cons_not_nil _ _ _ H));
      repeat match goal with
             | H : [?x] = _ ++ [_] |- _ =>
                 change [x] with ([] ++ [x]) in H;
                 apply app_inj_tail in H as [? ?]; subst
             | H : [?x; ?y] = _ ++ [_] |- _ =>
                 change [x; y] with ([x] ++ [y]) in H;
                 apply app_inj_tail in H as [? ?]; subst
             end;
      exists activeSheet; simpl;
      repeat match goal with
             | Hs : first_syntax_error _ _ = _ |- _ => rewrite Hs; clear Hs
             end; reflexivity.
  - by_course c schedule userText taggedSheets st0; intros H;
      try discriminate H; reflexivity.
  - destruct (session_adds inputs st) as (d & Hd & Hr).
    pose proof (adds_observed _ _ _ Hd) as Ho.
    destruct Hd as (Hm & _). split; [eauto |]. split.
    + intros msg. unfold as_param. destruct (isUser msg); auto.
    + intros body o Hin.
      assert (E : turn_requests st (run_session inputs st) = requests d)
        by (rewrite <- Ho; reflexivity).
      rewrite E in Hin. rewrite Forall_forall in Hr.
      destruct (Hr _ Hin) as (stored & later & Es & Hb).
      exists stored, later. rewrite Hm. auto using stored_plain.
Qed.

(** *** A settled promise among the others *)

Section Isolation.

Variable A : Type.
Variable r : A.

Lemma first_rejection_insert (i : nat) (pool : list (Task A)) :
  first_rejection (insert_at i (Resolve r) pool) = first_rejection pool.
Proof.
  revert pool. induction i as [| j IH]; intros pool.
  - reflexivity.
  - destruct pool as [| t rest]; [reflexivity |].
    simpl. destruct t; auto.
Qed.

Lemma step_at_length (k : nat) (pool : list (Task A)) (st : State) :
  length (fst (step_at perform k pool st)) = length pool.
Proof.
  revert k st. induction pool as [| t rest IH]; intros k st; simpl.
  - reflexivity.
  - destruct k as [| j].
    + destruct t as [a | e | R op c]; simpl; try reflexivity.
      destruct (do_op perform op st); reflexivity.
    + specialize (IH j st). destruct (step_at perform j rest st). simpl in *.
      congruence.
Qed.

(** A step of the enlarged pool is a step of the others, or nothing. *)
Lemma step_at_insert (i k : nat) (pool : list (Task A)) (st : State) :
  i <= length pool ->
  step_at perform k (insert_at i (Resolve r) pool) st =
  if Nat.ltb k i then
    (insert_at i (Resolve r) (fst (step_at perform k pool st)),
     snd (step_at perform k pool st))
  else if Nat.eqb k i then (insert_at i (Resolve r) pool, st)
  else
    (insert_at i (Resolve r) (fst (step_at perform (pred k) pool st)),
     snd (step_at perform (pred k) pool st)).
Proof.
  revert k pool st. induction i as [| j IH]; intros k pool st Hi.
  - destruct k as [| k']; simpl; [reflexivity |].
    destruct (step_at perform k' pool st); reflexivity.
  - destruct pool as [| t rest]; [simpl in Hi; lia |].
    simpl in Hi. destruct k as [| k'].
    + simpl. destruct t as [a | e | R op c]; simpl; try reflexivity.
      destruct (do_op perform op st); reflexivity.
    + simpl insert_at. simpl step_at at 1.
      rewrite (IH k' rest st) by lia.
      change (Nat.ltb (S k') (S j)) with (Nat.ltb k' j).
      change (Nat.eqb (S k') (S j)) with (Nat.eqb k' j).
      destruct (Nat.ltb k' j) eqn:Hlt.
      * simpl. destruct (step_at perform k' rest st); reflexivity.
      * destruct (Nat.eqb k' j) eqn:Heq; [reflexivity |].
        apply Nat.ltb_ge in Hlt. apply Nat.eqb_neq in Heq.
        destruct k' as [| k'']; [lia |].
        simpl. destruct (step_at perform k'' rest st); reflexivity.
Qed.

Lemma earliest_twice (rej now : option Thrown) :
  earliest (earliest rej now) now = earliest rej now.
Proof. destruct rej, now; reflexivity. Qed.

Lemma run_pool_insert (i : nat) (schedule : list nat) (pool : list (Task A))
  (rej : option Thrown) (st : State) :
  i <= length pool ->
  earliest rej (first_rejection pool) = rej ->
  run_pool perform schedule (insert_at i (Resolve r) pool) rej st =
  (insert_at i (Resolve r)
     (fst (fst (run_pool perform (without i schedule) pool rej st))),
   snd (fst (run_pool perform (without i schedule) pool rej st)),
   snd (run_pool perform (without i schedule) pool rej st)).
Proof.
  revert pool rej st.
  induction schedule as [| k later IH]; intros pool rej st Hi Hrej; simpl.
  - reflexivity.
  - rewrite step_at_insert by exact Hi.
    destruct (Nat.ltb k i) eqn:Hlt; [| destruct (Nat.eqb k i) eqn:Heq].
    + simpl. pose proof (step_at_length k pool st) as Hl.
      destruct (step_at perform k pool st) as [pool' st']. simpl in *.
      rewrite first_rejection_insert.
      apply IH; [lia | apply earliest_twice].
    + rewrite first_rejection_insert, Hrej. apply IH; assumption.
    + simpl. pose proof (step_at_length (pred k) pool st) as Hl.
      destruct (step_at perform (pred k) pool st) as [pool' st'].
      simpl in *. rewrite first_rejection_insert.
      apply IH; [lia | apply earliest_twice].
Qed.

Lemma run_pool_length (schedule : list nat) (pool : list (Task A))
  (rej : option Thrown) (st : State) :
  length (fst (fst (run_pool perform schedule pool rej st))) = length pool.
Proof.
  revert pool rej st.
  induction schedule as [| k later IH]; intros pool rej st; simpl.
  - reflexivity.
  - pose proof (step_at_length k pool st) as Hl.
    destruct (step_at perform k pool st) as [pool' st']. simpl in Hl.
    rewrite IH. exact Hl.
Qed.

Lemma drain_insert (i : nat) (pool : list (Task A)) (rej : option Thrown)
  (st : State) :
  i <= length pool ->
  drain perform (insert_at i (Resolve r) pool) rej st =
  (insert_at i (Ok r) (fst (fst (drain perform pool rej st))),
   snd (fst (drain perform pool rej st)),
   snd (drain perform pool rej st)).
Proof.
  revert pool rej st. induction i as [| j IH]; intros pool rej st Hi.
  - change (insert_at 0 (Resolve r) pool) with (Resolve r :: pool).
    simpl. replace (earliest rej None) with rej by (destruct rej; reflexivity).
    destruct (drain perform pool rej st) as [[os rej'] st']. reflexivity.
  - destruct pool as [| t rest]; [simpl in Hi; lia |].
    simpl in Hi. simpl.
    destruct (await perform t st) as [o st1].
    rewrite IH by lia.
    destruct (drain perform rest _ st1) as [[os rej'] st']. reflexivity.
Qed.

(** When nothing was rejected, every promise of the pool has a value. *)
Lemma drain_all_fulfilled (pool : list (Task A)) (rej : option Thrown)
  (st : State) :
  snd (fst (drain perform pool rej st)) = None ->
  length (fulfilled (fst (fst (drain perform pool rej st)))) = length pool /\
  Forall (fun o => exists a, o = Ok a) (fst (fst (drain perform pool rej st))).
Proof.
  revert rej st. induction pool as [| t rest IH]; intros rej st; simpl.
  - auto.
  - destruct (await perform t st) as [[a | e] st1].
    + specialize (IH (earliest rej None) st1).
      destruct (drain perform rest (earliest rej None) st1)
        as [[os rej'] st']. simpl in *.
      intros H. destruct (IH H) as [IH1 IH2]. split; [congruence |].
      constructor; eauto.
    + assert (Hx : exists x, earliest rej (Some e) = Some x)
        by (destruct rej; simpl; eauto).
      destruct Hx as [x Hx]. rewrite Hx.
      pose proof (drain_after_rejection rest x st1) as Hd.
      destruct (drain perform rest (Some x) st1) as [[os rej'] st'].
      simpl in *. intros H. congruence.
Qed.

Lemma fulfilled_insert (i : nat) (os : list (Outcome A)) :
  Forall (fun o => exists a, o = Ok a) os ->
  fulfilled (insert_at i (Ok r) os) = insert_at i r (fulfilled os).
Proof.
  revert os. induction i as [| j IH]; intros os H.
  - reflexivity.
  - destruct os as [| o rest]; [reflexivity |].
    inversion H as [| ? ? [a Ea] Hrest]; subst. simpl. rewrite IH; auto.
Qed.

(** A promise that is settled with a value from the start takes no part in
    the run of the others: under any schedule, the batch with it is the
    batch without it, run under the schedule of the others, with its value
    put at its index. *)
Lemma settled_promise_is_isolated (i : nat) (schedule : list nat)
  (pool : list (Task A)) (st : State) :
  i <= length pool ->
  Promise_all perform schedule (insert_at i (Resolve r) pool) st =
  (match fst (Promise_all perform (without i schedule) pool st) with
   | Ok values => Ok (insert_at i r values)
   | Throw e => Throw e
   end,
   snd (Promise_all perform (without i schedule) pool st)).
Proof.
  intros Hi. unfold Promise_all.
  rewrite first_rejection_insert.
  rewrite run_pool_insert;
    [| exact Hi | destruct (first_rejection pool); reflexivity].
  pose proof (run_pool_length (without i schedule) pool
                (first_rejection pool) st) as Hl.
  destruct (run_pool perform (without i schedule) pool
              (first_rejection pool) st) as [[pool' rej] st1].
  simpl in Hl |- *.
  rewrite drain_insert by lia.
  pose proof (drain_all_fulfilled pool' rej st1) as Hd.
  destruct (drain perform pool' rej st1) as [[os rej'] st2]. simpl in *.
  destruct rej' as [e |]; simpl; [reflexivity |].
  destruct (Hd eq_refl) as [_ Hall].
  rewrite fulfilled_insert by exact Hall. reflexivity.
Qed.

End Isolation.

Lemma map_insert_at {X Y : Type} (f : X -> Y) (i : nat) (x : X) (l : list X) :
  map f (insert_at i x l) = insert_at i (f x) (map f l).
Proof.
  revert l. induction i as [| j IH]; intros l; [reflexivity |].
  destruct l as [| y rest]; [reflexivity |]. simpl. rewrite IH. reflexivity.
Qed.

(** A call of a name that is not in the catalog, with arguments that
    parse, gets the unsupported text under its id and leaves the rest of
    its batch alone: the other calls run, and settle, as they do without
    it. *)
Lemma unknown_call_is_isolated (i : nat) (schedule : list nat)
  (others : list ToolCall) (u : ToolCall) (args : Value) (st : State) :
  ~ In (function_name u) catalog ->
  JSON_parse (function_arguments u) = inl args ->
  i <= length others ->
  Promise_all perform schedule (map callback (insert_at i u others)) st =
  (match
     fst (Promise_all perform (without i schedule) (map callback others) st)
   with
   | Ok results => Ok (insert_at i (mkToolResult (id u) unsupported) results)
   | Throw e => Throw e
   end,
   snd (Promise_all perform (without i schedule) (map callback others) st)).
Proof.
  intros Hname Hargs Hi. rewrite map_insert_at.
  assert (E : callback u = Resolve (mkToolResult (id u) unsupported)).
  { unfold toolCallback, parse. rewrite Hargs. simpl.
    apply execute_unsupported. exact Hname. }
  rewrite E. apply settled_promise_is_isolated.
  rewrite length_map. exact Hi.
Qed.

(* ================================================================== *)
(** ** The code around the handler                                      *)
(* ================================================================== *)

(** *** Helpers *)

Lemma set_key_keys (k : string) (v : Embedding)
  (o : list (string * Embedding)) :
  map fst (set_key k v o) =
  if existsb (String.eqb k) (map fst o) then map fst o else map fst o ++ [k].
Proof.
  induction o as [| [k' v'] o IH]; simpl; [reflexivity |].
  destruct (String.eqb k k') eqn:E; simpl.
  - apply String.eqb_eq in E. subst. reflexivity.
  - rewrite IH. destruct (existsb (String.eqb k) (map fst o)); reflexivity.
Qed.

Lemma set_key_incl (k : string) (v : Embedding)
  (o : list (string * Embedding)) (names : list string) :
  incl (map fst (set_key k v o)) (map fst o ++ k :: names).
Proof.
  rewrite set_key_keys.
  destruct (existsb (String.eqb k) (map fst o)).
  - apply incl_appl, incl_refl.
  - apply incl_app; [apply incl_appl, incl_refl |].
    apply incl_appr. intros x [Hx | []]. left. exact Hx.
Qed.

Lemma set_key_NoDup (k : string) (v : Embedding)
  (o : list (string * Embedding)) :
  NoDup (map fst o) -> NoDup (map fst (set_key k v o)).
Proof.
  intros H. rewrite set_key_keys.
  destruct (existsb (String.eqb k) (map fst o)) eqn:E; [exact H |].
  apply NoDup_app; [exact H | repeat constructor; intros [] |].
  intros x Hx [Hk | []]. subst x.
  assert (existsb (String.eqb k) (map fst o) = true) as E'.
  { apply existsb_exists. exists k. split; [exact Hx | apply String.eqb_refl]. }
  congruence.
Qed.

Lemma embedAll_loop_run (openai : OpenAI) (names : list string) :
  forall (acc : list (string * Embedding)) (st : State),
  exists embeddings,
    fst (await perform (embedAll_loop openai names acc) st) = Ok embeddings /\
    incl (map fst embeddings) (map fst acc ++ names) /\
    (NoDup (map fst acc) -> NoDup (map fst embeddings)).
Proof.
  induction names as [| name rest IH]; intros acc st; cbn [embedAll_loop].
  - exists acc. simpl. rewrite app_nil_r. auto using incl_refl.
  - rewrite await_bind, await_try_catch, await_bind.
    destruct (await perform (TaskMonad.call (getCurrentSheetContent true name))
                st) as [[content | e] st1].
    + rewrite await_bind.
      destruct (await perform (getEmbedding openai content) st1)
        as [[embedding | e] st2]; simpl.
      * destruct (IH (set_key name embedding acc) st2) as (res & Hr & Hi & Hn).
        exists res. split; [exact Hr |]. split.
        -- intros x Hx. apply Hi in Hx. apply in_app_or in Hx as [Hx | Hx].
           ++ apply (set_key_incl name embedding acc rest). exact Hx.
           ++ apply in_or_app. right. right. exact Hx.
        -- intros Ha. apply Hn, set_key_NoDup, Ha.
      * destruct (IH acc st2) as (res & Hr & Hi & Hn).
        exists res. split; [exact Hr |]. split; [| exact Hn].
        intros x Hx. apply Hi in Hx. apply in_app_or in Hx as [Hx | Hx];
          apply in_or_app; [left | right; right]; exact Hx.
    + simpl. destruct (IH acc st1) as (res & Hr & Hi & Hn).
      exists res. split; [exact Hr |]. split; [| exact Hn].
      intros x Hx. apply Hi in Hx. apply in_app_or in Hx as [Hx | Hx];
        apply in_or_app; [left | right; right]; exact Hx.
Qed.



(** *** embedding_operations.ts *)


(** X2: when the content of the sheet cannot be read, [embedWorksheet]
    rejects with the error of the read, and the read is the only operation
    performed: no embedding is requested. *)
Theorem X2_embedWorksheet_unreadable_sheet (openai : OpenAI)
  (sheetName : string) (st : State) (e : Thrown) (w : World) :
  perform _ (getCurrentSheetContent true sheetName) (world st) = (Throw e, w) ->
  await perform (embedWorksheet openai sheetName) st =
  (Throw e,
   mkState w (messages st) (isLoading st)
     (log st ++ [EvOp (getCurrentSheetContent true sheetName) (Throw e)])).
Proof.
  intros H. unfold embedWorksheet.
  rewrite await_try_catch, await_bind, await_call, (do_op_run _ _ _ _ H).
  reflexivity.
Qed.

(** X3: when the content of the sheet is read, [embedWorksheet] sends that
    content, and nothing else, as the input of one request for the model
    text-embedding-3-large in the float encoding.  It resolves to the first
    embedding of the answer, rejects when the answer holds none, and
    rejects with the error of the request when the request fails. *)
Theorem X3_embedWorksheet_sends_sheet_content (openai : OpenAI)
  (sheetName content : string) (st : State) (w1 w2 : World)
  (answer : Outcome (list Embedding)) :
  perform _ (getCurrentSheetContent true sheetName) (world st)
  = (Ok content, w1) ->
  perform _ (embeddings_create openai "text-embedding-3-large" content "float")
    w1 = (answer, w2) ->
  fst (await perform (embedWorksheet openai sheetName) st) =
  match answer with
  | Ok (embedding :: _) => Ok embedding
  | Ok [] =>
      Throw (ErrorInstance
               "Cannot read properties of undefined (reading 'embedding')" None)
  | Throw e => Throw e
  end /\
  log (snd (await perform (embedWorksheet openai sheetName) st)) =
  log st ++
  [EvOp (getCurrentSheetContent true sheetName) (Ok content);
   EvOp (embeddings_create openai "text-embedding-3-large" content "float")
     answer].
Proof.
  intros H1 H2. unfold embedWorksheet, getEmbedding.
  rewrite await_try_catch, await_bind, await_call, (do_op_run _ _ _ _ H1).
  rewrite await_bind, await_try_catch, await_bind, await_call.
  unfold do_op. cbn [world]. rewrite H2.
  destruct answer as [[| embedding rest] | e]; simpl;
    rewrite <- app_assoc; auto.
Qed.

(** *** The component around the handler *)

(** X4: once the worksheet names are read, [handleEmbedAllWorksheets]
    resolves and appends the notice of success as the only new entry of
    the store, also when not a single sheet could be embedded. *)
Theorem X4_handleEmbedAllWorksheets_reports_success (c : Closure)
  (st : State) (names : list string) (w : World) :
  perform _ getWorksheetNames (world st) = (Ok names, w) ->
  exists embeddings,
    fst (handleEmbedAllWorksheets perform c st) = Ok embeddings /\
    incl (map fst embeddings) names /\
    messages (snd (handleEmbedAllWorksheets perform c st))
    = messages st ++ [all_embedded_notice].
Proof.
  intros H.
  pose proof (Hloop := embedAll_loop_run (openai c) names []).
  unfold handleEmbedAllWorksheets, try_catch. rewrite bind_run.
  pose proof (await_quiet (embedAllWorksheets (openai c)) st
                (embedAllWorksheets_off_gateway (openai c))) as (Hm & _).
  unfold embedAllWorksheets in *. rewrite await_bind, await_call in *.
  rewrite (do_op_run _ _ _ _ H) in *.
  match goal with
  | |- context [await perform _ ?s] =>
      destruct (Hloop s) as (res & Hr & Hi & _)
  end.
  destruct (await perform (embedAll_loop (openai c) names []) _)
    as [[res' | e] st1]; simpl in Hr; [| discriminate].
  inversion Hr; subst res'. simpl in Hm.
  exists res. simpl. rewrite Hm. auto.
Qed.

(** X5: the two effects run when the component mounts never reject and
    leave the store and the loading flag alone.  Each yields what it has
    read; when the read fails the value of the state it feeds stays as it
    was. *)
Theorem X5_mount_effects_swallow_failures (worksheetNames : list string)
  (activeWorksheet : string) (st : State) :
  (fst (fetchWorksheetNames perform worksheetNames st) =
   Ok (match fst (perform _ getWorksheetNames (world st)) with
       | Ok names => names
       | Throw _ => worksheetNames
       end) /\
   messages (snd (fetchWorksheetNames perform worksheetNames st))
   = messages st /\
   isLoading (snd (fetchWorksheetNames perform worksheetNames st))
   = isLoading st) /\
  (fst (updateActiveWorksheet perform activeWorksheet st) =
   Ok (match fst (perform _ getActiveWorksheetName (world st)) with
       | Ok name => name
       | Throw _ => activeWorksheet
       end) /\
   messages (snd (updateActiveWorksheet perform activeWorksheet st))
   = messages st /\
   isLoading (snd (updateActiveWorksheet perform activeWorksheet st))
   = isLoading st).
Proof.
  unfold fetchWorksheetNames, updateActiveWorksheet, try_catch.
  rewrite !bind_run, !await_call. unfold do_op.
  destruct (perform _ getWorksheetNames (world st)) as [[names | e] w];
    destruct (perform _ getActiveWorksheetName (world st)) as [[name | e'] w'];
    simpl; auto.
Qed.

(** *** The catalog and the [switch] of the callback *)

(** X6: the catalog sent to the model and the [switch] of the callback
    disagree on one name.  The catalog has nineteen names, no two alike;
    the [switch] has a case for each of them except
    write_to_selected_range, and for nothing else; a call of
    write_to_selected_range therefore performs no operation and gets the
    text of the [default] branch as its result. *)
Theorem X6_catalog_advertises_an_unhandled_tool (args : Value)
  (tc : ToolCall) :
  NoDup catalog /\
  length catalog = 19 /\
  (forall label,
     In label (map fst (branches args)) <->
     In label catalog /\ label <> "write_to_selected_range") /\
  (function_name tc = "write_to_selected_range" ->
   exec tc args = Resolve (mkToolResult (id tc) unsupported)).
Proof.
  split; [| split; [reflexivity | split]].
  - unfold registry. simpl.
    repeat (apply NoDup_cons;
            [simpl; intros H;
             repeat (destruct H as [H | H]; [discriminate H |]); exact H |]).
    apply NoDup_nil.
  - intros label. split.
    + intros H. split; [exact (labels_in_registry args label H) |].
      simpl in H. intros ->.
      repeat (destruct H as [H | H]; [discriminate H |]). exact H.
    + intros [H Hn]. unfold registry in H. simpl in H. simpl.
      repeat (destruct H as [H | H];
              [first [ contradiction (Hn (eq_sym H)) | tauto ] |]).
      contradiction.
  - intros Hname. unfold execute. rewrite Hname. reflexivity.
Qed.

(** X7: the selection only shows in the entry of write_to_selected_range.
    Whatever is selected, the catalog has the same names in the same
    order, every other entry is the same, and in every entry the required
    names are declared properties. *)
Theorem X7_catalog_depends_on_selection_in_one_entry
  (sel sel' : SelectedRangeInfo) :
  map name (tools ChartType_values PivotAggregationFunction_values sel)
  = catalog /\
  filter (fun t => negb (String.eqb (name t) "write_to_selected_range"))
    (tools ChartType_values PivotAggregationFunction_values sel)
  = filter (fun t => negb (String.eqb (name t) "write_to_selected_range"))
      (tools ChartType_values PivotAggregationFunction_values sel') /\
  Forall (fun t => incl (required_of (parameters t)) (declared (parameters t)))
    (tools ChartType_values PivotAggregationFunction_values sel).
Proof.
  split; [reflexivity | split; [reflexivity |]].
  unfold tools.
  repeat (apply Forall_cons;
          [simpl; intros x Hx; simpl;
           repeat (destruct Hx as [Hx | Hx]; [subst x; tauto |]);
           contradiction |]).
  apply Forall_nil.
Qed.


(** X9: a failure of read_range is reported in its own wording, not in
    that of the outer [catch]: when the range cannot be read the call
    still resolves, with the result Failed to read range. followed by the
    message of the error, or by Unknown error occurred when what was
    thrown is no [Error]. *)
Theorem X9_read_range_reports_its_failure (tc : ToolCall)
  (args rangeAddress : Value) (st : State) (e : Thrown) (w : World) :
  function_name tc = "read_range" ->
  get args "rangeAddress" = Ok rangeAddress ->
  perform _ (getRangeData rangeAddress) (world st) = (Throw e, w) ->
  fst (await perform (exec tc args) st) =
  Ok (mkToolResult (id tc)
        ("Failed to read range. " +++
         match e with
         | ErrorInstance message _ => message
         | _ => "Unknown error occurred"
         end)).
Proof.
  intros Hname Hget Hread. unfold execute. rewrite Hname. simpl.
  unfold arg. rewrite Hget. simpl.
  unfold do_op. rewrite Hread. destruct e; reflexivity.
Qed.

(** X10: analyze_selected_range reads the selected range before anything
    else; when that read fails, the analysis is never requested: the read
    is the only operation performed, and the call resolves with the result
    Failed to analyze the selected range. followed by the message of the
    error. *)
Theorem X10_analysis_is_not_requested_without_data (tc : ToolCall)
  (args : Value) (st : State) (e : Thrown) (w : World) :
  function_name tc = "analyze_selected_range" ->
  perform _ (getRangeData Undefined) (world st) = (Throw e, w) ->
  await perform (exec tc args) st =
  (Ok (mkToolResult (id tc)
         ("Failed to analyze the selected range. " +++ message_or_unknown e)),
   mkState w (messages st) (isLoading st)
     (log st ++ [EvOp (getRangeData Undefined) (Throw e)])).
Proof.
  intros Hname Hread. unfold execute. rewrite Hname. simpl.
  unfold do_op. rewrite Hread. reflexivity.
Qed.

(** X11: arguments that parse to [null] never reach the workbook.  For
    every name whose case starts by reading an argument, the call performs
    no operation and resolves with the [TypeError] of that read as its
    result, in the wording of the outer [catch]; read_range does the same
    in the wording of its own [catch]. *)
Theorem X11_null_arguments_touch_nothing (tc : ToolCall) :
  (In (function_name tc) argument_first ->
   exists k,
     exec tc Null =
     Resolve (mkToolResult (id tc)
                ("Error: Cannot read properties of null (reading '"
                 +++ k +++ "')"))) /\
  (function_name tc = "read_range" ->
   exec tc Null =
   Resolve (mkToolResult (id tc)
              "Failed to read range. Cannot read properties of null (reading 'rangeAddress')")).
Proof.
  split.
  - unfold argument_first. simpl. intros H. unfold execute.
    repeat (destruct H as [H | H];
            [rewrite <- H; eexists; reflexivity |]).
    contradiction.
  - intros H. unfold execute. rewrite H. reflexivity.
Qed.

(** *** What a batch of calls yields *)

(** X12: when every argument text of a batch parses, the batch fulfils
    under every schedule, with one result per call, in the order of the
    calls and under their ids.  No failure of a workbook operation can
    reject it. *)
Theorem X12_parsed_batch_always_fulfils (schedule : list nat)
  (toolCalls : list ToolCall) (st : State) :
  syntax_error toolCalls = None ->
  exists results,
    fst (Promise_all perform schedule (map callback toolCalls) st)
    = Ok results /\
    map tool_call_id results = map id toolCalls.
Proof.
  intros H.
  destruct (batch_settles_in_order schedule toolCalls st H) as (rs & Hr & Ha).
  exists rs. split; [exact Hr | exact (answers_ids _ _ Ha)].
Qed.

(** X13: a failure inside a case of the [switch] becomes the result of
    that call.  Once the arguments are parsed the callback always
    resolves; when the case throws an [Error] the result is Error:
    followed by its message, when it throws anything else the result is
    An unknown error occurred., and the state is the one the failing case
    has left. *)
Theorem X13_failed_case_becomes_the_result (tc : ToolCall) (args : Value)
  (st : State) :
  await perform (exec tc args) st =
  (Ok (mkToolResult (id tc)
         match
           fst (await perform
                  (switch (function_name tc) (branches args)
                     (Resolve unsupported)) st)
         with
         | Ok functionResult => functionResult
         | Throw (ErrorInstance message _) => "Error: " +++ message
         | Throw _ => "An unknown error occurred."
         end),
   snd (await perform
          (switch (function_name tc) (branches args) (Resolve unsupported))
          st)).
Proof.
  rewrite execute_reports_failure.
  destruct (await perform
              (switch (function_name tc) (branches args) (Resolve unsupported))
              st) as [[r | [m s | s | v]] st']; reflexivity.
Qed.

(** X14: a call whose name the catalog does not have, and whose argument
    text parses, is invisible to the rest of its batch.  The other calls
    run as if it were not there, under the schedule with its steps taken
    out, and its result, the text of the [default] branch, stands at its
    index among theirs. *)
Theorem X14_unknown_name_leaves_the_batch_alone (i : nat)
  (schedule : list nat) (others : list ToolCall) (u : ToolCall)
  (args : Value) (st : State) :
  ~ In (function_name u) catalog ->
  JSON_parse (function_arguments u) = inl args ->
  i <= length others ->
  Promise_all perform schedule (map callback (insert_at i u others)) st =
  (match
     fst (Promise_all perform (without i schedule) (map callback others) st)
   with
   | Ok results => Ok (insert_at i (mkToolResult (id u) unsupported) results)
   | Throw e => Throw e
   end,
   snd (Promise_all perform (without i schedule) (map callback others) st)).
Proof. exact (unknown_call_is_isolated i schedule others u args st). Qed.

(** *** The handler as a whole *)

Lemma replied_short (response : ChatCompletion) :
  length (replied response) <= 1 /\
  Forall (fun m => isUser m = false) (replied response).
Proof.
  unfold replied.
  destruct (text_content (first_message (Some response))); simpl;
    auto using Forall_cons, Forall_nil.
Qed.

Lemma notices_from_assistant (taggedSheets : list string) :
  Forall (fun m => isUser m = false) (notices taggedSheets).
Proof.
  unfold notices. destruct (whole_workbook taggedSheets).
  - repeat constructor.
  - induction taggedSheets; simpl; constructor; auto.
Qed.

Lemma failed_notices_from_assistant (taggedSheets : list string)
  (ns : list Message) :
  failed_notices taggedSheets ns -> Forall (fun m => isUser m = false) ns.
Proof.
  unfold failed_notices. destruct (whole_workbook taggedSheets).
  - intros ->. repeat constructor.
  - intros (before & sheet & after & _ & ->).
    apply Forall_app. split; [| repeat constructor].
    induction before; simpl; constructor; auto.
Qed.

(** X15: the handler rejects in one case only, when the name of the
    active sheet cannot be read.  It then rejects with the error of that
    read, has appended nothing, and leaves the loading flag set: the read
    stands before the [try], so no [finally] clears the flag.  In every
    other case it resolves with the flag cleared. *)
Theorem X15_handler_rejects_only_on_unread_sheet_name (c : Closure)
  (schedule : list nat) (text : string) (taggedSheets : list string)
  (st : State) :
  match perform _ getActiveWorksheetName (world st) with
  | (Throw e, w) =>
      handle c schedule text taggedSheets st =
      (Throw e,
       mkState w (messages st) true
         (log st ++ [EvOp getActiveWorksheetName (Throw e)]))
  | (Ok _, _) =>
      fst (handle c schedule text taggedSheets st) = Ok tt /\
      isLoading (snd (handle c schedule text taggedSheets st)) = false
  end.
Proof.
  destruct (perform _ getActiveWorksheetName (world st)) as [[name | e] w]
    eqn:E.
  - destruct (entry_run st name w text E) as [Hrun Hadds].
    rewrite handle_run, Hrun. cbv zeta.
    destruct (truthy_string (effectiveApiKey c)) eqn:Hkey;
      [| split; reflexivity].
    unfold try_finally.
    pose proof (conversation_adds c schedule text taggedSheets name st
                  (entry st name w text) Hkey Hadds) as H.
    cbv zeta in H. unfold entry, push_message in *. simpl in *.
    destruct (try_catch _ _ _) as [o st3]. simpl in *.
    destruct H as (-> & _). split; reflexivity.
  - rewrite handle_run. unfold do_op. simpl. rewrite E. reflexivity.
Qed.

(** X16: the first request of a turn, as the rendered component sends it.
    Its messages are the system instruction with the sheet name of the
    component state, the store as it was when the turn began, and the
    text as the user typed it: neither the [Active Worksheet: ...] prefix
    of the stored entry nor a notice of this turn's pre-step is sent.  The
    model is gpt-4o-2024-08-06, the tool choice is auto, and the tools are
    those of the catalog. *)
Theorem X16_first_request_of_a_turn (apiKey activeWorksheet : string)
  (schedule : list nat) (text : string) (taggedSheets : list string)
  (st : State) (body : ChatCompletionCreateParams)
  (o : Outcome ChatCompletion) :
  nth_error
    (turn_requests st
       (snd (handle (render apiKey activeWorksheet st) schedule text
               taggedSheets st))) 0
  = Some (body, o) ->
  messages_of body =
    SystemMessage (system_prompt_round1 activeWorksheet)
    :: map as_param (messages st) ++ [UserMessage text] /\
  model body = "gpt-4o-2024-08-06" /\
  tool_choice body = "auto" /\
  map name (tools_of body) = catalog.
Proof.
  by_course (render apiKey activeWorksheet st) schedule text taggedSheets st;
    intros H; simpl in H; try discriminate H; inversion H; subst;
    repeat split; reflexivity.
Qed.

(** X17: the second request of a turn repeats the first.  It names the
    same model, the same tools and the same tool choice; after the system
    instruction its messages are those of the first request followed by
    the proposing message and the tool messages; and its system
    instruction is that of the first request without the closing sentence
    on the order of the functions. *)
Theorem X17_second_request_extends_the_first (c : Closure)
  (schedule : list nat) (text : string) (taggedSheets : list string)
  (st : State) (body1 body2 : ChatCompletionCreateParams)
  (o1 o2 : Outcome ChatCompletion) :
  turn_requests st (snd (handle c schedule text taggedSheets st))
  = [(body1, o1); (body2, o2)] ->
  model body2 = model body1 /\
  tools_of body2 = tools_of body1 /\
  tool_choice body2 = tool_choice body1 /\
  exists instruction transcript m results,
    messages_of body1 =
      SystemMessage
        (instruction +++
         " Assure you use the functions in the appropriate order to achieve the desired result (i.e. don't use execute all functions at once).")
      :: transcript /\
    messages_of body2 =
      SystemMessage instruction
      :: transcript ++ ProposalMessage m :: map ToolMessage results.
Proof.
  by_course c schedule text taggedSheets st; intros H; try discriminate H;
    inversion H; subst; (repeat split; try reflexivity);
    exists (system_prompt (activeWorksheet c)),
      (map as_param (messages_seen c) ++ [UserMessage text]), m, results;
    simpl; rewrite <- !app_assoc; split; reflexivity.
Qed.

(** X18: a turn never goes past the second request.  It calls the gateway
    at most twice, and the calls that enter the callback are those of the
    first response: what the second response proposes is not run. *)
Theorem X18_no_third_round (c : Closure) (schedule : list nat)
  (text : string) (taggedSheets : list string) (st : State) :
  length (turn_requests st (snd (handle c schedule text taggedSheets st)))
  <= 2 /\
  (turn_entries st (snd (handle c schedule text taggedSheets st)) = [] \/
   exists body response m,
     nth_error
       (turn_requests st (snd (handle c schedule text taggedSheets st))) 0
     = Some (body, Ok response) /\
     proposed (first_message (Some response))
     = Some (m, turn_entries st
                  (snd (handle c schedule text taggedSheets st)))).
Proof.
  by_course c schedule text taggedSheets st; simpl;
    (split; [lia |]); auto; right; eauto.
Qed.

(** X19: what a turn appends to the store begins with the entry of the
    user, the only one of the turn marked as the user's; whatever follows
    is marked as the assistant's.  A turn that appends nothing is one
    whose sheet name could not be read. *)
Theorem X19_turn_appends_user_entry_first (c : Closure)
  (schedule : list nat) (text : string) (taggedSheets : list string)
  (st : State) :
  match fst (handle c schedule text taggedSheets st) with
  | Throw _ =>
      turn_appended st (snd (handle c schedule text taggedSheets st)) = []
  | Ok _ =>
      exists activeSheet rest,
        turn_appended st (snd (handle c schedule text taggedSheets st))
        = user_turn activeSheet text :: rest /\
        Forall (fun m => isUser m = false) rest
  end.
Proof.
  by_course c schedule text taggedSheets st; [reflexivity | ..];
    exists activeSheet; eexists; (split; [reflexivity |]);
    rewrite ?Forall_app;
    repeat first
      [ split
      | apply notices_from_assistant
      | apply replied_short
      | eapply failed_notices_from_assistant; eassumption
      | apply Forall_cons; [reflexivity |]
      | apply Forall_nil ].
Qed.

(** X20: a request is only sent once the pre-step is through.  In a turn
    that has called the gateway, the notices of all tagged sheets stand
    right behind the entry of the user, and at most one entry follows
    them: the reply or the report of a failure. *)
Theorem X20_requests_come_after_the_notices (c : Closure)
  (schedule : list nat) (text : string) (taggedSheets : list string)
  (st : State) :
  turn_requests st (snd (handle c schedule text taggedSheets st)) <> [] ->
  exists activeSheet rest,
    turn_appended st (snd (handle c schedule text taggedSheets st))
    = user_turn activeSheet text :: notices taggedSheets ++ rest /\
    length rest <= 1.
Proof.
  by_course c schedule text taggedSheets st; intros H;
    try (contradiction H; reflexivity);
    exists activeSheet; eexists; (split; [reflexivity |]);
    first [ apply replied_short | simpl; lia ].
Qed.

Lemma turn_observed (st st' : State) (ms : list Message)
  (rs : list GatewayCall) (ts : list ToolCall) :
  adds st st' (mkDelta ms rs ts) ->
  turn_appended st st' = ms /\ turn_requests st st' = rs /\
  turn_entries st st' = ts.
Proof.
  intros H. apply adds_observed in H. inversion H. auto.
Qed.

(** X21: when the selection cannot be read after the pre-step, the turn
    ends there.  The handler resolves, the store holds the entry of the
    user, the notices of the pre-step and the report of the failure, and
    neither the gateway nor the callback is reached. *)
Theorem X21_unreadable_selection_ends_the_turn (c : Closure)
  (schedule : list nat) (text : string) (taggedSheets : list string)
  (st : State) (activeSheet : string) (w w' : World) (e : Thrown) :
  truthy_string (effectiveApiKey c) = true ->
  perform _ getActiveWorksheetName (world st) = (Ok activeSheet, w) ->
  fst (embed_tagged perform c taggedSheets (entry st activeSheet w text))
  = Ok tt ->
  perform _ getSelectedRangeInfo
    (world (snd (embed_tagged perform c taggedSheets
                   (entry st activeSheet w text))))
  = (Throw e, w') ->
  fst (handle c schedule text taggedSheets st) = Ok tt /\
  turn_appended st (snd (handle c schedule text taggedSheets st))
  = user_turn activeSheet text :: notices taggedSheets ++ [failure_turn e] /\
  turn_requests st (snd (handle c schedule text taggedSheets st)) = [] /\
  turn_entries st (snd (handle c schedule text taggedSheets st)) = [].
Proof.
  intros Hkey Hname Hpre Hsel.
  destruct (entry_run st activeSheet w text Hname) as [Hrun H0].
  rewrite handle_run, Hrun, Hkey. cbv zeta.
  change (push_message (user_turn activeSheet text) _)
    with (entry st activeSheet w text).
  unfold try_finally, try_catch, conversation. rewrite bind_run.
  pose proof (embed_tagged_adds c taggedSheets (entry st activeSheet w text))
    as H1. cbv zeta in H1.
  destruct (embed_tagged perform c taggedSheets (entry st activeSheet w text))
    as [[[] | e1] st1]; simpl in Hpre, Hsel, H1; [| discriminate Hpre].
  rewrite bind_run, await_call, (do_op_run _ _ _ _ Hsel).
  pose proof (do_op_quiet getSelectedRangeInfo st1 I) as H2.
  rewrite (do_op_run _ _ _ _ Hsel) in H2. simpl in H2.
  apply quiet_adds in H2.
  split; [reflexivity |]. simpl snd.
  match goal with
  | |- context [turn_appended st ?s] =>
      assert (Hs : adds st s
                     (mkDelta
                        (user_turn activeSheet text :: notices taggedSheets
                         ++ [failure_turn e]) [] []))
  end.
  { sum_up (adds_trans _ _ _ _ _
              (adds_trans _ _ _ _ _
                 (adds_trans _ _ _ _ _ (adds_trans _ _ _ _ _ H0 H1) H2)
                 (push_adds (failure_turn e) _))
              (set_loading_adds false _)). }
  exact (turn_observed _ _ _ _ _ Hs).
Qed.

(** X22: without a client in [openaiRef], the optional chaining of the
    request makes the turn end without a word: no request is sent, no
    callback is entered, and nothing reports that to the user. *)
Theorem X22_missing_client_ends_the_turn_silently (c : Closure)
  (schedule : list nat) (text : string) (taggedSheets : list string)
  (st : State) (activeSheet : string) (w : World)
  (sel : SelectedRangeInfo) (w' : World) :
  openaiRef_current c = None ->
  truthy_string (effectiveApiKey c) = true ->
  perform _ getActiveWorksheetName (world st) = (Ok activeSheet, w) ->
  fst (embed_tagged perform c taggedSheets (entry st activeSheet w text))
  = Ok tt ->
  perform _ getSelectedRangeInfo
    (world (snd (embed_tagged perform c taggedSheets
                   (entry st activeSheet w text))))
  = (Ok sel, w') ->
  fst (handle c schedule text taggedSheets st) = Ok tt /\
  isLoading (snd (handle c schedule text taggedSheets st)) = false /\
  turn_appended st (snd (handle c schedule text taggedSheets st))
  = user_turn activeSheet text :: notices taggedSheets /\
  turn_requests st (snd (handle c schedule text taggedSheets st)) = [] /\
  turn_entries st (snd (handle c schedule text taggedSheets st)) = [].
Proof.
  intros Hclient Hkey Hname Hpre Hsel.
  destruct (entry_run st activeSheet w text Hname) as [Hrun H0].
  rewrite handle_run, Hrun, Hkey. cbv zeta.
  change (push_message (user_turn activeSheet text) _)
    with (entry st activeSheet w text).
  unfold try_finally, try_catch, conversation. rewrite bind_run.
  pose proof (embed_tagged_adds c taggedSheets (entry st activeSheet w text))
    as H1. cbv zeta in H1.
  destruct (embed_tagged perform c taggedSheets (entry st activeSheet w text))
    as [[[] | e1] st1]; simpl in Hpre, Hsel, H1; [| discriminate Hpre].
  rewrite bind_run, await_call, (do_op_run _ _ _ _ Hsel).
  pose proof (do_op_quiet getSelectedRangeInfo st1 I) as H2.
  rewrite (do_op_run _ _ _ _ Hsel) in H2. simpl in H2.
  apply quiet_adds in H2.
  rewrite bind_run. unfold create. rewrite Hclient. unfold ret, respond.
  simpl.
  split; [reflexivity |]. split; [reflexivity |].
  match goal with
  | |- context [turn_appended st ?s] =>
      assert (Hs : adds st s
                     (mkDelta
                        (user_turn activeSheet text :: notices taggedSheets)
                        [] []))
  end.
  { sum_up (adds_trans _ _ _ _ _
              (adds_trans _ _ _ _ _ (adds_trans _ _ _ _ _ H0 H1) H2)
              (set_loading_adds false _)). }
  exact (turn_observed _ _ _ _ _ Hs).
Qed.

(** X23: the tag workbook overrides every other tag.  A turn whose tags
    include workbook runs exactly as the turn tagged with workbook alone:
    the sheets named beside it are not embedded one by one. *)
Theorem X23_workbook_tag_overrides_the_others (c : Closure)
  (schedule : list nat) (text : string) (taggedSheets : list string)
  (st : State) :
  In "workbook" taggedSheets ->
  handle c schedule text taggedSheets st =
  handle c schedule text ["workbook"] st.
Proof.
  intros H.
  assert (E : embed_tagged perform c taggedSheets
              = embed_tagged perform c ["workbook"]).
  { unfold embed_tagged.
    replace (existsb (String.eqb "workbook") taggedSheets) with true;
      [reflexivity |].
    symmetry. apply existsb_exists. exists "workbook".
    split; [exact H | reflexivity]. }
  unfold handleSendMessage, conversation. rewrite E. reflexivity.
Qed.

(** *** The key of the requests *)

Section Logged.

Variable P : forall R : Type, Op R -> Prop.

(** Code that only adds operations satisfying [P] to the log. *)
Local Abbreviation within m := (forall st : State, grows P st (snd (m st))).

Lemma grows_refl (st : State) : grows P st st.
Proof. exists []. rewrite app_nil_r. auto. Qed.

Lemma grows_trans (st1 st2 st3 : State) :
  grows P st1 st2 -> grows P st2 st3 -> grows P st1 st3.
Proof.
  intros (e1 & L1 & F1) (e2 & L2 & F2). exists (e1 ++ e2).
  rewrite L2, L1, app_assoc. split; [reflexivity |].
  apply Forall_app. auto.
Qed.

Lemma do_op_grows {R : Type} (op : Op R) (st : State) :
  P _ op -> grows P st (snd (do_op perform op st)).
Proof.
  intros H. unfold do_op.
  destruct (perform _ op (world st)) as [o w]. simpl.
  exists [EvOp op o]. split; [reflexivity |]. repeat constructor. exact H.
Qed.

Lemma await_grows {A : Type} (t : Task A) :
  uses P t -> within (await perform t).
Proof.
  induction t as [a | e | R op k IH]; intros H st; simpl;
    try apply grows_refl.
  destruct H as [Hop Hk].
  pose proof (do_op_grows op st Hop) as H1.
  destruct (do_op perform op st) as [o st1]. simpl in H1.
  eapply grows_trans; [exact H1 | apply IH, Hk].
Qed.

Lemma bind_grows {A B : Type} (m : M World A) (f : A -> M World B) :
  within m -> (forall a, within (f a)) -> within (bind m f).
Proof.
  intros Hm Hf st. rewrite bind_run. specialize (Hm st).
  destruct (m st) as [[a | e] st1]; simpl in Hm; [| exact Hm].
  eapply grows_trans; [exact Hm | apply Hf].
Qed.

Lemma try_catch_grows {A : Type} (m : M World A) (h : Thrown -> M World A) :
  within m -> (forall e, within (h e)) -> within (try_catch m h).
Proof.
  intros Hm Hh st. unfold try_catch. specialize (Hm st).
  destruct (m st) as [[a | e] st1]; simpl in Hm; [exact Hm |].
  eapply grows_trans; [exact Hm | apply Hh].
Qed.

Lemma push_grows (m : Message) : within (setMessages_append (World := World) m).
Proof. intros st. exists []. simpl. rewrite app_nil_r. auto. Qed.

Lemma loading_grows (b : bool) : within (setIsLoading (World := World) b).
Proof. intros st. exists []. simpl. rewrite app_nil_r. auto. Qed.

Lemma for_of_grows {A : Type} (l : list A) (body : A -> M World unit) :
  (forall x, within (body x)) -> within (for_of l body).
Proof.
  intros H. induction l as [| x l IH]; simpl.
  - intros; apply grows_refl.
  - apply bind_grows; [apply H | intros _; exact IH].
Qed.

Lemma map_async_grows {A : Type} (f : ToolCall -> Task A)
  (toolCalls : list ToolCall) : within (map_async (World := World) f toolCalls).
Proof.
  intros st. unfold map_async. simpl. revert st.
  induction toolCalls as [| tc tcs IH]; intros st; simpl;
    [apply grows_refl |].
  eapply grows_trans; [| apply IH].
  exists [EvAdapter tc]. split; [reflexivity |]. repeat constructor.
Qed.

Lemma step_at_grows {A : Type} (i : nat) (pool : list (Task A)) (st : State) :
  Forall (uses P) pool ->
  Forall (uses P) (fst (step_at perform i pool st)) /\
  grows P st (snd (step_at perform i pool st)).
Proof.
  revert i st. induction pool as [| t rest IH]; intros i st H; simpl;
    [split; [constructor | apply grows_refl] |].
  inversion H as [| ? ? Ht Hrest]; subst.
  destruct i as [| j].
  - destruct t as [a | e | R op k]; simpl;
      try (split; [exact H | apply grows_refl]).
    destruct Ht as [Hop Hk].
    pose proof (do_op_grows op st Hop) as H1.
    destruct (do_op perform op st) as [o st1]. simpl in *.
    split; [constructor; [apply Hk | exact Hrest] | exact H1].
  - destruct (IH j st Hrest) as [H1 H2].
    destruct (step_at perform j rest st) as [rest' st1]. simpl in *.
    split; [constructor; assumption | exact H2].
Qed.

Lemma run_pool_grows {A : Type} (schedule : list nat) (pool : list (Task A))
  (rej : option Thrown) (st : State) :
  Forall (uses P) pool ->
  Forall (uses P) (fst (fst (run_pool perform schedule pool rej st))) /\
  grows P st (snd (run_pool perform schedule pool rej st)).
Proof.
  revert pool rej st.
  induction schedule as [| i later IH]; intros pool rej st H; simpl;
    [split; [exact H | apply grows_refl] |].
  destruct (step_at_grows i pool st H) as [H1 H2].
  destruct (step_at perform i pool st) as [pool' st1]. simpl in *.
  destruct (IH pool' (earliest rej (first_rejection pool')) st1 H1)
    as [H3 H4].
  split; [exact H3 | eapply grows_trans; eassumption].
Qed.

Lemma drain_grows {A : Type} (pool : list (Task A)) (rej : option Thrown)
  (st : State) :
  Forall (uses P) pool -> grows P st (snd (drain perform pool rej st)).
Proof.
  revert rej st. induction pool as [| t rest IH]; intros rej st H; simpl;
    [apply grows_refl |].
  inversion H as [| ? ? Ht Hrest]; subst.
  pose proof (await_grows t Ht st) as H1.
  destruct (await perform t st) as [o st1]. simpl in H1.
  match goal with
  | |- context [drain perform rest ?r st1] =>
      pose proof (IH r st1 Hrest) as H2;
      destruct (drain perform rest r st1) as [[os rej'] st2]
  end.
  simpl in *. eapply grows_trans; eassumption.
Qed.

Lemma Promise_all_grows {A : Type} (schedule : list nat)
  (promises : list (Task A)) :
  Forall (uses P) promises -> within (Promise_all perform schedule promises).
Proof.
  intros H st. unfold Promise_all.
  destruct (run_pool_grows schedule promises (first_rejection promises) st H)
    as [H1 H2].
  destruct (run_pool perform schedule promises (first_rejection promises) st)
    as [[pool rej] st1]. simpl in *.
  pose proof (drain_grows pool rej st1 H1) as H3.
  destruct (drain perform pool rej st1) as [[os rej'] st2]. simpl in *.
  destruct rej'; simpl; eapply grows_trans; eassumption.
Qed.

End Logged.

Lemma uses_weaken {A : Type} (P Q : forall R : Type, Op R -> Prop)
  (t : Task A) :
  (forall R (op : Op R), P R op -> Q R op) -> uses P t -> uses Q t.
Proof.
  intros H. induction t as [a | e | R op k IH]; simpl; auto.
  intros [Hop Hk]. split; [apply H, Hop | intros o; apply IH, Hk].
Qed.

Lemma cases_of_host (args : Value) :
  Forall (fun c => uses of_host (snd c)) (branches args).
Proof.
  unfold cases.
  repeat (apply Forall_cons; [cbv beta iota delta [snd]; uses_steps |]).
  apply Forall_nil.
Qed.

Lemma toolCallback_of_host (tc : ToolCall) : uses of_host (callback tc).
Proof.
  unfold toolCallback, execute. uses_steps.
  - apply uses_switch; [apply cases_of_host | exact I].
  - match goal with e : Thrown |- _ => destruct e; exact I end.
Qed.

Lemma embedWorksheet_keyed (client : OpenAI) (sheetName : string) :
  uses (keyed (apiKey_of client)) (embedWorksheet client sheetName).
Proof. unfold embedWorksheet, getEmbedding. uses_steps; reflexivity. Qed.

Lemma embedAll_loop_keyed (client : OpenAI) (names : list string) :
  forall acc, uses (keyed (apiKey_of client)) (embedAll_loop client names acc).
Proof.
  induction names as [| n names IH]; intros acc; cbn [embedAll_loop];
    [exact I |].
  unfold getEmbedding. uses_steps; solve [reflexivity | apply IH].
Qed.

Lemma handle_grows (k : string) (c : Closure) (schedule : list nat)
  (text : string) (taggedSheets : list string) (st : State) :
  apiKey_of (openai c) = k ->
  (forall client, openaiRef_current c = Some client -> apiKey_of client = k) ->
  grows (keyed k) st (snd (handle c schedule text taggedSheets st)).
Proof.
  intros Hmemo Href.
  assert (Hcreate : forall body st',
             grows (keyed k) st' (snd (create perform c body st'))).
  { intros body. unfold create.
    destruct (openaiRef_current c) as [client |] eqn:E;
      [| intros; apply grows_refl].
    apply bind_grows; [| intros; apply grows_refl].
    apply await_grows. uses_steps. exact (Href client eq_refl). }
  assert (Hreply : forall m (st' : State),
             grows (keyed k) st' (snd (reply m st'))).
  { intros m. unfold reply. destruct (text_content m);
      [apply push_grows | intros; apply grows_refl]. }
  revert st. unfold handleSendMessage.
  apply bind_grows; [apply loading_grows | intros _].
  apply bind_grows; [apply await_grows; uses_steps | intros activeSheet].
  apply bind_grows; [apply push_grows | intros _].
  destruct (negb (truthy_string (effectiveApiKey c))).
  { apply bind_grows; [apply push_grows | intros _; apply loading_grows]. }
  intros st. unfold try_finally.
  match goal with
  | |- context [try_catch ?m ?h st] =>
      assert (H : grows (keyed k) st (snd (try_catch m h st)));
      [| destruct (try_catch m h st) as [o st']; simpl in *;
         destruct H as (evs & L & F); exists evs; split; assumption]
  end.
  revert st. apply try_catch_grows; [| intros e; apply push_grows].
  unfold conversation.
  apply bind_grows.
  { unfold embed_tagged.
    destruct (existsb (String.eqb "workbook") taggedSheets).
    - apply bind_grows; [| intros; apply grows_refl].
      unfold handleEmbedAllWorksheets. apply try_catch_grows.
      + apply bind_grows;
          [| intros; apply bind_grows;
             [apply push_grows | intros; apply grows_refl]].
        apply await_grows. rewrite <- Hmemo. unfold embedAllWorksheets.
        uses_steps. apply embedAll_loop_keyed.
      + intros e. apply bind_grows; [apply push_grows |].
        intros _ st. apply grows_refl.
    - apply for_of_grows. intros sheetName.
      apply bind_grows; [| intros; apply grows_refl].
      unfold handleEmbedding. apply try_catch_grows.
      + apply bind_grows;
          [| intros; apply bind_grows;
             [apply push_grows | intros; apply grows_refl]].
        apply await_grows. rewrite <- Hmemo. apply embedWorksheet_keyed.
      + intros e. apply bind_grows; [apply push_grows |].
        intros _ st. apply grows_refl. }
  intros _.
  apply bind_grows; [apply await_grows; uses_steps | intros sel].
  apply bind_grows; [apply Hcreate | intros completion].
  unfold respond.
  destruct (proposed (first_message completion)) as [[m tcs] |];
    [| apply Hreply].
  intros st. rewrite bind_run.
  pose proof (map_async_grows (keyed k) callback tcs st) as H1.
  unfold map_async in H1 |- *. cbv beta iota in H1 |- *. simpl snd in H1.
  eapply grows_trans; [exact H1 |].
  match goal with
  | |- grows _ ?s (snd (bind ?m ?f ?s)) => generalize s
  end.
  apply bind_grows.
  - apply Promise_all_grows. apply Forall_forall. intros t Ht.
    apply in_map_iff in Ht as (tc & <- & _).
    eapply uses_weaken; [| apply toolCallback_of_host].
    intros R op. destruct op; simpl; tauto.
  - intros results. apply bind_grows; [apply Hcreate | intros; apply Hreply].
Qed.

(** X24: every request a turn of the rendered component makes to OpenAI,
    for a chat completion or for an embedding, is made with the effective
    key: the key given to the component, or the built-in one when that is
    empty.  The client of the chat and the client of the embeddings are
    two objects, and they carry the same key. *)
Theorem X24_every_request_carries_the_effective_key
  (apiKey activeWorksheet : string) (schedule : list nat) (text : string)
  (taggedSheets : list string) (st : State) :
  exists events,
    log (snd (handle (render apiKey activeWorksheet st) schedule text
                taggedSheets st))
    = log st ++ events /\
    Forall (logged (keyed (if truthy_string apiKey then apiKey
                           else DEFAULT_API_KEY))) events.
Proof.
  apply (handle_grows _ (render apiKey activeWorksheet st)).
  - reflexivity.
  - intros client H. inversion H. reflexivity.
Qed.

End Verification.

(* ================================================================== *)
(** ** The scenarios                                                    *)
(* ================================================================== *)

Import Scenario.

Local Abbreviation batch_text := "List the sheets and chart them".

(** The tool messages of the second request of a run. *)
Local Abbreviation tool_messages_of run st :=
  (flat_map
     (fun m => match m with ToolMessage r => [r] | _ => [] end)
     (flat_map (fun call => messages_of (fst call))
        (skipn 1 (turn_requests st (snd run))))).

(** A cell is read and the second request carries its value. *)
Example read_run_results :
  tool_messages_of read_run read_state
  = [mkToolResult "call_1"
       ("The value in cell A1 is " +++ dquote +++ "42" +++ dquote)]
  /\ turn_appended read_state (snd read_run)
     = [user_turn "Sheet1" "What's in A1?"; mkMsg "A1 holds 42." false].
Proof. split; vm_compute; reflexivity. Qed.

(** A batch of a valid call, a chart without its data range and a call of
    an unknown name: three results, in the order of the calls, and the
    second request is sent with them. *)
Example batch_run_results :
  tool_messages_of batch_run batch_state
  = [ mkToolResult "call_1"
        "The worksheets in this workbook are: Sheet1, Sheet2";
      mkToolResult "call_2"
        "Error: Data range is required to create a chart.";
      mkToolResult "call_3" "I'm not sure how to perform that action." ]
  /\ length (turn_requests batch_state (snd batch_run)) = 2.
Proof. split; vm_compute; reflexivity. Qed.

(** The run of [C8_round2_transcript_order] on the batch of three calls. *)
Lemma C8_batch_run_transcript :
  turn_requests batch_state (snd batch_run)
  = [ (first_request "sk-user" batch_text batch_state,
       Ok (proposing [list_sheets; chart_without_range; coffee]));
      (nth 1 (map fst (turn_requests batch_state (snd batch_run)))
         (first_request "sk-user" batch_text batch_state),
       Ok (saying "Done.")) ]
  /\
  exists response m toolCalls results,
    Ok (proposing [list_sheets; chart_without_range; coffee]) = Ok response /\
    first_message (Some response) = Some m /\
    tool_calls m = Some toolCalls /\
    map tool_call_id results = map id toolCalls /\
    messages_of
      (nth 1 (map fst (turn_requests batch_state (snd batch_run)))
         (first_request "sk-user" batch_text batch_state))
    = [SystemMessage (system_prompt "Sheet1")]
      ++ map as_param (messages batch_state)
      ++ [UserMessage batch_text]
      ++ [ProposalMessage m]
      ++ map ToolMessage results.
Proof.
  assert (H : turn_requests batch_state (snd batch_run)
              = [ (first_request "sk-user" batch_text batch_state,
                   Ok (proposing [list_sheets; chart_without_range; coffee]));
                  (nth 1 (map fst (turn_requests batch_state (snd batch_run)))
                     (first_request "sk-user" batch_text batch_state),
                   Ok (saying "Done.")) ])
    by (vm_compute; reflexivity).
  split; [exact H |].
  exact (C8_round2_transcript_order World perform JSON_parse JSON_stringify
           ChartType_values PivotAggregationFunction_values
           "sk-user" "Sheet1" [2; 1; 0] batch_text [] batch_state _ _ _ H).
Defined.

(** The run of [C3_round2_iff_tool_calls] on the batch of three calls. *)
Lemma C3_batch_run_reaches_round2 :
  nth_error (turn_requests batch_state (snd batch_run)) 0
  = Some (first_request "sk-user" batch_text batch_state,
          Ok (proposing [list_sheets; chart_without_range; coffee]))
  /\
  (first_syntax_error JSON_parse [list_sheets; chart_without_range; coffee]
   = None ->
   length (turn_requests batch_state (snd batch_run)) = 2 /\
   turn_entries batch_state (snd batch_run)
   = [list_sheets; chart_without_range; coffee]).
Proof.
  assert (H : nth_error (turn_requests batch_state (snd batch_run)) 0
              = Some (first_request "sk-user" batch_text batch_state,
                      Ok (proposing
                            [list_sheets; chart_without_range; coffee])))
    by (vm_compute; reflexivity).
  split; [exact H |].
  exact (C3_round2_iff_tool_calls World perform JSON_parse JSON_stringify
           ChartType_values PivotAggregationFunction_values
           (render "sk-user" "Sheet1" batch_state) [2; 1; 0] batch_text []
           batch_state _ _ H).
Defined.

(** A reply that comes with an empty array of calls is not delivered: the
    gateway is called a second time. *)
Lemma C3_empty_batch_is_sent_on :
  ~ round2_iff_invocations empty_batch_reply_state
      (snd empty_batch_reply_run).
Proof.
  intros H.
  assert (H0 : nth_error
                 (turn_requests empty_batch_reply_state
                    (snd empty_batch_reply_run)) 0
               = Some (first_request "sk-user" "Hi" empty_batch_reply_state,
                       Ok (saying_with_empty_batch "Hello!")))
    by (vm_compute; reflexivity).
  destruct (H _ _ H0) as [_ H1].
  assert (H2 : no_invocations (saying_with_empty_batch "Hello!")).
  { intros m E. simpl in E. inversion E; subst. right. reflexivity. }
  destruct (H1 H2 ltac:(discriminate)) as [H3 _].
  vm_compute in H3. discriminate H3.
Qed.

(** The run of [C9_empty_response_ends_silently] on a blank response. *)
Lemma C9_blank_response_is_silent :
  (turn_requests blank_state (snd blank_run)
   = [(first_request "sk-user" "Hi" blank_state, Ok blank)] /\
   proposed (first_message (Some blank)) = None)
  /\ text_content (first_message (Some blank)) = None
  /\ fst blank_run = Ok tt
  /\ isLoading (snd blank_run) = false
  /\ exists activeSheet,
       turn_appended blank_state (snd blank_run)
       = user_turn activeSheet "Hi" :: notices [].
Proof.
  assert (H : turn_requests blank_state (snd blank_run)
              = [(first_request "sk-user" "Hi" blank_state, Ok blank)] /\
              proposed (first_message (Some blank)) = None)
    by (split; [vm_compute; reflexivity | reflexivity]).
  split; [exact H |]. split; [reflexivity |].
  exact (C9_empty_response_ends_silently World perform JSON_parse
           JSON_stringify ChartType_values PivotAggregationFunction_values
           (render "sk-user" "Sheet1" blank_state) [] "Hi" [] blank_state
           _ _ (or_introl H) eq_refl).
Defined.

(** A response with an empty array of calls and no text is sent on to a
    second request, whose reply is appended. *)
Lemma C9_empty_batch_is_not_silent :
  ~ empty_response_is_silent empty_batch_state (snd empty_batch_run)
      (fst empty_batch_run) "Hi" [].
Proof.
  intros H.
  assert (H0 : In (first_request "sk-user" "Hi" empty_batch_state,
                   Ok empty_batch)
                 (turn_requests empty_batch_state (snd empty_batch_run)))
    by (vm_compute; left; reflexivity).
  assert (H1 : no_invocations empty_batch).
  { intros m E. simpl in E. inversion E; subst. right. reflexivity. }
  destruct (H _ _ H0 H1 eq_refl) as (_ & activeSheet & H2).
  vm_compute in H2. discriminate H2.
Qed.

(** The run of [C5_empty_effective_key_stops_turn] on a handler closed
    over an empty key. *)
Lemma C5_keyless_handler_stops :
  truthy_string (effectiveApiKey keyless) = false
  /\ perform getActiveWorksheetName (world no_key_state)
     = (Ok "Sheet1", world no_key_state)
  /\ (fst (handleSendMessage perform JSON_parse JSON_stringify
             ChartType_values PivotAggregationFunction_values keyless []
             "Hi" [] no_key_state) = Ok tt /\
      isLoading
        (snd (handleSendMessage perform JSON_parse JSON_stringify
                ChartType_values PivotAggregationFunction_values keyless []
                "Hi" [] no_key_state)) = false /\
      turn_appended no_key_state
        (snd (handleSendMessage perform JSON_parse JSON_stringify
                ChartType_values PivotAggregationFunction_values keyless []
                "Hi" [] no_key_state))
      = [user_turn "Sheet1" "Hi"; configuration_notice] /\
      turn_requests no_key_state
        (snd (handleSendMessage perform JSON_parse JSON_stringify
                ChartType_values PivotAggregationFunction_values keyless []
                "Hi" [] no_key_state)) = [] /\
      turn_entries no_key_state
        (snd (handleSendMessage perform JSON_parse JSON_stringify
                ChartType_values PivotAggregationFunction_values keyless []
                "Hi" [] no_key_state)) = [])
  /\ truthy_string (effectiveApiKey (render EmptyString "Sheet1" no_key_state))
     = true.
Proof.
  split; [reflexivity |]. split; [reflexivity |].
  exact (C5_empty_effective_key_stops_turn World perform JSON_parse
           JSON_stringify ChartType_values PivotAggregationFunction_values
           EmptyString "Sheet1" keyless [] "Hi" [] no_key_state "Sheet1"
           (world no_key_state) eq_refl eq_refl).
Defined.

(** With no API key given, the turn goes to the gateway with the built-in
    key and the reply is appended. *)
Lemma C5_absent_key_reaches_gateway :
  ~ unconfigured_turn_stops no_key_state (snd no_key_run) "Hi".
Proof.
  intros (_ & H & _). vm_compute in H. discriminate H.
Qed.

(** The run of [C6_embedding_failure_ends_turn] on three tagged sheets, the
    second of which does not exist: the first is embedded, the read of the
    second fails, the third is never looked at. *)
Lemma C6_missing_sheet_ends_turn :
  truthy_string (effectiveApiKey (render "sk-user" "Sheet1" tagged_state))
  = true
  /\ whole_workbook (["Sheet2"] ++ "Budget" :: ["Sheet1"]) = false
  /\ perform getActiveWorksheetName (world tagged_state)
     = (Ok "Sheet1", world tagged_state)
  /\ fst (embed_tagged perform (render "sk-user" "Sheet1" tagged_state)
            ["Sheet2"]
            (entry tagged_state "Sheet1" (world tagged_state) "Hi"))
     = Ok tt
  /\ perform (getCurrentSheetContent true "Budget")
       (world
          (snd (embed_tagged perform (render "sk-user" "Sheet1" tagged_state)
                  ["Sheet2"]
                  (entry tagged_state "Sheet1" (world tagged_state) "Hi"))))
     = (Throw (ErrorInstance "Worksheet not found" None), world tagged_state)
  /\ fst tagged_run = Ok tt
  /\ isLoading (snd tagged_run) = false
  /\ turn_appended tagged_state (snd tagged_run)
     = user_turn "Sheet1" "Hi" :: map embedded_notice ["Sheet2"]
       ++ [embedding_failed_notice;
           failure_turn (ErrorInstance "Worksheet not found" None)]
  /\ turn_requests tagged_state (snd tagged_run) = []
  /\ turn_entries tagged_state (snd tagged_run) = []
  /\ exists events,
       log (snd tagged_run)
       = log
           (snd (embed_tagged perform
                   (render "sk-user" "Sheet1" tagged_state) ["Sheet2"]
                   (entry tagged_state "Sheet1" (world tagged_state) "Hi")))
         ++ events /\
       (events =
        [EvOp (getCurrentSheetContent true "Budget")
           (Throw (ErrorInstance "Worksheet not found" None))]
        \/
        exists content,
          events =
          [EvOp (getCurrentSheetContent true "Budget") (Ok content);
           EvOp (embeddings_create
                   (openai (render "sk-user" "Sheet1" tagged_state))
                   "text-embedding-3-large" content "float")
             (Throw (ErrorInstance "Worksheet not found" None))]).
Proof.
  assert (H1 : truthy_string
                 (effectiveApiKey (render "sk-user" "Sheet1" tagged_state))
               = true) by reflexivity.
  assert (H2 : whole_workbook (["Sheet2"] ++ "Budget" :: ["Sheet1"]) = false)
    by reflexivity.
  assert (H3 : perform getActiveWorksheetName (world tagged_state)
               = (Ok "Sheet1", world tagged_state)) by reflexivity.
  assert (H4 : fst (embed_tagged perform
                      (render "sk-user" "Sheet1" tagged_state) ["Sheet2"]
                      (entry tagged_state "Sheet1" (world tagged_state) "Hi"))
               = Ok tt) by (vm_compute; reflexivity).
  assert (H5 : perform (getCurrentSheetContent true "Budget")
                 (world
                    (snd (embed_tagged perform
                            (render "sk-user" "Sheet1" tagged_state)
                            ["Sheet2"]
                            (entry tagged_state "Sheet1" (world tagged_state)
                               "Hi"))))
               = (Throw (ErrorInstance "Worksheet not found" None),
                  world tagged_state)) by (vm_compute; reflexivity).
  split; [exact H1 |]. split; [exact H2 |]. split; [exact H3 |].
  split; [exact H4 |]. split; [exact H5 |].
  exact (C6_embedding_failure_ends_turn World perform JSON_parse
           JSON_stringify ChartType_values PivotAggregationFunction_values
           (render "sk-user" "Sheet1" tagged_state) [] "Hi"
           ["Sheet2"] "Budget" ["Sheet1"] tagged_state "Sheet1"
           (world tagged_state) (ErrorInstance "Worksheet not found" None)
           H1 H2 H3 H4 (or_introl (ex_intro _ (world tagged_state) H5))).
Defined.

(** The failure on the second tagged sheet is reported, and the gateway is
    not called in that turn. *)
Lemma C6_missing_sheet_blocks_round1 :
  ~ prestep_failure_reaches_round1 tagged_state (snd tagged_run).
Proof.
  intros H. apply H.
  - vm_compute. right. right. left. reflexivity.
  - vm_compute. reflexivity.
Qed.

(** A first request that is rejected with an object, not an [Error], whose
    response has status 401: the entry made for a rejected credential is
    appended. *)
Example rejected_object_is_reported :
  In (first_request "sk-wrong" "Hi" (rejected_state rejected_object),
      Throw rejected_object)
    (turn_requests (rejected_state rejected_object)
       (snd (rejected_run rejected_object)))
  /\ fst (rejected_run rejected_object) = Ok tt
  /\ isLoading (snd (rejected_run rejected_object)) = false
  /\ (exists activeSheet,
        turn_appended (rejected_state rejected_object)
          (snd (rejected_run rejected_object))
        = user_turn activeSheet "Hi" :: notices []
          ++ [failure_turn rejected_object])
  /\ (nth_error
        (turn_requests (rejected_state rejected_object)
           (snd (rejected_run rejected_object))) 0
      = Some (first_request "sk-wrong" "Hi" (rejected_state rejected_object),
              Throw rejected_object) ->
      turn_entries (rejected_state rejected_object)
        (snd (rejected_run rejected_object)) = [])
  /\ failure_turn rejected_object
     = mkMsg "Invalid API key. Please check your settings." false.
Proof.
  assert (H : In (first_request "sk-wrong" "Hi"
                    (rejected_state rejected_object),
                  Throw rejected_object)
                (turn_requests (rejected_state rejected_object)
                   (snd (rejected_run rejected_object))))
    by (vm_compute; left; reflexivity).
  split; [exact H |].
  exact (gateway_failure_is_reported World perform JSON_parse
           JSON_stringify ChartType_values PivotAggregationFunction_values
           (render "sk-wrong" "Sheet1" (rejected_state rejected_object))
           [] "Hi" [] (rejected_state rejected_object) _ _ H).
Qed.

(** The run of [C7_rejected_credential_is_not_told_apart] on a first
    request that the gateway rejects with an [Error] of status 401. *)
Lemma C7_rejected_error_is_reported_as_error :
  In (first_request "sk-wrong" "Hi" (rejected_state rejected_error),
      Throw (ErrorInstance "401 Incorrect API key provided" (Some 401%Z)))
    (turn_requests (rejected_state rejected_error)
       (snd (rejected_run rejected_error)))
  /\ fst (rejected_run rejected_error) = Ok tt
  /\ isLoading (snd (rejected_run rejected_error)) = false
  /\ (exists activeSheet,
        turn_appended (rejected_state rejected_error)
          (snd (rejected_run rejected_error))
        = user_turn activeSheet "Hi" :: notices []
          ++ [mkMsg "Error: 401 Incorrect API key provided" false])
  /\ ~ In (mkMsg "Invalid API key. Please check your settings." false)
         (turn_appended (rejected_state rejected_error)
            (snd (rejected_run rejected_error)))
  /\ (nth_error
        (turn_requests (rejected_state rejected_error)
           (snd (rejected_run rejected_error))) 0
      = Some (first_request "sk-wrong" "Hi" (rejected_state rejected_error),
              Throw (ErrorInstance "401 Incorrect API key provided"
                       (Some 401%Z))) ->
      turn_entries (rejected_state rejected_error)
        (snd (rejected_run rejected_error)) = []).
Proof.
  assert (H : In (first_request "sk-wrong" "Hi"
                    (rejected_state rejected_error),
                  Throw (ErrorInstance "401 Incorrect API key provided"
                           (Some 401%Z)))
                (turn_requests (rejected_state rejected_error)
                   (snd (rejected_run rejected_error))))
    by (vm_compute; left; reflexivity).
  split; [exact H |].
  exact (C7_rejected_credential_is_not_told_apart World perform JSON_parse
           JSON_stringify ChartType_values PivotAggregationFunction_values
           (render "sk-wrong" "Sheet1" (rejected_state rejected_error))
           [] "Hi" [] (rejected_state rejected_error) _ _ _ H).
Defined.

(** A credential rejected with an [Error] that carries the status 401 is
    reported with the error's own message, not with the entry made for a
    rejected credential. *)
Lemma C7_rejected_error_has_no_special_turn :
  ~ credential_rejection_gets_its_turn (rejected_state rejected_error)
      (snd (rejected_run rejected_error)).
Proof.
  intros H.
  assert (H0 : In (first_request "sk-wrong" "Hi"
                     (rejected_state rejected_error),
                   Throw rejected_error)
                 (turn_requests (rejected_state rejected_error)
                    (snd (rejected_run rejected_error))))
    by (vm_compute; left; reflexivity).
  specialize (H _ _ H0 eq_refl). vm_compute in H.
  destruct H as [H | [H | []]]; discriminate H.
Qed.

(** The run of [C1_syntax_error_aborts_batch] on a batch of two calls, the
    second with a cut-off argument text. *)
Lemma C1_cut_off_arguments_abort_batch :
  nth_error (turn_requests cut_off_state (snd cut_off_run)) 0
  = Some (first_request "sk-user" batch_text cut_off_state,
          Ok (proposing [list_sheets; chart_cut_off]))
  /\ proposed (first_message (Some (proposing [list_sheets; chart_cut_off])))
     = Some (mkMessage None (Some [list_sheets; chart_cut_off]),
             [list_sheets; chart_cut_off])
  /\ first_syntax_error JSON_parse [list_sheets; chart_cut_off]
     = Some "Unexpected end of JSON input"
  /\ fst cut_off_run = Ok tt
  /\ turn_requests cut_off_state (snd cut_off_run)
     = [(first_request "sk-user" batch_text cut_off_state,
         Ok (proposing [list_sheets; chart_cut_off]))]
  /\ turn_entries cut_off_state (snd cut_off_run)
     = [list_sheets; chart_cut_off]
  /\ exists activeSheet,
       turn_appended cut_off_state (snd cut_off_run)
       = user_turn activeSheet batch_text :: notices []
         ++ [failure_turn
               (ErrorInstance "Unexpected end of JSON input" None)].
Proof.
  assert (H : nth_error (turn_requests cut_off_state (snd cut_off_run)) 0
              = Some (first_request "sk-user" batch_text cut_off_state,
                      Ok (proposing [list_sheets; chart_cut_off])))
    by (vm_compute; reflexivity).
  split; [exact H |]. split; [reflexivity |]. split; [reflexivity |].
  exact (C1_syntax_error_aborts_batch World perform JSON_parse JSON_stringify
           ChartType_values PivotAggregationFunction_values
           (render "sk-user" "Sheet1" cut_off_state) [] batch_text []
           cut_off_state _ _ _ _ _ H eq_refl eq_refl).
Defined.

(** The run of [C2_syntax_error_drops_every_result] on the same batch. *)
Lemma C2_cut_off_arguments_drop_results :
  nth_error (turn_requests cut_off_state (snd cut_off_run)) 0
  = Some (first_request "sk-user" batch_text cut_off_state,
          Ok (proposing [list_sheets; chart_cut_off]))
  /\ proposed (first_message (Some (proposing [list_sheets; chart_cut_off])))
     = Some (mkMessage None (Some [list_sheets; chart_cut_off]),
             [list_sheets; chart_cut_off])
  /\ first_syntax_error JSON_parse [list_sheets; chart_cut_off]
     = Some "Unexpected end of JSON input"
  /\ 1 <= length [list_sheets; chart_cut_off]
  /\ forall body' o,
       In (body', o) (turn_requests cut_off_state (snd cut_off_run)) ->
       Forall plain (messages_of body').
Proof.
  assert (H : nth_error (turn_requests cut_off_state (snd cut_off_run)) 0
              = Some (first_request "sk-user" batch_text cut_off_state,
                      Ok (proposing [list_sheets; chart_cut_off])))
    by (vm_compute; reflexivity).
  split; [exact H |]. split; [reflexivity |]. split; [reflexivity |].
  exact (C2_syntax_error_drops_every_result World perform JSON_parse
           JSON_stringify ChartType_values PivotAggregationFunction_values
           (render "sk-user" "Sheet1" cut_off_state) [] batch_text []
           cut_off_state _ _ _ _ _ H eq_refl eq_refl).
Defined.

Lemma coffee_not_in_registry :
  ~ In (function_name coffee_cut_off)
      (registry ChartType_values PivotAggregationFunction_values).
Proof.
  vm_compute. intros H.
  repeat (destruct H as [H | H]; [discriminate H |]). exact H.
Defined.

(** The run of [C4_unknown_name_can_reject_batch] on a batch of a valid
    call and a call of an unknown name with a cut-off argument text. *)
Lemma C4_unknown_name_cut_off_rejects_batch :
  ~ In (function_name coffee_cut_off)
      (registry ChartType_values PivotAggregationFunction_values)
  /\ JSON_parse (function_arguments coffee_cut_off)
     = inr "Unexpected end of JSON input"
  /\ toolCallback JSON_parse JSON_stringify ChartType_values coffee_cut_off
     = Reject (ErrorInstance "Unexpected end of JSON input" None)
  /\ exists e,
       fst (Promise_all perform [1; 0]
              (map (toolCallback JSON_parse JSON_stringify ChartType_values)
                 ([list_sheets] ++ coffee_cut_off :: []))
              cut_off_state)
       = Throw e.
Proof.
  split; [exact coffee_not_in_registry |]. split; [reflexivity |].
  exact (C4_unknown_name_can_reject_batch World perform JSON_parse
           JSON_stringify ChartType_values PivotAggregationFunction_values
           [1; 0] [list_sheets] [] coffee_cut_off
           "Unexpected end of JSON input" cut_off_state
           coffee_not_in_registry eq_refl).
Defined.

(* ================================================================== *)
(** ** The scenarios of the code around the handler                    *)
(* ================================================================== *)

Local Abbreviation not_found := (ErrorInstance "Worksheet not found" None).
Local Abbreviation out_of_reach := (ErrorInstance "Host unreachable" None).
Local Abbreviation user_client := (new_OpenAI "sk-user").

(** [X2_embedWorksheet_unreadable_sheet] on a sheet that does not exist. *)
Lemma X2_missing_sheet_is_not_sent :
  perform (getCurrentSheetContent true "Budget") (world (start [] history))
  = (Throw not_found, [])
  /\
  await perform (embedWorksheet user_client "Budget") (start [] history)
  = (Throw not_found,
     mkState [] history false
       [EvOp (getCurrentSheetContent true "Budget") (Throw not_found)]).
Proof.
  assert (H : perform (getCurrentSheetContent true "Budget")
                (world (start [] history)) = (Throw not_found, []))
    by reflexivity.
  split; [exact H |].
  exact (X2_embedWorksheet_unreadable_sheet World perform user_client
           "Budget" (start [] history) not_found [] H).
Defined.

(** [X3_embedWorksheet_sends_sheet_content] on the first sheet. *)
Lemma X3_first_sheet_is_embedded :
  perform (getCurrentSheetContent true "Sheet1") (world (start [] history))
  = (Ok "42", [])
  /\
  perform (embeddings_create user_client "text-embedding-3-large" "42" "float")
    [] = (Ok [["0.1"; "0.2"]], [])
  /\
  fst (await perform (embedWorksheet user_client "Sheet1") (start [] history))
  = Ok ["0.1"; "0.2"]
  /\
  log (snd (await perform (embedWorksheet user_client "Sheet1")
              (start [] history)))
  = [EvOp (getCurrentSheetContent true "Sheet1") (Ok "42");
     EvOp (embeddings_create user_client "text-embedding-3-large" "42" "float")
       (Ok [["0.1"; "0.2"]])].
Proof.
  assert (H1 : perform (getCurrentSheetContent true "Sheet1")
                 (world (start [] history)) = (Ok "42", []))
    by reflexivity.
  assert (H2 : perform
                 (embeddings_create user_client "text-embedding-3-large" "42"
                    "float") [] = (Ok [["0.1"; "0.2"]], []))
    by reflexivity.
  split; [exact H1 |]. split; [exact H2 |].
  exact (X3_embedWorksheet_sends_sheet_content World perform user_client
           "Sheet1" "42" (start [] history) [] [] (Ok [["0.1"; "0.2"]])
           H1 H2).
Defined.

(** [X4_handleEmbedAllWorksheets_reports_success] in the world in which no
    sheet can be read: the notice of success is appended all the same. *)
Lemma X4_success_is_reported_for_no_embedding :
  perform_without_content getWorksheetNames (world (start [] history))
  = (Ok ["Sheet1"; "Sheet2"], [])
  /\
  fst (handleEmbedAllWorksheets perform_without_content
         (render "sk-user" "Sheet1" (start [] history)) (start [] history))
  = Ok []
  /\
  exists embeddings,
    fst (handleEmbedAllWorksheets perform_without_content
           (render "sk-user" "Sheet1" (start [] history)) (start [] history))
    = Ok embeddings /\
    incl (map fst embeddings) ["Sheet1"; "Sheet2"] /\
    messages
      (snd (handleEmbedAllWorksheets perform_without_content
              (render "sk-user" "Sheet1" (start [] history))
              (start [] history)))
    = messages (start [] history) ++ [all_embedded_notice].
Proof.
  assert (H : perform_without_content getWorksheetNames
                (world (start [] history)) = (Ok ["Sheet1"; "Sheet2"], []))
    by reflexivity.
  split; [exact H |]. split; [vm_compute; reflexivity |].
  exact (X4_handleEmbedAllWorksheets_reports_success World
           perform_without_content
           (render "sk-user" "Sheet1" (start [] history)) (start [] history)
           ["Sheet1"; "Sheet2"] [] H).
Defined.


(** [X9_read_range_reports_its_failure] with the host out of reach. *)
Lemma X9_unreachable_range_is_reported :
  function_name read_selection = "read_range" /\
  get (Object []) "rangeAddress" = Ok Undefined /\
  unreachable (getRangeData Undefined) (world (start [] history))
  = (Throw out_of_reach, []) /\
  fst (await unreachable
         (execute JSON_stringify ChartType_values read_selection (Object []))
         (start [] history))
  = Ok (mkToolResult "call_1" "Failed to read range. Host unreachable").
Proof.
  assert (H1 : function_name read_selection = "read_range") by reflexivity.
  assert (H2 : get (Object []) "rangeAddress" = Ok Undefined) by reflexivity.
  assert (H3 : unreachable (getRangeData Undefined) (world (start [] history))
               = (Throw out_of_reach, [])) by reflexivity.
  split; [exact H1 |]. split; [exact H2 |]. split; [exact H3 |].
  exact (X9_read_range_reports_its_failure World unreachable JSON_stringify
           ChartType_values read_selection (Object []) Undefined
           (start [] history) out_of_reach [] H1 H2 H3).
Defined.

(** [X10_analysis_is_not_requested_without_data] with the host out of
    reach. *)
Lemma X10_unreachable_range_is_not_analysed :
  function_name analyze_selection = "analyze_selected_range" /\
  unreachable (getRangeData Undefined) (world (start [] history))
  = (Throw out_of_reach, []) /\
  await unreachable
    (execute JSON_stringify ChartType_values analyze_selection (Object []))
    (start [] history)
  = (Ok (mkToolResult "call_1"
           "Failed to analyze the selected range. Host unreachable"),
     mkState [] history false
       [EvOp (getRangeData Undefined) (Throw out_of_reach)]).
Proof.
  assert (H1 : function_name analyze_selection = "analyze_selected_range")
    by reflexivity.
  assert (H2 : unreachable (getRangeData Undefined) (world (start [] history))
               = (Throw out_of_reach, [])) by reflexivity.
  split; [exact H1 |]. split; [exact H2 |].
  exact (X10_analysis_is_not_requested_without_data World unreachable
           JSON_stringify ChartType_values analyze_selection (Object [])
           (start [] history) out_of_reach [] H1 H2).
Defined.

(** [X12_parsed_batch_always_fulfils] on the batch of three calls, run
    last call first. *)
Lemma X12_batch_of_three_fulfils :
  first_syntax_error JSON_parse [list_sheets; chart_without_range; coffee]
  = None
  /\
  exists results,
    fst (Promise_all perform [2; 1; 0]
           (map (toolCallback JSON_parse JSON_stringify ChartType_values)
              [list_sheets; chart_without_range; coffee]) batch_state)
    = Ok results /\
    map tool_call_id results
    = map id [list_sheets; chart_without_range; coffee].
Proof.
  assert (H : first_syntax_error JSON_parse
                [list_sheets; chart_without_range; coffee] = None)
    by reflexivity.
  split; [exact H |].
  exact (X12_parsed_batch_always_fulfils World perform JSON_parse
           JSON_stringify ChartType_values PivotAggregationFunction_values
           [2; 1; 0]
           [list_sheets; chart_without_range; coffee] batch_state H).
Defined.

(** [X14_unknown_name_leaves_the_batch_alone] on a call of make_coffee put
    between two calls the catalog has. *)
Lemma X14_coffee_leaves_the_batch_alone :
  ~ In (function_name coffee)
      (registry ChartType_values PivotAggregationFunction_values)
  /\
  JSON_parse (function_arguments coffee) = inl (Object [])
  /\
  1 <= length [list_sheets; chart_without_range]
  /\
  Promise_all perform [2; 1; 0]
    (map (toolCallback JSON_parse JSON_stringify ChartType_values)
       (insert_at 1 coffee [list_sheets; chart_without_range])) batch_state
  = (match
       fst (Promise_all perform (without 1 [2; 1; 0])
              (map (toolCallback JSON_parse JSON_stringify ChartType_values)
                 [list_sheets; chart_without_range]) batch_state)
     with
     | Ok results =>
         Ok (insert_at 1 (mkToolResult (id coffee) unsupported) results)
     | Throw e => Throw e
     end,
     snd (Promise_all perform (without 1 [2; 1; 0])
            (map (toolCallback JSON_parse JSON_stringify ChartType_values)
               [list_sheets; chart_without_range]) batch_state)).
Proof.
  assert (H2 : JSON_parse (function_arguments coffee) = inl (Object []))
    by reflexivity.
  assert (H3 : 1 <= length [list_sheets; chart_without_range])
    by (simpl; lia).
  split; [exact coffee_not_in_registry |]. split; [exact H2 |].
  split; [exact H3 |].
  exact (X14_unknown_name_leaves_the_batch_alone World perform JSON_parse
           JSON_stringify ChartType_values PivotAggregationFunction_values
           1 [2; 1; 0] [list_sheets; chart_without_range] coffee (Object [])
           batch_state coffee_not_in_registry H2 H3).
Defined.

(** [X16_first_request_of_a_turn] on the turn that reads a cell. *)
Lemma X16_first_request_of_the_read :
  nth_error (turn_requests read_state (snd read_run)) 0
  = Some (first_request "sk-user" "What's in A1?" read_state,
          Ok (proposing [read_cell]))
  /\
  messages_of (first_request "sk-user" "What's in A1?" read_state)
  = SystemMessage (system_prompt_round1 "Sheet1")
    :: map as_param (messages read_state) ++ [UserMessage "What's in A1?"]
  /\
  model (first_request "sk-user" "What's in A1?" read_state)
  = "gpt-4o-2024-08-06"
  /\
  tool_choice (first_request "sk-user" "What's in A1?" read_state) = "auto"
  /\
  map name (tools_of (first_request "sk-user" "What's in A1?" read_state))
  = registry ChartType_values PivotAggregationFunction_values.
Proof.
  assert (H : nth_error (turn_requests read_state (snd read_run)) 0
              = Some (first_request "sk-user" "What's in A1?" read_state,
                      Ok (proposing [read_cell])))
    by (vm_compute; reflexivity).
  split; [exact H |].
  exact (X16_first_request_of_a_turn World perform JSON_parse JSON_stringify
           ChartType_values PivotAggregationFunction_values "sk-user" "Sheet1"
           [] "What's in A1?" [] read_state _ _ H).
Defined.

(** [X17_second_request_extends_the_first] on the turn that reads a
    cell. *)
Lemma X17_second_request_of_the_read :
  turn_requests read_state (snd read_run)
  = [ (first_request "sk-user" "What's in A1?" read_state,
       Ok (proposing [read_cell]));
      (nth 1 (map fst (turn_requests read_state (snd read_run)))
         (first_request "sk-user" "What's in A1?" read_state),
       Ok (saying "A1 holds 42.")) ]
  /\
  tools_of
    (nth 1 (map fst (turn_requests read_state (snd read_run)))
       (first_request "sk-user" "What's in A1?" read_state))
  = tools_of (first_request "sk-user" "What's in A1?" read_state).
Proof.
  assert (H : turn_requests read_state (snd read_run)
              = [ (first_request "sk-user" "What's in A1?" read_state,
                   Ok (proposing [read_cell]));
                  (nth 1 (map fst (turn_requests read_state (snd read_run)))
                     (first_request "sk-user" "What's in A1?" read_state),
                   Ok (saying "A1 holds 42.")) ])
    by (vm_compute; reflexivity).
  split; [exact H |].
  exact (proj1 (proj2
           (X17_second_request_extends_the_first World perform JSON_parse
              JSON_stringify ChartType_values PivotAggregationFunction_values
              (render "sk-user" "Sheet1" read_state) [] "What's in A1?" []
              read_state _ _ _ _ H))).
Defined.

(** [X20_requests_come_after_the_notices] on a turn with two tagged
    sheets. *)
Lemma X20_notices_of_two_sheets_come_first :
  turn_requests embedded_state (snd embedded_run) <> []
  /\
  turn_appended embedded_state (snd embedded_run)
  = [ user_turn "Sheet1" "Hi"; embedded_notice "Sheet2";
      embedded_notice "Sheet1"; mkMsg "Hello!" false ]
  /\
  exists activeSheet rest,
    turn_appended embedded_state (snd embedded_run)
    = user_turn activeSheet "Hi" :: notices ["Sheet2"; "Sheet1"] ++ rest /\
    length rest <= 1.
Proof.
  assert (H : turn_requests embedded_state (snd embedded_run) <> [])
    by (vm_compute; discriminate).
  split; [exact H |]. split; [vm_compute; reflexivity |].
  exact (X20_requests_come_after_the_notices World perform JSON_parse
           JSON_stringify ChartType_values PivotAggregationFunction_values
           (render "sk-user" "Sheet1" embedded_state) [] "Hi"
           ["Sheet2"; "Sheet1"] embedded_state H).
Defined.

(** [X21_unreadable_selection_ends_the_turn] in the world in which the
    selection cannot be read, with one tagged sheet. *)
Lemma X21_turn_without_selection :
  let st := start [Ok (saying "Hello!")] history in
  let c := render "sk-user" "Sheet1" st in
  let run :=
    handleSendMessage perform_without_selection JSON_parse JSON_stringify
      ChartType_values PivotAggregationFunction_values c [] "Hi" ["Sheet2"]
      st in
  truthy_string (effectiveApiKey c) = true /\
  perform_without_selection getActiveWorksheetName (world st)
  = (Ok "Sheet1", [Ok (saying "Hello!")]) /\
  fst (embed_tagged perform_without_selection c ["Sheet2"]
         (entry st "Sheet1" [Ok (saying "Hello!")] "Hi")) = Ok tt /\
  perform_without_selection getSelectedRangeInfo
    (world (snd (embed_tagged perform_without_selection c ["Sheet2"]
                   (entry st "Sheet1" [Ok (saying "Hello!")] "Hi"))))
  = (Throw (ErrorInstance "No selection" None), [Ok (saying "Hello!")]) /\
  fst run = Ok tt /\
  turn_appended st (snd run)
  = user_turn "Sheet1" "Hi" :: notices ["Sheet2"]
    ++ [failure_turn (ErrorInstance "No selection" None)] /\
  turn_requests st (snd run) = [] /\
  turn_entries st (snd run) = [].
Proof.
  cbv zeta.
  assert (H1 : truthy_string
                 (effectiveApiKey
                    (render "sk-user" "Sheet1"
                       (start [Ok (saying "Hello!")] history))) = true)
    by reflexivity.
  assert (H2 : perform_without_selection getActiveWorksheetName
                 (world (start [Ok (saying "Hello!")] history))
               = (Ok "Sheet1", [Ok (saying "Hello!")])) by reflexivity.
  assert (H3 : fst (embed_tagged perform_without_selection
                      (render "sk-user" "Sheet1"
                         (start [Ok (saying "Hello!")] history)) ["Sheet2"]
                      (entry (start [Ok (saying "Hello!")] history) "Sheet1"
                         [Ok (saying "Hello!")] "Hi")) = Ok tt)
    by (vm_compute; reflexivity).
  assert (H4 : perform_without_selection getSelectedRangeInfo
                 (world
                    (snd (embed_tagged perform_without_selection
                            (render "sk-user" "Sheet1"
                               (start [Ok (saying "Hello!")] history))
                            ["Sheet2"]
                            (entry (start [Ok (saying "Hello!")] history)
                               "Sheet1" [Ok (saying "Hello!")] "Hi"))))
               = (Throw (ErrorInstance "No selection" None),
                  [Ok (saying "Hello!")]))
    by (vm_compute; reflexivity).
  split; [exact H1 |]. split; [exact H2 |]. split; [exact H3 |].
  split; [exact H4 |].
  exact (X21_unreadable_selection_ends_the_turn World
           perform_without_selection JSON_parse JSON_stringify
           ChartType_values PivotAggregationFunction_values
           (render "sk-user" "Sheet1" (start [Ok (saying "Hello!")] history))
           [] "Hi" ["Sheet2"] (start [Ok (saying "Hello!")] history)
           "Sheet1" [Ok (saying "Hello!")] [Ok (saying "Hello!")]
           (ErrorInstance "No selection" None) H1 H2 H3 H4).
Defined.

(** [X22_missing_client_ends_the_turn_silently] on a handler without a
    client: the answer the gateway holds ready is never asked for. *)
Lemma X22_clientless_turn_is_silent :
  let st := start [Ok (saying "Hello!")] history in
  let run :=
    handleSendMessage perform JSON_parse JSON_stringify ChartType_values
      PivotAggregationFunction_values clientless [] "Hi" [] st in
  openaiRef_current clientless = None /\
  truthy_string (effectiveApiKey clientless) = true /\
  perform getActiveWorksheetName (world st)
  = (Ok "Sheet1", [Ok (saying "Hello!")]) /\
  fst (embed_tagged perform clientless []
         (entry st "Sheet1" [Ok (saying "Hello!")] "Hi")) = Ok tt /\
  perform getSelectedRangeInfo
    (world (snd (embed_tagged perform clientless []
                   (entry st "Sheet1" [Ok (saying "Hello!")] "Hi"))))
  = (Ok selection, [Ok (saying "Hello!")]) /\
  fst run = Ok tt /\
  isLoading (snd run) = false /\
  turn_appended st (snd run) = user_turn "Sheet1" "Hi" :: notices [] /\
  turn_requests st (snd run) = [] /\
  turn_entries st (snd run) = [].
Proof.
  cbv zeta.
  assert (H0 : openaiRef_current clientless = None) by reflexivity.
  assert (H1 : truthy_string (effectiveApiKey clientless) = true)
    by reflexivity.
  assert (H2 : perform getActiveWorksheetName
                 (world (start [Ok (saying "Hello!")] history))
               = (Ok "Sheet1", [Ok (saying "Hello!")])) by reflexivity.
  assert (H3 : fst (embed_tagged perform clientless []
                      (entry (start [Ok (saying "Hello!")] history) "Sheet1"
                         [Ok (saying "Hello!")] "Hi")) = Ok tt)
    by reflexivity.
  assert (H4 : perform getSelectedRangeInfo
                 (world
                    (snd (embed_tagged perform clientless []
                            (entry (start [Ok (saying "Hello!")] history)
                               "Sheet1" [Ok (saying "Hello!")] "Hi"))))
               = (Ok selection, [Ok (saying "Hello!")])) by reflexivity.
  split; [exact H0 |]. split; [exact H1 |]. split; [exact H2 |].
  split; [exact H3 |]. split; [exact H4 |].
  exact (X22_missing_client_ends_the_turn_silently World perform JSON_parse
           JSON_stringify ChartType_values PivotAggregationFunction_values
           clientless [] "Hi" [] (start [Ok (saying "Hello!")] history)
           "Sheet1" [Ok (saying "Hello!")] selection [Ok (saying "Hello!")]
           H0 H1 H2 H3 H4).
Defined.

(** [X23_workbook_tag_overrides_the_others] on a turn tagged with a sheet
    that does not exist and with workbook: the missing sheet is never
    looked for. *)
Lemma X23_workbook_beside_a_missing_sheet :
  In "workbook" ["Budget"; "workbook"]
  /\
  send "sk-user" [] "Hi" ["Budget"; "workbook"] tagged_state
  = send "sk-user" [] "Hi" ["workbook"] tagged_state.
Proof.
  assert (H : In "workbook" ["Budget"; "workbook"])
    by (right; left; reflexivity).
  split; [exact H |].
  exact (X23_workbook_tag_overrides_the_others World perform JSON_parse
           JSON_stringify ChartType_values PivotAggregationFunction_values
           (render "sk-user" "Sheet1" tagged_state) [] "Hi"
           ["Budget"; "workbook"] tagged_state H).
Defined.
